(** * Purchase analysis tool: customer segmentation and recommendations

A shallow embedding of [src/classification.py] (class
[CustomerSegmentation]), [src/recommendation.py] (class
[RecommendationEngine]) and the two commands of [src/cli.py] that run
them, with the printers of [src/utils.py] they call, and the
properties of the specification checked against it.

Conventions of the embedding.
- A pandas [DataFrame] is a list of rows in file order; an index is a
  list of labels.
- Purchase amounts are decimal quantities and are held as exact
  rationals ([Q]); a float64 value that may be undefined is a
  [float64]: a rational, an infinity or NaN.  Rounding and signed
  zeros are outside the model.
- Python exceptions are the [Raise] results of the [result] monad.
- Library routines whose results are not determined by the source
  ([numpy.sqrt], scikit-learn's scaler and k-means, ARPACK behind
  [scipy.sparse.linalg.svds], the unstable sort behind
  [Series.sort_values], the float format specifications and
  [json.dumps]) are section variables. *)

From Stdlib Require Import List String Ascii Bool ZArith QArith Qround Lia.
From Stdlib Require Import Permutation Sorted Lqa.
From Stdlib Require DecimalString.
Import ListNotations.

Local Open Scope Z_scope.
Local Open Scope Q_scope.

(* ------------------------------------------------------------------ *)
(** * Python results *)

Module Py.

Inductive exn : Type :=
| ValueError
| IndexError
| KeyError.

Inductive result (A : Type) : Type :=
| Ok (a : A)
| Raise (e : exn).

Arguments Ok {A} a.
Arguments Raise {A} e.

Definition bind {A B : Type} (r : result A) (k : A -> result B) : result B :=
  match r with
  | Ok a => k a
  | Raise e => Raise e
  end.

Definition returns {A : Type} (r : result A) : Prop :=
  exists a, r = Ok a.

Definition raises {A : Type} (r : result A) : Prop :=
  exists e, r = Raise e.

(** Python's [xs[:n]]: a negative [n] counts from the end. *)
Definition slice_to {A : Type} (xs : list A) (n : Z) : list A :=
  if (0 <=? n)%Z then firstn (Z.to_nat n) xs
  else firstn (Z.to_nat (Z.of_nat (List.length xs) + n)) xs.

End Py.

Notation "x <- r ;; k" := (Py.bind r (fun x => k))
  (at level 61, r at next level, right associativity).

(* ------------------------------------------------------------------ *)
(** * float64 values *)

Module Float.

Inductive float64 : Type :=
| NaN
| PInf
| NInf
| Fin (q : Q).

Definition Qltb (x y : Q) : bool :=
  (Qnum x * QDen y <? Qnum y * QDen x)%Z.

Definition is_nan (x : float64) : bool :=
  match x with NaN => true | _ => false end.

(** [x > y] *)
Definition gtb (x y : float64) : bool :=
  match x, y with
  | NaN, _ | _, NaN => false
  | NInf, _ => false
  | PInf, PInf => false
  | PInf, _ => true
  | Fin _, PInf => false
  | Fin _, NInf => true
  | Fin a, Fin b => Qltb b a
  end.

(** [x == y] *)
Definition eqb (x y : float64) : bool :=
  match x, y with
  | PInf, PInf | NInf, NInf => true
  | Fin a, Fin b => Qeq_bool a b
  | _, _ => false
  end.

Definition add (x y : float64) : float64 :=
  match x, y with
  | NaN, _ | _, NaN => NaN
  | PInf, NInf | NInf, PInf => NaN
  | PInf, _ | _, PInf => PInf
  | NInf, _ | _, NInf => NInf
  | Fin a, Fin b => Fin (a + b)
  end.

Definition neg (x : float64) : float64 :=
  match x with
  | NaN => NaN
  | PInf => NInf
  | NInf => PInf
  | Fin a => Fin (- a)
  end.

Definition inf_of_sign (negative : bool) : float64 :=
  if negative then NInf else PInf.

Definition mul (x y : float64) : float64 :=
  match x, y with
  | NaN, _ | _, NaN => NaN
  | Fin a, Fin b => Fin (a * b)
  | Fin a, PInf | PInf, Fin a =>
      if Qeq_bool a 0 then NaN else inf_of_sign (Qltb a 0)
  | Fin a, NInf | NInf, Fin a =>
      if Qeq_bool a 0 then NaN else inf_of_sign (negb (Qltb a 0))
  | PInf, PInf | NInf, NInf => PInf
  | PInf, NInf | NInf, PInf => NInf
  end.

(** numpy's true division: [x / 0] is an infinity, [0 / 0] is NaN. *)
Definition div (x y : float64) : float64 :=
  match x, y with
  | NaN, _ | _, NaN => NaN
  | Fin a, Fin b =>
      if Qeq_bool b 0
      then (if Qeq_bool a 0 then NaN else inf_of_sign (Qltb a 0))
      else Fin (a / b)
  | Fin _, _ => Fin 0
  | PInf, Fin b => inf_of_sign (Qltb b 0)
  | NInf, Fin b => inf_of_sign (negb (Qltb b 0))
  | _, _ => NaN
  end.

Definition of_Z (z : Z) : float64 := Fin (inject_Z z).

Definition of_nat (n : nat) : float64 := of_Z (Z.of_nat n).

Definition sum (xs : list float64) : float64 :=
  fold_left add xs (Fin 0).

(** Equality of float64 values up to the representation of the
    rational. *)
Definition equiv (x y : float64) : Prop :=
  match x, y with
  | NaN, NaN | PInf, PInf | NInf, NInf => True
  | Fin a, Fin b => a == b
  | _, _ => False
  end.

End Float.

Export Float(float64, NaN, PInf, NInf, Fin).

Declare Scope float_scope.
Delimit Scope float_scope with float.
Infix ">?" := Float.gtb (at level 70) : float_scope.
Infix "==?" := Float.eqb (at level 70) : float_scope.
Infix "+" := Float.add : float_scope.
Infix "*" := Float.mul : float_scope.
Infix "/" := Float.div : float_scope.
Infix "=~" := Float.equiv (at level 70) : float_scope.

(* ------------------------------------------------------------------ *)
(** * The pandas operations the two engines use *)

Module Pandas.

Section Sorting.
Context {A : Type} (leb : A -> A -> bool).

Fixpoint insert_by (x : A) (l : list A) : list A :=
  match l with
  | [] => [x]
  | y :: l' => if leb x y then x :: y :: l' else y :: insert_by x l'
  end.

(** An insertion sort; equal elements keep their order. *)
Definition sort_by (l : list A) : list A :=
  fold_right insert_by [] l.
End Sorting.

(** The sorted distinct labels: the keys of a [groupby], the index and
    the columns of a [pivot_table]. *)
Definition unique_sorted (l : list string) : list string :=
  sort_by String.leb (nodup string_dec l).

(** [Series.unique()]: distinct values in order of first appearance. *)
Fixpoint unique (l : list string) : list string :=
  match l with
  | [] => []
  | x :: l' => x :: filter (fun y => negb (String.eqb y x)) (unique l')
  end.

Definition Qsum (xs : list Q) : Q := fold_right Qplus 0 xs.

Definition sum_nat (xs : list nat) : nat := fold_right Nat.add 0%nat xs.

(** [Series.mean()] of a column without missing values; empty gives
    NaN. *)
Definition mean (xs : list Q) : float64 :=
  Float.div (Fin (Qsum xs)) (Float.of_nat (List.length xs)).

(** [Series.mean()] of a float column: missing values are skipped. *)
Definition nanmean (xs : list float64) : float64 :=
  let present := filter (fun x => negb (Float.is_nan x)) xs in
  Float.div (Float.sum present) (Float.of_nat (List.length present)).

(** [Series.quantile(q)] with the default linear interpolation
    between order statistics; [q] outside [0, 1] is a [ValueError]. *)
Definition quantile (xs : list Q) (q : Q) : Py.result float64 :=
  if Qle_bool 0 q && Qle_bool q 1 then
    match sort_by Qle_bool xs with
    | [] => Py.Ok NaN
    | (x0 :: _) as sorted =>
        let n := List.length sorted in
        let pos := q * inject_Z (Z.of_nat n - 1) in
        let lo := Z.to_nat (Qfloor pos) in
        let frac := pos - inject_Z (Qfloor pos) in
        let x_lo := nth lo sorted x0 in
        let x_hi := nth (Nat.min (S lo) (n - 1)) sorted x0 in
        Py.Ok (Fin (x_lo + (x_hi - x_lo) * frac))
    end
  else Py.Raise Py.ValueError.

Section Std.
(** [numpy.sqrt] on a non-negative finite value. *)
Variable sqrt : Q -> Q.

(** [Series.std()]: sample standard deviation ([ddof = 1]); with
    fewer than two values the result is NaN. *)
Definition std (xs : list Q) : float64 :=
  let n := List.length xs in
  if (n <=? 1)%nat then NaN
  else
    let m := Qsum xs / inject_Z (Z.of_nat n) in
    let sq := map (fun x => (x - m) * (x - m)) xs in
    Fin (sqrt (Qsum sq / inject_Z (Z.of_nat n - 1))).
End Std.

(** A frame with labelled rows and columns. *)
Record DataFrame (V : Type) : Type := mkDataFrame {
  index : list string;
  columns : list string;
  values : list (list V)
}.

Arguments mkDataFrame {V}.
Arguments index {V}.
Arguments columns {V}.
Arguments values {V}.

Fixpoint position (label : string) (labels : list string) : option nat :=
  match labels with
  | [] => None
  | l :: ls =>
      if String.eqb l label then Some 0%nat
      else option_map S (position label ls)
  end.

(** [label in frame.index] *)
Definition in_index (label : string) (labels : list string) : bool :=
  existsb (String.eqb label) labels.

(** [frame.loc[label]]: the row of a label. *)
Definition loc_row {V : Type} (f : DataFrame V) (label : string)
  : Py.result (list V) :=
  match position label (index f) with
  | Some i =>
      match nth_error (values f) i with
      | Some r => Py.Ok r
      | None => Py.Raise Py.KeyError
      end
  | None => Py.Raise Py.KeyError
  end.

(** [frame.loc[row_label, column_label]] *)
Definition loc_cell {V : Type} (f : DataFrame V) (r c : string)
  : Py.result V :=
  row <- loc_row f r ;;
  match position c (columns f) with
  | Some j =>
      match nth_error row j with
      | Some v => Py.Ok v
      | None => Py.Raise Py.KeyError
      end
  | None => Py.Raise Py.KeyError
  end.

End Pandas.

(* ------------------------------------------------------------------ *)
(** * The transaction store *)

(** One record of the purchase log ([purchase_data.csv]).  A purchase
    date is a time stamp in microseconds. *)
Record Transaction : Type := mkTransaction {
  Customer_ID : string;
  Product_ID : string;
  Product_Category : string;
  Purchase_Amount : Q;
  Purchase_Date : Z
}.

Definition us_per_day : Z := 86400000000.

(** A cell of a pivot table with [aggfunc='sum'] and [fill_value=0]:
    the sum of the amounts of the pair, and 0 for a pair that never
    occurs. *)
Definition pivot_cell (df : list Transaction)
    (index_of columns_of : Transaction -> string) (r c : string) : Q :=
  match filter (fun t => String.eqb (index_of t) r
                         && String.eqb (columns_of t) c) df with
  | [] => 0
  | g => Pandas.Qsum (map Purchase_Amount g)
  end.

(** [df.pivot_table(index=.., columns=.., values='Purchase Amount',
    aggfunc='sum', fill_value=0)] *)
Definition pivot_table (df : list Transaction)
    (index_of columns_of : Transaction -> string) : Pandas.DataFrame Q :=
  let idx := Pandas.unique_sorted (map index_of df) in
  let cols := Pandas.unique_sorted (map columns_of df) in
  Pandas.mkDataFrame idx cols
    (map (fun r => map (pivot_cell df index_of columns_of r) cols) idx).

(* ------------------------------------------------------------------ *)
(** * classification.py *)

Module Classification.

Import Pandas.

(** The four metric columns [_prepare_features] computes. *)
Record Metrics : Type := mkMetrics {
  Total_Spending : Q;
  Purchase_Frequency : Z;
  Average_Purchase_Amount : float64;
  Days_Since_Last_Purchase : Z
}.

(** A row of [self.df] once the metric columns are added. *)
Record Row : Type := mkRow {
  txn : Transaction;
  metrics : Metrics
}.

(** A row of [self.features]: the metrics of one customer joined
    with the customer's category shares. *)
Record FeatureRow : Type := mkFeatureRow {
  Customer : string;
  feature_metrics : Metrics;
  category_share : list (string * float64)
}.

(** [self.features]; the columns 'Cluster' and 'Segment' exist only
    after [perform_clustering]. *)
Record Features : Type := mkFeatures {
  rows : list FeatureRow;
  Cluster : option (list Z);
  Segment : option (list string)
}.

Record Levels : Type := mkLevels {
  high : float64;
  medium : float64
}.

Record Thresholds : Type := mkThresholds {
  spending : Levels;
  frequency : Levels;
  recency : float64
}.

Record CustomerSegmentation : Type := mkCustomerSegmentation {
  n_clusters : Z;
  high_percentile : Q;
  medium_percentile : Q;
  recency_std_multiplier : Q;
  df : list Row;
  features : Features;
  _thresholds : option Thresholds
}.

Record SegmentSummary : Type := mkSegmentSummary {
  segment_name : string;
  customer_count : nat;
  avg_spending : float64;
  avg_frequency : float64;
  avg_order_value : float64;
  avg_days_since_purchase : float64
}.

Record Summary : Type := mkSummary {
  total_customers : nat;
  number_of_segments : nat;
  analysis_date : Z;
  summary_thresholds : Thresholds
}.

Record SegmentationResults : Type := mkSegmentationResults {
  summary : Summary;
  segments : list SegmentSummary
}.

Record CustomerSegment : Type := mkCustomerSegment {
  customer_id : string;
  segment : string;
  total_spending : float64;
  purchase_frequency : Z;
  average_order_value : float64;
  days_since_last_purchase : Z;
  thresholds : Thresholds
}.

(** ** [_prepare_features] *)

(** The rows of one customer: a group of [groupby('Customer ID')]. *)
Definition group (data : list Transaction) (c : string) : list Transaction :=
  filter (fun t => String.eqb (Customer_ID t) c) data.

Definition prepare_row (current_date : Z) (data : list Transaction)
    (t : Transaction) : Row :=
  let g := group data (Customer_ID t) in
  let total := Qsum (map Purchase_Amount g) in
  let freq := Z.of_nat (List.length g) in
  let last := fold_right Z.max (Purchase_Date t) (map Purchase_Date g) in
  mkRow t
    (mkMetrics total freq
       (Float.div (Fin total) (Float.of_Z freq))
       ((current_date - last) / us_per_day)%Z).

(** [pivot.div(pivot.sum(axis=1), axis=0)] *)
Definition div_by_row_sum (pivot : DataFrame Q) : DataFrame float64 :=
  mkDataFrame (index pivot) (columns pivot)
    (map (fun r => map (fun v => Float.div (Fin v) (Fin (Qsum r))) r)
         (values pivot)).

(** ['first'] of a group. *)
Definition first_of (rs : list Row) (c : string) : option Row :=
  find (fun r => String.eqb (Customer_ID (txn r)) c) rs.

(** [.join(category_pivot)]: the shares of the customer's label; a
    label absent from the pivot gives missing values. *)
Definition joined_shares (shares : DataFrame float64) (c : string)
  : list (string * float64) :=
  match loc_row shares c with
  | Py.Ok r => combine (columns shares) r
  | Py.Raise _ => map (fun k => (k, NaN)) (columns shares)
  end.

(** [category_pivot] of [_prepare_features], lines 63-71. *)
Definition category_pivot (data : list Transaction) : DataFrame float64 :=
  div_by_row_sum (pivot_table data Customer_ID Product_Category).

Definition _prepare_features (current_date : Z) (data : list Transaction)
  : list Row * Features :=
  let rs := map (prepare_row current_date data) data in
  let fs :=
    flat_map (fun c =>
      match first_of rs c with
      | Some r => [mkFeatureRow c (metrics r) (joined_shares (category_pivot data) c)]
      | None => []
      end) (unique_sorted (map Customer_ID data)) in
  (rs, mkFeatures fs None None).

(** [__init__] followed by [_load_and_process_data]; [data] is what
    [pd.read_csv] returned and [current_date] is [datetime.now()]. *)
Definition __init__ (data : list Transaction) (current_date : Z)
    (n_clusters : Z) (high_percentile medium_percentile : Q)
    (recency_std_multiplier : Q) : CustomerSegmentation :=
  let '(rs, fs) := _prepare_features current_date data in
  mkCustomerSegmentation n_clusters high_percentile medium_percentile
    recency_std_multiplier rs fs None.

(** The defaults of the constructor. *)
Definition default_n_clusters : Z := 5.
Definition default_high_percentile : Q := 75 # 100.
Definition default_medium_percentile : Q := 50 # 100.
Definition default_recency_std_multiplier : Q := 1.

(** A column of a frame holds one value per row. *)
Definition columns_aligned (f : Features) : Prop :=
  match Segment f with
  | Some labels => List.length labels = List.length (rows f)
  | None => True
  end.

(** ** [_label_segment], lines 137-156: the decision on a row once
    the thresholds are known. *)
Definition label_of (row : FeatureRow) (t : Thresholds) : string :=
  let spending_high := high (spending t) in
  let spending_medium := medium (spending t) in
  let frequency_high := high (frequency t) in
  let frequency_medium := medium (frequency t) in
  let recency_threshold := recency t in
  let m := feature_metrics row in
  if Float.gtb (Float.of_Z (Days_Since_Last_Purchase m)) recency_threshold
  then "Inactive Customers"%string
  else if Float.gtb (Fin (Total_Spending m)) spending_high
          && Float.gtb (Float.of_Z (Purchase_Frequency m)) frequency_high
  then "High-Value Frequent Buyers"%string
  else if Float.gtb (Fin (Total_Spending m)) spending_high
  then "Big Spenders"%string
  else if Float.gtb (Float.of_Z (Purchase_Frequency m)) frequency_high
  then "Frequent Low-Value Buyers"%string
  else if Float.gtb (Fin (Total_Spending m)) spending_medium
          && Float.gtb (Float.of_Z (Purchase_Frequency m)) frequency_medium
  then "Regular Customers"%string
  else "Occasional Buyers"%string.

Section Engine.

(** [numpy.sqrt], and [StandardScaler.fit_transform] followed by
    [KMeans(n_clusters, random_state=42).fit_predict] on the
    feature matrix. *)
Variable sqrt : Q -> Q.
Variable fit_predict : list (list float64) -> Z -> Py.result (list Z).

Definition column {V : Type} (f : Metrics -> V) (rs : list FeatureRow)
  : list V :=
  map (fun r => f (feature_metrics r)) rs.

Definition _calculate_thresholds (self : CustomerSegmentation)
  : Py.result Thresholds :=
  let rs := rows (features self) in
  let spent := column Total_Spending rs in
  let freq := column (fun m => inject_Z (Purchase_Frequency m)) rs in
  let days := column (fun m => inject_Z (Days_Since_Last_Purchase m)) rs in
  sh <- quantile spent (high_percentile self) ;;
  sm <- quantile spent (medium_percentile self) ;;
  fh <- quantile freq (high_percentile self) ;;
  fm <- quantile freq (medium_percentile self) ;;
  let recency_mean := mean days in
  let recency_std := std sqrt days in
  let recency_threshold :=
    Float.add recency_mean
      (Float.mul recency_std (Fin (recency_std_multiplier self))) in
  Py.Ok (mkThresholds (mkLevels sh sm) (mkLevels fh fm) recency_threshold).

Definition set_thresholds (self : CustomerSegmentation) (t : Thresholds)
  : CustomerSegmentation :=
  mkCustomerSegmentation (n_clusters self) (high_percentile self)
    (medium_percentile self) (recency_std_multiplier self) (df self)
    (features self) (Some t).

Definition set_features (self : CustomerSegmentation) (f : Features)
  : CustomerSegmentation :=
  mkCustomerSegmentation (n_clusters self) (high_percentile self)
    (medium_percentile self) (recency_std_multiplier self) (df self)
    f (_thresholds self).

(** The thresholds are computed on the first call and kept. *)
Definition _label_segment (self : CustomerSegmentation) (row : FeatureRow)
  : Py.result (string * CustomerSegmentation) :=
  match _thresholds self with
  | Some t => Py.Ok (label_of row t, self)
  | None =>
      t <- _calculate_thresholds self ;;
      Py.Ok (label_of row t, set_thresholds self t)
  end.

(** [self.features.apply(self._label_segment, axis=1)] *)
Fixpoint apply_label_segment (self : CustomerSegmentation)
    (rs : list FeatureRow) : Py.result (list string * CustomerSegmentation) :=
  match rs with
  | [] => Py.Ok ([], self)
  | r :: rs' =>
      p <- _label_segment self r ;;
      q <- apply_label_segment (snd p) rs' ;;
      Py.Ok (fst p :: fst q, snd q)
  end.

(** The matrix handed to the scaler: one line per customer. *)
Definition feature_matrix (rs : list FeatureRow) : list (list float64) :=
  map (fun r =>
         let m := feature_metrics r in
         Fin (Total_Spending m) :: Float.of_Z (Purchase_Frequency m)
         :: Average_Purchase_Amount m
         :: Float.of_Z (Days_Since_Last_Purchase m)
         :: map snd (category_share r)) rs.

(** The rows of [self.features] whose 'Segment' is [s]. *)
Definition segment_data (rs : list FeatureRow) (labels : list string)
    (s : string) : list FeatureRow :=
  map fst (filter (fun p => String.eqb (snd p) s) (combine rs labels)).

Definition segment_summary (rs : list FeatureRow) (labels : list string)
    (s : string) : SegmentSummary :=
  let d := segment_data rs labels s in
  mkSegmentSummary s (List.length d)
    (mean (column Total_Spending d))
    (mean (column (fun m => inject_Z (Purchase_Frequency m)) d))
    (nanmean (column Average_Purchase_Amount d))
    (mean (column (fun m => inject_Z (Days_Since_Last_Purchase m)) d)).

(** [get_segmentation_results] from line 199 on, where the 'Segment'
    column [labels] exists. *)
Definition segmentation_results (self : CustomerSegmentation)
    (labels : list string) (now : Z) : Py.result SegmentationResults :=
  t <- _calculate_thresholds self ;;
  let rs := rows (features self) in
  let segments_summary := map (segment_summary rs labels) (unique labels) in
  Py.Ok (mkSegmentationResults
           (mkSummary (List.length rs) (List.length segments_summary) now t)
           segments_summary).

(** [perform_clustering]; its last line calls
    [get_segmentation_results], which finds the 'Segment' column in
    place. *)
Definition perform_clustering (self : CustomerSegmentation) (now : Z)
  : Py.result (SegmentationResults * CustomerSegmentation) :=
  let rs := rows (features self) in
  match Segment (features self) with
  | Some _ =>
      (* a second run hands the text column 'Segment' to the scaler *)
      Py.Raise Py.ValueError
  | None =>
      clusters <- fit_predict (feature_matrix rs) (n_clusters self) ;;
      if negb (List.length clusters =? List.length rs)%nat
      then Py.Raise Py.ValueError
      else
        let self1 := set_features self (mkFeatures rs (Some clusters) None) in
        p <- apply_label_segment self1 rs ;;
        let self2 :=
          set_features (snd p) (mkFeatures rs (Some clusters) (Some (fst p))) in
        r <- segmentation_results self2 (fst p) now ;;
        Py.Ok (r, self2)
  end.

Definition get_segmentation_results (self : CustomerSegmentation) (now : Z)
  : Py.result (SegmentationResults * CustomerSegmentation) :=
  match Segment (features self) with
  | None =>
      p <- perform_clustering self now ;;
      match Segment (features (snd p)) with
      | Some labels =>
          r <- segmentation_results (snd p) labels now ;;
          Py.Ok (r, snd p)
      | None => Py.Raise Py.KeyError
      end
  | Some labels =>
      r <- segmentation_results self labels now ;;
      Py.Ok (r, self)
  end.

(** [self.features.loc[customer_id]] with its 'Segment'. *)
Definition loc_customer (rs : list FeatureRow) (labels : list string)
    (c : string) : Py.result (FeatureRow * string) :=
  match find (fun p => String.eqb (Customer (fst p)) c) (combine rs labels) with
  | Some p => Py.Ok p
  | None => Py.Raise Py.KeyError
  end.

Definition get_customer_segment (self : CustomerSegmentation)
    (c : string) (now : Z)
  : Py.result (option CustomerSegment * CustomerSegmentation) :=
  if negb (in_index c (map Customer (rows (features self))))
  then Py.Ok (None, self)
  else
    self' <- match Segment (features self) with
             | None => p <- perform_clustering self now ;; Py.Ok (snd p)
             | Some _ => Py.Ok self
             end ;;
    match Segment (features self') with
    | None => Py.Raise Py.KeyError
    | Some labels =>
        customer_data <- loc_customer (rows (features self')) labels c ;;
        t <- _calculate_thresholds self' ;;
        let m := feature_metrics (fst customer_data) in
        Py.Ok (Some (mkCustomerSegment c (snd customer_data)
                       (Fin (Total_Spending m))
                       (Purchase_Frequency m)
                       (Average_Purchase_Amount m)
                       (Days_Since_Last_Purchase m) t),
               self')
    end.

End Engine.

End Classification.

(* ------------------------------------------------------------------ *)
(** * recommendation.py *)

Module Recommendation.

Import Pandas.

Definition matrix : Type := list (list Q).

Record RecommendationEngine : Type := mkRecommendationEngine {
  n_factors : Z;
  predictions_df : DataFrame Q;
  purchase_matrix : DataFrame Q;
  df : list Transaction
}.

Record Recommendation : Type := mkRecommendation {
  product_id : string;
  category : string;
  predicted_rating : Q
}.

Record Recommendations : Type := mkRecommendations {
  error : option string;
  recommendations : list Recommendation;
  customer_id : string
}.

(** ** The numpy operations of [_load_and_process_data] *)

Definition nrows (A : matrix) : nat := List.length A.

Definition ncols (A : matrix) : nat :=
  match A with
  | [] => 0%nat
  | r :: _ => List.length r
  end.

(** [np.mean(matrix, axis=1)].  A row without columns has no mean;
    [svds] rejects such a matrix before the means are used. *)
Definition mean_rows (A : matrix) : list Q :=
  map (fun r => Qsum r / inject_Z (Z.of_nat (List.length r))) A.

(** [matrix - user_means.reshape(-1, 1)] *)
Definition sub_rows (A : matrix) (means : list Q) : Py.result matrix :=
  if (List.length A =? List.length means)%nat
  then Py.Ok (map (fun p => map (fun v => v - snd p) (fst p)) (combine A means))
  else Py.Raise Py.ValueError.

(** [matrix + user_means.reshape(-1, 1)] *)
Definition add_rows (A : matrix) (means : list Q) : Py.result matrix :=
  if (List.length A =? List.length means)%nat
  then Py.Ok (map (fun p => map (fun v => v + snd p) (fst p)) (combine A means))
  else Py.Raise Py.ValueError.

(** [np.diag(sigma)] *)
Definition diag (sigma : list Q) : matrix :=
  let k := List.length sigma in
  map (fun i => map (fun j => if (i =? j)%nat then nth i sigma 0 else 0)
                    (seq 0 k))
      (seq 0 k).

Definition dot_row (r : list Q) (B : matrix) (j : nat) : Q :=
  Qsum (map (fun p => fst p * nth j (snd p) 0) (combine r B)).

(** [np.dot(A, B)] of two matrices *)
Definition dot (A B : matrix) : Py.result matrix :=
  if forallb (fun r => (List.length r =? nrows B)%nat) A
     && forallb (fun r => (List.length r =? ncols B)%nat) B
  then Py.Ok (map (fun r => map (dot_row r B) (seq 0 (ncols B))) A)
  else Py.Raise Py.ValueError.

(** [pd.DataFrame(values, index=.., columns=..)] *)
Definition DataFrame_of (vals : matrix) (idx cols : list string)
  : Py.result (DataFrame Q) :=
  if (List.length vals =? List.length idx)%nat
     && forallb (fun r => (List.length r =? List.length cols)%nat) vals
  then Py.Ok (mkDataFrame idx cols vals)
  else Py.Raise Py.ValueError.

(** [A.shape == (m, n)] *)
Definition has_shape (A : matrix) (m n : nat) : Prop :=
  List.length A = m /\ Forall (fun r => List.length r = n) A.

(** What [numpy] promises of [argsort]: the outcome lists every
    position once, in non-decreasing order of the values.  The default
    [kind='quicksort'] promises nothing about equal values. *)
Definition argsort_sorts (argsort : list Q -> list nat) : Prop :=
  forall l : list Q,
    Permutation (argsort l) (seq 0 (List.length l))
    /\ StronglySorted (fun i j => nth i l 0 <= nth j l 0) (argsort l).

Section Engine.

(** The ARPACK solver behind [scipy.sparse.linalg.svds], giving
    [U], [sigma] and [Vt], and [numpy]'s [argsort(kind='quicksort')]
    behind [Series.sort_values]. *)
Variable arpack : matrix -> Z -> Py.result (matrix * list Q * matrix).
Variable argsort : list Q -> list nat.

(** [svds(A, k=k)]: [k] must satisfy [0 < k < min(A.shape)]. *)
Definition svds (A : matrix) (k : Z)
  : Py.result (matrix * list Q * matrix) :=
  if (0 <? k)%Z && (k <? Z.of_nat (Nat.min (nrows A) (ncols A)))%Z
  then arpack A k
  else Py.Raise Py.ValueError.

Definition _load_and_process_data (data : list Transaction) (n_factors : Z)
  : Py.result RecommendationEngine :=
  let purchase_matrix := pivot_table data Customer_ID Product_ID in
  let matrix := values purchase_matrix in
  let user_means := mean_rows matrix in
  matrix_norm <- sub_rows matrix user_means ;;
  usv <- svds matrix_norm n_factors ;;
  let U := fst (fst usv) in
  let sigma := snd (fst usv) in
  let Vt := snd usv in
  let sigma_diag := diag sigma in
  us <- dot U sigma_diag ;;
  predicted_norm <- dot us Vt ;;
  predicted_ratings <- add_rows predicted_norm user_means ;;
  predictions_df <- DataFrame_of predicted_ratings
                      (index purchase_matrix) (columns purchase_matrix) ;;
  Py.Ok (mkRecommendationEngine n_factors predictions_df purchase_matrix data).

(** [RecommendationEngine(data_path, n_factors)]; [data] is what
    [pd.read_csv] returned. *)
Definition __init__ (data : list Transaction) (n_factors : Z)
  : Py.result RecommendationEngine :=
  _load_and_process_data data n_factors.

Definition default_n_factors : Z := 10.

(** [frame.loc[label, labels]]: the values of one row at the given
    columns, as a series. *)
Definition loc_columns (f : DataFrame Q) (label : string)
    (labels : list string) : Py.result (list (string * Q)) :=
  r <- loc_row f label ;;
  fold_right
    (fun c acc =>
       rest <- acc ;;
       match position c (columns f) with
       | Some j =>
           match nth_error r j with
           | Some v => Py.Ok ((c, v) :: rest)
           | None => Py.Raise Py.KeyError
           end
       | None => Py.Raise Py.KeyError
       end)
    (Py.Ok []) labels.

Definition take {A : Type} (xs : list A) (order : list nat) : list A :=
  flat_map (fun i => match nth_error xs i with
                     | Some x => [x]
                     | None => []
                     end) order.

(** [series.sort_values(ascending=False)]: pandas reverses the
    values, sorts them in ascending order with the default
    [kind='quicksort'] and reverses the outcome. *)
Definition sort_values_descending (s : list (string * Q))
  : list (string * Q) :=
  let items := rev s in
  rev (take items (argsort (map snd items))).

(** [self.df[self.df['Product ID'] == prod_id]['Product Category'].iloc[0]] *)
Definition category_of (data : list Transaction) (prod_id : string)
  : Py.result string :=
  match filter (fun t => String.eqb (Product_ID t) prod_id) data with
  | t :: _ => Py.Ok (Product_Category t)
  | [] => Py.Raise Py.IndexError
  end.

Fixpoint build_recommendations (data : list Transaction)
    (top : list (string * Q)) : Py.result (list Recommendation) :=
  match top with
  | [] => Py.Ok []
  | (prod_id, pred_rating) :: top' =>
      category <- category_of data prod_id ;;
      rest <- build_recommendations data top' ;;
      Py.Ok (mkRecommendation prod_id category pred_rating :: rest)
  end.

Definition get_recommendations (self : RecommendationEngine)
    (customer_id : string) (n_recommendations : Z)
  : Py.result Recommendations :=
  if negb (in_index customer_id (index (predictions_df self)))
  then
    Py.Ok (mkRecommendations
             (Some ("Customer " ++ customer_id ++ " not found in database")%string)
             [] customer_id)
  else
    user_purchases <- loc_row (purchase_matrix self) customer_id ;;
    let not_purchased :=
      map fst (filter (fun p => Qeq_bool (snd p) 0)
                      (combine (columns (purchase_matrix self)) user_purchases)) in
    predicted_ratings <-
      loc_columns (predictions_df self) customer_id not_purchased ;;
    let top_recommendations :=
      Py.slice_to (sort_values_descending predicted_ratings) n_recommendations in
    recommendations <- build_recommendations (df self) top_recommendations ;;
    Py.Ok (mkRecommendations None recommendations customer_id).

Definition default_n_recommendations : Z := 5.

End Engine.

End Recommendation.

(* ------------------------------------------------------------------ *)
(** * The specification's reading of the segment labeler *)

Module Spec.

Import Classification.

(** The closed enumeration of segment labels (spec 4.4). *)
Inductive SegmentLabel : Type :=
| Inactive_Customers
| High_Value_Frequent_Buyers
| Big_Spenders
| Frequent_Low_Value_Buyers
| Regular_Customers
| Occasional_Buyers.

Definition label_name (l : SegmentLabel) : string :=
  match l with
  | Inactive_Customers => "Inactive Customers"
  | High_Value_Frequent_Buyers => "High-Value Frequent Buyers"
  | Big_Spenders => "Big Spenders"
  | Frequent_Low_Value_Buyers => "Frequent Low-Value Buyers"
  | Regular_Customers => "Regular Customers"
  | Occasional_Buyers => "Occasional Buyers"
  end.

Definition days_of (row : FeatureRow) : float64 :=
  Float.of_Z (Days_Since_Last_Purchase (feature_metrics row)).

Definition spending_of (row : FeatureRow) : float64 :=
  Fin (Total_Spending (feature_metrics row)).

Definition frequency_of (row : FeatureRow) : float64 :=
  Float.of_Z (Purchase_Frequency (feature_metrics row)).

(** Rules 1 to 5 of spec 4.4, in priority order; every comparison is
    the strict [>]. *)
Definition decision_list
  : list ((FeatureRow -> Thresholds -> bool) * SegmentLabel) :=
  [ (fun row t => Float.gtb (days_of row) (recency t),
     Inactive_Customers);
    (fun row t => Float.gtb (spending_of row) (high (spending t))
                  && Float.gtb (frequency_of row) (high (frequency t)),
     High_Value_Frequent_Buyers);
    (fun row t => Float.gtb (spending_of row) (high (spending t)),
     Big_Spenders);
    (fun row t => Float.gtb (frequency_of row) (high (frequency t)),
     Frequent_Low_Value_Buyers);
    (fun row t => Float.gtb (spending_of row) (medium (spending t))
                  && Float.gtb (frequency_of row) (medium (frequency t)),
     Regular_Customers) ].

(** First match wins; rule 6 is the default. *)
Fixpoint first_match
    (rules : list ((FeatureRow -> Thresholds -> bool) * SegmentLabel))
    (row : FeatureRow) (t : Thresholds) : SegmentLabel :=
  match rules with
  | [] => Occasional_Buyers
  | (guard, l) :: rules' =>
      if guard row t then l else first_match rules' row t
  end.

Definition label_segment (row : FeatureRow) (t : Thresholds) : SegmentLabel :=
  first_match decision_list row t.

(** The feature vector of spec 3: total spending is the sum of the
    amounts, frequency the number of transactions, the average their
    quotient and recency the whole days between the reference time and
    the last purchase. *)
Definition last_purchase (dates : list Z) : Z :=
  match dates with
  | [] => 0%Z
  | d :: ds => fold_right Z.max d ds
  end.

Definition feature_vector (reference_time : Z) (data : list Transaction)
    (c : string) : Metrics :=
  let g := group data c in
  let total := Pandas.Qsum (map Purchase_Amount g) in
  let n := Z.of_nat (List.length g) in
  mkMetrics total n (Float.div (Fin total) (Float.of_Z n))
    ((reference_time - last_purchase (map Purchase_Date g)) / us_per_day)%Z.


(** The customer's spend in one category. *)
Definition category_spend (data : list Transaction) (c k : string) : Q :=
  Pandas.Qsum
    (map Purchase_Amount
         (filter (fun t => String.eqb (Product_Category t) k) (group data c))).

(** Spec 4.6, step 4: the product of the three factor components at
    row [i] and column [j], plus the mean of row [i]. *)
Definition reconstructed (U : list (list Q)) (sigma : list Q)
    (Vt : list (list Q)) (means : list Q) (i j : nat) : Q :=
  Pandas.Qsum
    (map (fun l => nth l (nth i U []) 0 * nth l sigma 0 * nth j (nth l Vt []) 0)
         (seq 0 (List.length sigma)))
  + nth i means 0.

(** Spec 4.7, step d: the category of the first record of a product. *)
Definition first_category (data : list Transaction) (p : string)
  : option string :=
  option_map Product_Category
    (find (fun t => String.eqb (Product_ID t) p) data).

End Spec.

(* ------------------------------------------------------------------ *)
(** * Concrete stores and engines used to evaluate the embedding *)

Module Examples.

Import Classification.




(** One customer with a single purchase, made at time 0; the run takes
    place 31 days and 6 hours later. *)
Definition single_purchase : list Transaction :=
  [ mkTransaction "C001" "P001" "Books" (1999 # 100) 0 ].

Definition a_month_later : Z := (31 * us_per_day + 21600000000)%Z.

Definition segmentation_of (data : list Transaction) (current_date : Z)
  : CustomerSegmentation :=
  __init__ data current_date default_n_clusters default_high_percentile
    default_medium_percentile default_recency_std_multiplier.

(** The store of the end-to-end example of spec 8. *)
Definition three_customers : list Transaction :=
  [ mkTransaction "C1" "P1" "Books" 100 0;
    mkTransaction "C2" "P1" "Books" 50 0;
    mkTransaction "C2" "P2" "Toys" 50 us_per_day;
    mkTransaction "C3" "P2" "Toys" 200 0 ].

(** Stand-ins for the library routines: the integer square root, and
    a clustering that puts every customer in cluster 0 and, like
    k-means, refuses more clusters than customers. *)
Definition sqrt_floor (q : Q) : Q := inject_Z (Z.sqrt (Qfloor q)).

Definition one_cluster (m : list (list float64)) (k : Z) : Py.result (list Z) :=
  if (0 <? k)%Z && (k <=? Z.of_nat (List.length m))%Z
  then Py.Ok (map (fun _ => 0%Z) m)
  else Py.Raise Py.ValueError.

(** The engine on the store of spec 8, asked for a single cluster
    three days after the first purchases. *)
Definition three_customers_segmentation : CustomerSegmentation :=
  __init__ three_customers (3 * us_per_day)%Z 1 (3 # 4) (1 # 2) 1.

(** An exact rank-one factorization of the mean-centred purchase
    matrix of [three_customers], [[50, -50], [0, 0], [-100, 100]]
    (its columns are not normalized), as a stand-in for ARPACK. *)
Definition three_customers_factors (A : list (list Q)) (k : Z)
  : Py.result (list (list Q) * list Q * list (list Q)) :=
  Py.Ok ([[1]; [0]; [-2]], [50], [[1; -1]]).

(** A store whose mean-centred purchase matrix has rank one and in
    which customer "A" has two products left to recommend. *)
Definition tied_store : list Transaction :=
  [ mkTransaction "A" "P1" "Books" 30 0;
    mkTransaction "B" "P2" "Toys" 15 0;
    mkTransaction "B" "P3" "Games" 15 0;
    mkTransaction "C" "P1" "Books" 60 0 ].

Definition tied_store_factors (A : list (list Q)) (k : Z)
  : Py.result (list (list Q) * list Q * list (list Q)) :=
  Py.Ok ([[1]; [-1 # 2]; [2]], [1], [[20; -10; -10]]).

(** Two sorts that meet [argsort_sorts]: one keeps equal values in
    their order, the other reverses them. *)
Definition argsort_stable (l : list Q) : list nat :=
  Pandas.sort_by (fun i j => Qle_bool (nth i l 0) (nth j l 0))
    (seq 0 (List.length l)).



End Examples.

(* ------------------------------------------------------------------ *)
(** * Order statistics *)

Module Stats.

(** The value [Series.quantile] reads off an ascending list: linear
    interpolation between the two order statistics around position
    [q * (n - 1)]. *)
Definition interpolate (sorted : list Q) (q : Q) : Q :=
  let n := List.length sorted in
  let pos := q * inject_Z (Z.of_nat n - 1) in
  let lo := Z.to_nat (Qfloor pos) in
  let frac := pos - inject_Z (Qfloor pos) in
  let x_lo := nth lo sorted (hd 0 sorted) in
  let x_hi := nth (Nat.min (S lo) (n - 1)) sorted (hd 0 sorted) in
  x_lo + (x_hi - x_lo) * frac.

End Stats.

(* ------------------------------------------------------------------ *)
(** * What the methods of [CustomerSegmentation] leave untouched *)

Module Setup.

Import Classification.

(** Two engine states with the same rows of [self.features] and the
    same configuration. *)
Definition same_setup (a b : CustomerSegmentation) : Prop :=
  rows (features a) = rows (features b)
  /\ n_clusters a = n_clusters b
  /\ high_percentile a = high_percentile b
  /\ medium_percentile a = medium_percentile b
  /\ recency_std_multiplier a = recency_std_multiplier b.

(** The six segment names of [_label_segment]. *)
Definition segment_names : list string :=
  [ "Inactive Customers"; "High-Value Frequent Buyers"; "Big Spenders";
    "Frequent Low-Value Buyers"; "Regular Customers";
    "Occasional Buyers" ]%string.

End Setup.

(* ------------------------------------------------------------------ *)
(** * cli.py and the printers of utils.py *)

Module Cli.

Import Pandas.

(** Python's [str] of an [int]. *)
Definition str_nat (n : nat) : string :=
  DecimalString.NilEmpty.string_of_uint (Nat.to_uint n).

Definition str_int (z : Z) : string :=
  DecimalString.NilEmpty.string_of_int (Z.to_int z).

(** The characters written [\n] and [\t] in the source. *)
Definition nl : string := String (ascii_of_nat 10) EmptyString.
Definition tab : string := String (ascii_of_nat 9) EmptyString.

(** The truth value of [None] or of a [str]. *)
Definition truthy (s : option string) : bool :=
  match s with
  | None => false
  | Some s => negb (String.eqb s "")
  end.

Section Commands.

Variable sqrt : Q -> Q.
Variable fit_predict : list (list float64) -> Z -> Py.result (list Z).
Variable arpack :
  Recommendation.matrix -> Z
  -> Py.result (Recommendation.matrix * list Q * Recommendation.matrix).
Variable argsort : list Q -> list nat.

(** The format specifications [:.2f] and [:.1f] of a float, and
    [json.dumps(result, indent=2)] of the three kinds of result. *)
Variable format_2f : float64 -> string.
Variable format_1f : float64 -> string.
Variable dumps_recommendations : Recommendation.Recommendations -> string.
Variable dumps_segmentation : Classification.SegmentationResults -> string.
Variable dumps_customer : Classification.CustomerSegment -> string.

(** ** utils.py: every [_write_line] without a file handler is one
    [print]; the outcome lists the printed texts. *)

Definition recommendation_line (i : nat) (rec : Recommendation.Recommendation)
  : string :=
  (str_nat i ++ ". Product " ++ Recommendation.product_id rec
   ++ " (" ++ Recommendation.category rec ++ ") - Predicted Rating: "
   ++ format_2f (Fin (Recommendation.predicted_rating rec)))%string.

Definition print_formatted_recommendation_results
    (result : Recommendation.Recommendations) : list string :=
  let recs := Recommendation.recommendations result in
  [ (nl ++ "============================")%string;
    (nl ++ "|| Recommendation Results ||")%string;
    (nl ++ "============================")%string;
    (nl ++ "Top " ++ str_nat (List.length recs)
     ++ " Recommended Products for Customer "
     ++ Recommendation.customer_id result ++ ":")%string ]
  ++ map (fun p => recommendation_line (fst p) (snd p))
         (combine (seq 1 (List.length recs)) recs).

Definition segment_lines (segment : Classification.SegmentSummary)
  : list string :=
  [ Classification.segment_name segment;
    (tab ++ "Customer Count: "
     ++ str_nat (Classification.customer_count segment))%string;
    (tab ++ "Average Spending: $"
     ++ format_2f (Classification.avg_spending segment))%string;
    (tab ++ "Average Purchase Frequency: "
     ++ format_1f (Classification.avg_frequency segment))%string;
    (tab ++ "Average Order Value: $"
     ++ format_2f (Classification.avg_order_value segment))%string;
    (tab ++ "Average Days Since Purchase: "
     ++ format_1f (Classification.avg_days_since_purchase segment)
     ++ nl)%string ].

(** [result] is the dictionary of [get_customer_segment] or that of
    [perform_clustering]; reading a key of the other kind raises. *)
Definition print_formatted_classification_results
    (result : Classification.CustomerSegment
              + Classification.SegmentationResults)
    (is_customer_specific : bool) : Py.result (list string) :=
  let banner :=
    [ (nl ++ "============================")%string;
      (nl ++ "|| Classification Results ||")%string;
      (nl ++ "============================")%string ] in
  match is_customer_specific, result with
  | true, inl result =>
      let thresholds := Classification.thresholds result in
      Py.Ok
        (banner
         ++ [ (nl ++ tab ++ "- Customer Segment Analysis for "
               ++ Classification.customer_id result ++ " -")%string;
              ("Segment: " ++ Classification.segment result)%string;
              ("Total Spending: $"
               ++ format_2f (Classification.total_spending result))%string;
              ("Purchase Frequency: "
               ++ str_int (Classification.purchase_frequency result))%string;
              ("Average Order Value: $"
               ++ format_2f (Classification.average_order_value result))%string;
              ("Days Since Last Purchase: "
               ++ str_int (Classification.days_since_last_purchase result))%string;
              (nl ++ tab ++ "- Segmentation Thresholds -")%string;
              ("High Spending: $"
               ++ format_2f (Classification.high
                               (Classification.spending thresholds)))%string;
              ("Medium Spending: $"
               ++ format_2f (Classification.medium
                               (Classification.spending thresholds)))%string;
              ("High Frequency: "
               ++ format_1f (Classification.high
                               (Classification.frequency thresholds)))%string;
              ("Medium Frequency: "
               ++ format_1f (Classification.medium
                               (Classification.frequency thresholds)))%string;
              ("Recency Threshold: "
               ++ format_1f (Classification.recency thresholds)
               ++ " days")%string ])
  | false, inr result =>
      let summary := Classification.summary result in
      let thresholds := Classification.summary_thresholds summary in
      Py.Ok
        (banner
         ++ [ (nl ++ tab ++ "- Customer Segmentation Analysis -")%string;
              ("Total Customers: "
               ++ str_nat (Classification.total_customers summary))%string;
              ("Number of Segments: "
               ++ str_nat (Classification.number_of_segments summary))%string;
              (nl ++ tab ++ "- Segmentation Thresholds -")%string;
              ("High Spending: $"
               ++ format_2f (Classification.high
                               (Classification.spending thresholds)))%string;
              ("Medium Spending: $"
               ++ format_2f (Classification.medium
                               (Classification.spending thresholds)))%string;
              ("High Frequency: "
               ++ format_1f (Classification.high
                               (Classification.frequency thresholds)))%string;
              ("Medium Frequency: "
               ++ format_1f (Classification.medium
                               (Classification.frequency thresholds)))%string;
              ("Recency Threshold: "
               ++ format_1f (Classification.recency thresholds)
               ++ " days")%string;
              (nl ++ tab ++ "- Segment Details -")%string ]
         ++ flat_map segment_lines (Classification.segments result))
  | _, _ => Py.Raise Py.KeyError
  end.

(** ** cli.py *)

(** [recommend_command(args)] with [args.data] read to [data],
    [args.customer] given, [args.num] and [args.json]. *)
Definition recommend_command (data : list Transaction) (customer : string)
    (num : Z) (json : bool) : Py.result (list string) :=
  engine <- Recommendation.__init__ arpack data
              Recommendation.default_n_factors ;;
  result <- Recommendation.get_recommendations argsort engine customer num ;;
  if truthy (Recommendation.error result)
  then
    match Recommendation.error result with
    | Some e => Py.Ok [e]
    | None => Py.Ok []
    end
  else if json
  then Py.Ok [dumps_recommendations result]
  else Py.Ok (print_formatted_recommendation_results result).

(** [classify_command(args)]; [current_date] and [now] are the two
    readings of [datetime.now()], by the constructor and by
    [get_segmentation_results]. *)
Definition classify_command (data : list Transaction) (current_date now : Z)
    (clusters : Z) (customer : option string)
    (high_percentile medium_percentile recency_multiplier : Q)
    (json : bool) : Py.result (list string) :=
  let segmentation :=
    Classification.__init__ data current_date clusters high_percentile
      medium_percentile recency_multiplier in
  result <-
    match customer with
    | Some c =>
        if truthy customer
        then
          r <- Classification.get_customer_segment sqrt fit_predict
                 segmentation c now ;;
          match fst r with
          | None => Py.Ok (inl ("Customer " ++ c ++ " not found")%string)
          | Some result => Py.Ok (inr (inl result))
          end
        else
          r <- Classification.perform_clustering sqrt fit_predict
                 segmentation now ;;
          Py.Ok (inr (inr (fst r)))
    | None =>
        r <- Classification.perform_clustering sqrt fit_predict
               segmentation now ;;
        Py.Ok (inr (inr (fst r)))
    end ;;
  match result with
  | inl not_found => Py.Ok [not_found]
  | inr result =>
      if json
      then Py.Ok [match result with
                  | inl result => dumps_customer result
                  | inr result => dumps_segmentation result
                  end]
      else print_formatted_classification_results result (truthy customer)
  end.

End Commands.

(** A store of eleven customers, each the only buyer of one product,
    with stand-ins for the solver and the formatters. *)
Definition eleven_customers : list Transaction :=
  map (fun i =>
         mkTransaction (String (ascii_of_nat (65 + i)) EmptyString)
           (String "P" (String (ascii_of_nat (65 + i)) EmptyString))
           "Books" (inject_Z (Z.of_nat (S i))) 0)
      (seq 0 11).

Definition flat_factors (A : Recommendation.matrix) (k : Z)
  : Py.result (Recommendation.matrix * list Q * Recommendation.matrix) :=
  Py.Ok (map (fun _ => repeat 0 (Z.to_nat k)) A,
         repeat 0 (Z.to_nat k),
         repeat (repeat 0 (Recommendation.ncols A)) (Z.to_nat k)).

Definition format_whole (x : float64) : string :=
  match x with
  | Fin q => str_int (Qfloor q)
  | _ => "nan"
  end.

Definition dumps_nothing {A : Type} (result : A) : string := "{}".

End Cli.

(* ------------------------------------------------------------------ *)
(** * Properties of the float64 model *)

Lemma Qltb_lt (x y : Q) : Float.Qltb x y = true <-> x < y.
Proof. unfold Float.Qltb, Qlt. apply Z.ltb_lt. Qed.

Lemma Qltb_irrefl_eq (x y : Q) : x == y -> Float.Qltb y x = false.
Proof.
  intros H. destruct (Float.Qltb y x) eqn:E; [|reflexivity].
  apply Qltb_lt in E. rewrite H in E. exfalso. exact (Qlt_irrefl _ E).
Qed.


(* ------------------------------------------------------------------ *)
(** * The segment labeler *)

Section Labeler.

Import Classification.


(** The code's nested conditional is the specification's decision
    list. *)
Lemma label_of_decision_list (row : FeatureRow) (t : Thresholds) :
  label_of row t = Spec.label_name (Spec.label_segment row t).
Proof.
  unfold label_of, Spec.label_segment, Spec.decision_list, Spec.first_match,
    Spec.days_of, Spec.spending_of, Spec.frequency_of.
  repeat match goal with
         | |- context [if ?b then _ else _] => destruct b
         end; reflexivity.
Qed.

(** With the thresholds already memoized, [_label_segment] is the
    decision on the row and leaves the engine as it is. *)
Lemma label_segment_memoized sqrt (self : CustomerSegmentation)
    (row : FeatureRow) (t : Thresholds) :
  _thresholds self = Some t ->
  _label_segment sqrt self row = Py.Ok (label_of row t, self).
Proof. intros H. unfold _label_segment. rewrite H. reflexivity. Qed.




End Labeler.

(* ------------------------------------------------------------------ *)
(** * Lists, labels and sums *)

Section ListFacts.

Import Pandas.

Lemma insert_by_perm {A : Type} (leb : A -> A -> bool) (x : A) (l : list A) :
  Permutation (insert_by leb x l) (x :: l).
Proof.
  induction l as [|y l IH]; simpl.
  - apply Permutation_refl.
  - destruct (leb x y).
    + apply Permutation_refl.
    + eapply perm_trans; [apply perm_skip, IH | apply perm_swap].
Qed.

Lemma sort_by_perm {A : Type} (leb : A -> A -> bool) (l : list A) :
  Permutation (sort_by leb l) l.
Proof.
  induction l as [|x l IH]; simpl.
  - apply perm_nil.
  - eapply perm_trans; [apply insert_by_perm | apply perm_skip, IH].
Qed.

Lemma insert_by_sorted {A : Type} (leb : A -> A -> bool) (x : A) (l : list A) :
  (forall a b, leb a b = false -> leb b a = true) ->
  Sorted (fun a b => leb a b = true) l ->
  Sorted (fun a b => leb a b = true) (insert_by leb x l).
Proof.
  intros total Hs. induction Hs as [|y l Hs IH Hy]; simpl.
  - constructor; constructor.
  - destruct (leb x y) eqn:E.
    + constructor; [constructor; assumption | constructor; exact E].
    + constructor; [exact IH|].
      destruct Hy as [|z l Hz]; simpl.
      * constructor. apply total, E.
      * destruct (leb x z); constructor; [apply total, E | exact Hz].
Qed.

Lemma sort_by_sorted {A : Type} (leb : A -> A -> bool) (l : list A) :
  (forall a b, leb a b = false -> leb b a = true) ->
  Sorted (fun a b => leb a b = true) (sort_by leb l).
Proof.
  intros total. induction l as [|x l IH]; simpl.
  - constructor.
  - apply insert_by_sorted; assumption.
Qed.

Lemma unique_sorted_In (l : list string) (x : string) :
  In x (unique_sorted l) <-> In x l.
Proof.
  unfold unique_sorted. split; intros H.
  - apply (nodup_In string_dec).
    eapply Permutation_in; [apply sort_by_perm | exact H].
  - eapply Permutation_in; [apply Permutation_sym, sort_by_perm |].
    apply (nodup_In string_dec). exact H.
Qed.

Lemma unique_sorted_NoDup (l : list string) : NoDup (unique_sorted l).
Proof.
  unfold unique_sorted.
  eapply Permutation_NoDup; [apply Permutation_sym, sort_by_perm |].
  apply NoDup_nodup.
Qed.

Lemma unique_In (l : list string) (x : string) : In x (unique l) <-> In x l.
Proof.
  induction l as [|y l IH]; simpl; [tauto|].
  rewrite filter_In, IH. split.
  - intros [H | [H _]]; auto.
  - intros [H | H]; [left; exact H|].
    destruct (String.eqb_spec x y) as [->|Hne]; [left; reflexivity|].
    right. split; [exact H|]. reflexivity.
Qed.

Lemma NoDup_filter {A : Type} (p : A -> bool) (l : list A) :
  NoDup l -> NoDup (filter p l).
Proof.
  induction 1 as [|x l Hx Hl IH]; simpl; [constructor|].
  destruct (p x); [constructor|]; try exact IH.
  intros H. apply Hx. apply filter_In in H. apply H.
Qed.

Lemma unique_NoDup (l : list string) : NoDup (unique l).
Proof.
  induction l as [|y l IH]; simpl; constructor.
  - intros H. apply filter_In in H. destruct H as [_ H].
    rewrite String.eqb_refl in H. discriminate H.
  - apply NoDup_filter, IH.
Qed.

Lemma find_hd_filter {A : Type} (p : A -> bool) (l : list A) :
  find p l = hd_error (filter p l).
Proof.
  induction l as [|x l IH]; simpl; [reflexivity|].
  destruct (p x); [reflexivity | exact IH].
Qed.

Lemma find_map {A B : Type} (f : A -> B) (p : B -> bool) (l : list A) :
  find p (map f l) = option_map f (find (fun x => p (f x)) l).
Proof.
  induction l as [|x l IH]; simpl; [reflexivity|].
  destruct (p (f x)); [reflexivity | exact IH].
Qed.

Lemma in_index_In (c : string) (labels : list string) :
  in_index c labels = true <-> In c labels.
Proof.
  unfold in_index. rewrite existsb_exists. split.
  - intros (x & Hx & E). apply String.eqb_eq in E. subst. exact Hx.
  - intros H. exists c. split; [exact H | apply String.eqb_refl].
Qed.

Lemma position_In (c : string) (labels : list string) :
  In c labels ->
  exists i, position c labels = Some i /\ nth_error labels i = Some c.
Proof.
  induction labels as [|l ls IH]; simpl; [tauto|].
  intros H. destruct (String.eqb_spec l c) as [->|Hne].
  - exists 0%nat. split; reflexivity.
  - destruct H as [H | H]; [contradiction|].
    destruct (IH H) as (i & Hi & Hn). exists (S i).
    rewrite Hi. split; [reflexivity | exact Hn].
Qed.

Lemma position_Some (c : string) (labels : list string) (i : nat) :
  position c labels = Some i -> nth_error labels i = Some c.
Proof.
  revert i. induction labels as [|l ls IH]; simpl; intros i; [discriminate|].
  destruct (String.eqb_spec l c) as [->|Hne].
  - intros [= <-]. reflexivity.
  - destruct (position c ls); simpl; [|discriminate].
    intros [= <-]. simpl. apply IH. reflexivity.
Qed.

(** [loc] on a frame whose rows are computed from their labels. *)
Lemma loc_row_map {V : Type} (f : string -> list V) (idx cols : list string)
    (c : string) :
  In c idx -> loc_row (mkDataFrame idx cols (map f idx)) c = Py.Ok (f c).
Proof.
  intros H. unfold loc_row. simpl.
  destruct (position_In c idx H) as (i & Hi & Hn).
  rewrite Hi, nth_error_map, Hn. reflexivity.
Qed.

Lemma Qsum_app (l1 l2 : list Q) : Qsum (l1 ++ l2) == Qsum l1 + Qsum l2.
Proof.
  induction l1 as [|x l1 IH]; simpl.
  - ring.
  - rewrite IH. ring.
Qed.

Lemma Qsum_zero {A : Type} (l : list A) : Qsum (map (fun _ => 0) l) == 0.
Proof.
  induction l as [|x l IH]; simpl; [reflexivity|]. rewrite IH. ring.
Qed.

Lemma Qsum_ext {A : Type} (f g : A -> Q) (l : list A) :
  (forall x, In x l -> f x == g x) -> Qsum (map f l) == Qsum (map g l).
Proof.
  induction l as [|x l IH]; simpl; intros H; [reflexivity|].
  rewrite (H x), IH; [reflexivity | | ]; auto.
Qed.

Lemma Qsum_plus {A : Type} (f g : A -> Q) (l : list A) :
  Qsum (map (fun x => f x + g x) l) == Qsum (map f l) + Qsum (map g l).
Proof.
  induction l as [|x l IH]; simpl; [ring|]. rewrite IH. ring.
Qed.


(** A sum that picks one label of a duplicate-free list. *)
Lemma Qsum_pick (keys : list string) (k0 : string) (a : Q) :
  NoDup keys ->
  Qsum (map (fun k => if String.eqb k0 k then a else 0) keys)
  == if in_index k0 keys then a else 0.
Proof.
  unfold in_index.
  induction 1 as [|k keys Hk Hn IH]; simpl; [reflexivity|].
  rewrite IH. destruct (String.eqb_spec k0 k) as [->|Hne]; simpl.
  - destruct (existsb (String.eqb k) keys) eqn:E; [|ring].
    exfalso. apply Hk. apply in_index_In. exact E.
  - ring.
Qed.

(** Conservation under grouping: the sums of the groups of a
    duplicate-free list of keys that covers the rows add up to the sum
    of all rows. *)
Lemma Qsum_groups {A : Type} (key : A -> string) (amt : A -> Q)
    (keys : list string) (l : list A) :
  NoDup keys ->
  (forall x, In x l -> In (key x) keys) ->
  Qsum (map (fun k => Qsum (map amt (filter (fun x => String.eqb (key x) k) l)))
            keys)
  == Qsum (map amt l).
Proof.
  intros Hnd. induction l as [|x l IH]; intros Hcov.
  - simpl. apply Qsum_zero.
  - transitivity
      (Qsum (map (fun k => (if String.eqb (key x) k then amt x else 0)
                           + Qsum (map amt (filter (fun y => String.eqb (key y) k) l)))
                 keys)).
    + apply Qsum_ext. intros k _. simpl.
      destruct (String.eqb (key x) k); simpl; ring.
    + rewrite Qsum_plus, Qsum_pick by exact Hnd.
      rewrite IH by (intros y Hy; apply Hcov; right; exact Hy).
      assert (E : in_index (key x) keys = true)
        by (apply in_index_In, Hcov; left; reflexivity).
      rewrite E. simpl. reflexivity.
Qed.

End ListFacts.

(* ------------------------------------------------------------------ *)
(** * The feature builder *)

Section FeatureBuilder.

Import Pandas Classification.

Variable data : list Transaction.
Variable current_date : Z.

Lemma group_In (c : string) (t : Transaction) :
  In t (group data c) <-> In t data /\ Customer_ID t = c.
Proof.
  unfold group. rewrite filter_In. split; intros [H E]; split; auto.
  - apply String.eqb_eq, E.
  - apply String.eqb_eq, E.
Qed.

Lemma group_nonempty (c : string) :
  In c (map Customer_ID data) -> exists t g, group data c = t :: g.
Proof.
  intros H. apply in_map_iff in H. destruct H as (t & E & Ht).
  assert (Hin : In t (group data c)) by (apply group_In; auto).
  destruct (group data c) as [|t0 g]; [destruct Hin|].
  exists t0, g. reflexivity.
Qed.

Lemma fold_max_ge (a : Z) (l : list Z) : (a <= fold_right Z.max a l)%Z.
Proof. induction l as [|x l IH]; simpl; lia. Qed.

Lemma first_of_prepare (c : string) (t : Transaction) (g : list Transaction) :
  group data c = t :: g ->
  first_of (map (prepare_row current_date data) data) c
  = Some (prepare_row current_date data t).
Proof.
  intros H. unfold first_of. rewrite find_map. simpl.
  rewrite find_hd_filter. fold (group data c). rewrite H. reflexivity.
Qed.

(** The metric columns of a customer's first row are the feature
    vector of the specification. *)
Lemma prepare_row_feature_vector (c : string) (t : Transaction)
    (g : list Transaction) :
  group data c = t :: g ->
  metrics (prepare_row current_date data t)
  = Spec.feature_vector current_date data c.
Proof.
  intros H.
  assert (E : Customer_ID t = c)
    by (apply (group_In c t); rewrite H; left; reflexivity).
  unfold prepare_row, Spec.feature_vector. simpl. rewrite E, H. simpl.
  f_equal. f_equal. f_equal.
  pose proof (fold_max_ge (Purchase_Date t) (map Purchase_Date g)). lia.
Qed.

Lemma flat_map_singletons {A B : Type} (f : A -> list B) (g : A -> B)
    (l : list A) :
  (forall x, In x l -> f x = [g x]) -> flat_map f l = map g l.
Proof.
  induction l as [|x l IH]; simpl; intros H; [reflexivity|].
  rewrite (H x), IH by auto. reflexivity.
Qed.

(** [self.features] has one row per distinct customer, in sorted
    order, holding the customer's feature vector. *)
Lemma features_rows (k : Z) (hp mp mult : Q) :
  rows (features (__init__ data current_date k hp mp mult))
  = map (fun c => mkFeatureRow c (Spec.feature_vector current_date data c)
                    (joined_shares (category_pivot data) c))
        (unique_sorted (map Customer_ID data)).
Proof.
  unfold __init__, _prepare_features. simpl.
  apply flat_map_singletons. intros c Hc.
  apply -> unique_sorted_In in Hc.
  destruct (group_nonempty c Hc) as (t & g & Hg).
  rewrite (first_of_prepare c t g Hg).
  rewrite (prepare_row_feature_vector c t g Hg). reflexivity.
Qed.


Lemma features_row_unique (k : Z) (hp mp mult : Q) (f : FeatureRow) :
  In f (rows (features (__init__ data current_date k hp mp mult))) ->
  In (Customer f) (map Customer_ID data)
  /\ f = mkFeatureRow (Customer f)
           (Spec.feature_vector current_date data (Customer f))
           (joined_shares (category_pivot data) (Customer f)).
Proof.
  rewrite features_rows. intros H. apply in_map_iff in H.
  destruct H as (c & <- & Hc). simpl. split; [|reflexivity].
  apply unique_sorted_In, Hc.
Qed.

(** C7, as the code has it.  A customer with exactly one transaction
    has one feature vector; its total spending is the amount of that
    transaction, its frequency is 1, its average purchase amount equals
    its total spending, and its recency is the number of whole days
    between the run time and the date of that transaction. *)
Theorem single_transaction_features (k : Z) (hp mp mult : Q)
    (t : Transaction) :
  In t data ->
  group data (Customer_ID t) = [t] ->
  exists f,
    In f (rows (features (__init__ data current_date k hp mp mult)))
    /\ Customer f = Customer_ID t
    /\ (forall f',
          In f' (rows (features (__init__ data current_date k hp mp mult))) ->
          Customer f' = Customer_ID t -> f' = f)
    /\ Total_Spending (feature_metrics f) == Purchase_Amount t
    /\ Purchase_Frequency (feature_metrics f) = 1%Z
    /\ Float.equiv (Average_Purchase_Amount (feature_metrics f))
                   (Fin (Total_Spending (feature_metrics f)))
    /\ Days_Since_Last_Purchase (feature_metrics f)
       = ((current_date - Purchase_Date t) / us_per_day)%Z.
Proof.
  intros Ht Hg.
  exists (mkFeatureRow (Customer_ID t)
            (Spec.feature_vector current_date data (Customer_ID t))
            (joined_shares (category_pivot data) (Customer_ID t))).
  split.
  { rewrite features_rows.
    apply (in_map (fun c => mkFeatureRow c
                            (Spec.feature_vector current_date data c)
                            (joined_shares (category_pivot data) c))).
    apply unique_sorted_In, in_map, Ht. }
  split; [reflexivity|].
  split.
  { intros f' Hf' E. destruct (features_row_unique _ _ _ _ _ Hf') as [_ ->].
    rewrite E. reflexivity. }
  unfold Spec.feature_vector. rewrite Hg. simpl.
  split; [ring|]. split; [reflexivity|]. split; [|reflexivity].
  change (Qeq_bool (inject_Z 1) 0) with false. simpl. field.
Qed.

Lemma pivot_cell_sum (index_of columns_of : Transaction -> string)
    (r c : string) :
  pivot_cell data index_of columns_of r c
  = Qsum (map Purchase_Amount
              (filter (fun t => String.eqb (index_of t) r
                                && String.eqb (columns_of t) c) data)).
Proof. unfold pivot_cell. destruct (filter _ data); reflexivity. Qed.

Lemma filter_andb {A : Type} (p q : A -> bool) (l : list A) :
  filter (fun x => p x && q x) l = filter q (filter p l).
Proof.
  induction l as [|x l IH]; simpl; [reflexivity|].
  destruct (p x); simpl; [destruct (q x)|]; rewrite IH; reflexivity.
Qed.


(** A customer's row of a pivot table adds up to the customer's total
    spending, whatever the columns are. *)
Lemma pivot_row_sum (columns_of : Transaction -> string) (c : string) :
  Qsum (map (pivot_cell data Customer_ID columns_of c)
            (unique_sorted (map columns_of data)))
  == Qsum (map Purchase_Amount (group data c)).
Proof.
  rewrite <- (Qsum_groups columns_of Purchase_Amount
                (unique_sorted (map columns_of data)) (group data c)).
  - apply Qsum_ext. intros k _. rewrite pivot_cell_sum, filter_andb.
    reflexivity.
  - apply unique_sorted_NoDup.
  - intros t Ht. apply unique_sorted_In, in_map.
    apply (group_In c t). exact Ht.
Qed.





Lemma In_combine_map {A B : Type} (h : A -> B) (l : list A) (x : A) (y : B) :
  In (x, y) (combine l (map h l)) -> y = h x.
Proof.
  induction l as [|a l IH]; simpl; [tauto|].
  intros [[= <- <-] | H]; [reflexivity | apply IH, H].
Qed.



End FeatureBuilder.

Section FeatureBuilderExamples.

Import Classification.

(** The feature builder evaluated on a store with one purchase, 31
    days and 6 hours before the run. *)
Lemma single_transaction_features_witness :
  exists f,
    In f (rows (features (Examples.segmentation_of Examples.single_purchase
                            Examples.a_month_later)))
    /\ Total_Spending (feature_metrics f) == 1999 # 100
    /\ Days_Since_Last_Purchase (feature_metrics f) = 31%Z.
Proof.
  destruct (single_transaction_features Examples.single_purchase
              Examples.a_month_later Classification.default_n_clusters
              Classification.default_high_percentile
              Classification.default_medium_percentile
              Classification.default_recency_std_multiplier
              (mkTransaction "C001" "P001" "Books" (1999 # 100) 0)
              (or_introl eq_refl) eq_refl)
    as (f & Hin & _ & _ & Htotal & _ & _ & Hdays).
  exists f. split; [exact Hin|]. split; [exact Htotal | exact Hdays].
Defined.

(** C7 as stated fails: the recency of a customer with one purchase is
    the age of that purchase, 31 days here, not 0. *)
Lemma single_transaction_recency_counterexample :
  ~ (forall (data : list Transaction) (current_date k : Z) (hp mp mult : Q)
            (t : Transaction) (f : FeatureRow),
        In t data ->
        Classification.group data (Customer_ID t) = [t] ->
        In f (rows (features
                      (Classification.__init__ data current_date k hp mp mult))) ->
        Customer f = Customer_ID t ->
        Days_Since_Last_Purchase (feature_metrics f) = 0%Z).
Proof.
  intros H.
  assert (E : Days_Since_Last_Purchase
                (Spec.feature_vector Examples.a_month_later
                   Examples.single_purchase "C001") = 0%Z).
  { refine (H Examples.single_purchase Examples.a_month_later
              Classification.default_n_clusters
              Classification.default_high_percentile
              Classification.default_medium_percentile
              Classification.default_recency_std_multiplier
              (mkTransaction "C001" "P001" "Books" (1999 # 100) 0)
              (mkFeatureRow "C001"
                 (Spec.feature_vector Examples.a_month_later
                    Examples.single_purchase "C001")
                 (joined_shares (category_pivot Examples.single_purchase) "C001"))
              (or_introl eq_refl) eq_refl _ eq_refl).
    left. reflexivity. }
  vm_compute in E. discriminate E.
Qed.



End FeatureBuilderExamples.

(* ------------------------------------------------------------------ *)
(** * The threshold calculator *)

Section Thresholds.

Import Pandas Classification.

Variable sqrt : Q -> Q.

Lemma quantile_returns (xs : list Q) (q : Q) :
  0 <= q -> q <= 1 -> exists v, quantile xs q = Py.Ok v.
Proof.
  intros H0 H1. unfold quantile.
  rewrite (proj2 (Qle_bool_iff 0 q) H0), (proj2 (Qle_bool_iff q 1) H1). simpl.
  destruct (sort_by Qle_bool xs); eexists; reflexivity.
Qed.

Lemma quantile_single (x q : Q) :
  0 <= q -> q <= 1 -> exists v, quantile [x] q = Py.Ok (Fin v) /\ v == x.
Proof.
  intros H0 H1. unfold quantile.
  rewrite (proj2 (Qle_bool_iff 0 q) H0), (proj2 (Qle_bool_iff q 1) H1).
  cbn [andb]. change (sort_by Qle_bool [x]) with [x]. cbv beta iota zeta.
  eexists. split; [reflexivity|].
  assert (E : forall n, nth n [x] x = x) by (intros [|[|n]]; reflexivity).
  rewrite !E. ring.
Qed.

Lemma quantile_empty (q : Q) :
  0 <= q -> q <= 1 -> quantile [] q = Py.Ok NaN.
Proof.
  intros H0 H1. unfold quantile.
  rewrite (proj2 (Qle_bool_iff 0 q) H0), (proj2 (Qle_bool_iff q 1) H1).
  reflexivity.
Qed.

Lemma add_nan_r (x : float64) : Float.add x NaN = NaN.
Proof. destruct x; reflexivity. Qed.

Lemma std_few (xs : list Q) : (List.length xs < 2)%nat -> std sqrt xs = NaN.
Proof.
  intros H. unfold std.
  destruct (Nat.leb_spec (List.length xs) 1); [reflexivity | lia].
Qed.

(** C6, as the code has it.  With fewer than two customers (and
    percentiles within [0, 1]) computing the thresholds raises nothing:
    it returns thresholds whose recency cutoff is NaN.  With no
    customer the four percentile thresholds are NaN as well; with one
    customer they are that customer's spending and frequency. *)
Theorem thresholds_of_few_customers (self : CustomerSegmentation) :
  (List.length (rows (features self)) < 2)%nat ->
  0 <= high_percentile self <= 1 ->
  0 <= medium_percentile self <= 1 ->
  exists t,
    _calculate_thresholds sqrt self = Py.Ok t
    /\ recency t = NaN
    /\ (rows (features self) = [] ->
        t = mkThresholds (mkLevels NaN NaN) (mkLevels NaN NaN) NaN)
    /\ (forall r, rows (features self) = [r] ->
        Float.equiv (high (spending t)) (Spec.spending_of r)
        /\ Float.equiv (medium (spending t)) (Spec.spending_of r)
        /\ Float.equiv (high (frequency t)) (Spec.frequency_of r)
        /\ Float.equiv (medium (frequency t)) (Spec.frequency_of r)).
Proof.
  intros Hn [Hh0 Hh1] [Hm0 Hm1]. unfold _calculate_thresholds.
  rewrite std_few by (unfold column; rewrite length_map; exact Hn).
  simpl Float.mul. rewrite add_nan_r.
  destruct (rows (features self)) as [|r [|r' rs]]; simpl in Hn; [| |lia].
  - simpl. rewrite !quantile_empty by assumption. simpl.
    eexists. split; [reflexivity|]. split; [reflexivity|].
    split; [reflexivity | discriminate].
  - unfold column. simpl map.
    destruct (quantile_single (Total_Spending (feature_metrics r)) _ Hh0 Hh1)
      as (sh & -> & Esh).
    destruct (quantile_single (Total_Spending (feature_metrics r)) _ Hm0 Hm1)
      as (sm & -> & Esm).
    destruct (quantile_single
                (inject_Z (Purchase_Frequency (feature_metrics r))) _ Hh0 Hh1)
      as (fh & -> & Efh).
    destruct (quantile_single
                (inject_Z (Purchase_Frequency (feature_metrics r))) _ Hm0 Hm1)
      as (fm & -> & Efm).
    simpl. eexists. split; [reflexivity|]. split; [reflexivity|].
    split; [discriminate|].
    intros r0 [= <-]. simpl. auto.
Qed.

End Thresholds.

Section ThresholdsExamples.

Import Classification.

(** The thresholds of a store with a single customer, under the
    default configuration. *)
Lemma thresholds_of_few_customers_witness :
  exists t,
    _calculate_thresholds Examples.sqrt_floor
      (Examples.segmentation_of Examples.single_purchase Examples.a_month_later)
    = Py.Ok t
    /\ recency t = NaN.
Proof.
  destruct (thresholds_of_few_customers Examples.sqrt_floor
              (Examples.segmentation_of Examples.single_purchase
                 Examples.a_month_later)) as (t & E & Hr & _).
  - simpl. lia.
  - split; discriminate.
  - split; discriminate.
  - exists t. split; [exact E | exact Hr].
Defined.

(** C6 as stated fails: with one customer the thresholds are returned,
    nothing is raised. *)
Lemma few_customers_counterexample :
  ~ (forall (sqrt : Q -> Q) (self : CustomerSegmentation),
        (List.length (rows (features self)) < 2)%nat ->
        Py.raises (_calculate_thresholds sqrt self)).
Proof.
  intros H.
  destruct (H Examples.sqrt_floor
              (Examples.segmentation_of Examples.single_purchase
                 Examples.a_month_later)) as [e He].
  - simpl. lia.
  - vm_compute in He. discriminate He.
Qed.

End ThresholdsExamples.

(* ------------------------------------------------------------------ *)
(** * Segmentation results *)

Section Segmentation.

Import Pandas Classification.

Variable sqrt : Q -> Q.
Variable fit_predict : list (list float64) -> Z -> Py.result (list Z).

Lemma bind_Ok {A B : Type} (r : Py.result A) (k : A -> Py.result B) (b : B) :
  Py.bind r k = Py.Ok b -> exists a, r = Py.Ok a /\ k a = Py.Ok b.
Proof. destruct r as [a|e]; simpl; [eauto | discriminate]. Qed.

Lemma sum_nat_pick (keys : list string) (k0 : string) (f : string -> nat) :
  NoDup keys ->
  sum_nat (map (fun k => ((if String.eqb k0 k then 1 else 0) + f k)%nat) keys)
  = ((if in_index k0 keys then 1 else 0) + sum_nat (map f keys))%nat.
Proof.
  unfold in_index.
  induction 1 as [|k keys Hk Hn IH]; simpl; [reflexivity|].
  rewrite IH. destruct (String.eqb_spec k0 k) as [->|Hne]; simpl.
  - destruct (existsb (String.eqb k) keys) eqn:E; [|lia].
    exfalso. apply Hk. apply in_index_In. exact E.
  - lia.
Qed.

(** The groups of a duplicate-free list of keys that covers the rows
    partition the rows. *)
Lemma count_groups {A : Type} (key : A -> string) (keys : list string)
    (l : list A) :
  NoDup keys ->
  (forall x, In x l -> In (key x) keys) ->
  sum_nat (map (fun k => List.length (filter (fun x => String.eqb (key x) k) l))
               keys)
  = List.length l.
Proof.
  intros Hnd. induction l as [|x l IH]; intros Hcov.
  - clear Hnd Hcov. induction keys as [|k keys IHk]; simpl;
      [reflexivity | exact IHk].
  - rewrite (map_ext _ (fun k =>
               ((if String.eqb (key x) k then 1 else 0)
                + List.length (filter (fun y => String.eqb (key y) k) l))%nat)).
    + rewrite sum_nat_pick by exact Hnd.
      rewrite IH by (intros y Hy; apply Hcov; right; exact Hy).
      assert (E : in_index (key x) keys = true)
        by (apply in_index_In, Hcov; left; reflexivity).
      rewrite E. reflexivity.
    + intros k. simpl. destruct (String.eqb (key x) k); reflexivity.
Qed.

Lemma filter_snd_count {A : Type} (rs : list A) (labels : list string)
    (s : string) :
  List.length rs = List.length labels ->
  List.length (filter (fun p => String.eqb (snd p) s) (combine rs labels))
  = count_occ string_dec labels s.
Proof.
  revert labels. induction rs as [|r rs IH]; intros [|l labels]; simpl;
    try discriminate; [reflexivity|].
  intros [= H]. destruct (string_dec l s) as [->|Hne].
  - rewrite String.eqb_refl. simpl. rewrite IH by exact H. reflexivity.
  - apply String.eqb_neq in Hne. rewrite Hne. apply IH, H.
Qed.

Lemma label_segment_features (self : CustomerSegmentation) (r : FeatureRow)
    (p : string * CustomerSegmentation) :
  _label_segment sqrt self r = Py.Ok p -> features (snd p) = features self.
Proof.
  unfold _label_segment. destruct (_thresholds self).
  - intros [= <-]. reflexivity.
  - intros H. apply bind_Ok in H. destruct H as (t & _ & [= <-]). reflexivity.
Qed.

Lemma apply_label_segment_length (rs : list FeatureRow) :
  forall (self : CustomerSegmentation) (p : list string * CustomerSegmentation),
    apply_label_segment sqrt self rs = Py.Ok p ->
    List.length (fst p) = List.length rs
    /\ features (snd p) = features self.
Proof.
  induction rs as [|r rs IH]; intros self p; simpl.
  - intros [= <-]. split; reflexivity.
  - intros H. apply bind_Ok in H. destruct H as (p1 & H1 & H).
    apply bind_Ok in H. destruct H as (p2 & H2 & [= <-]).
    destruct (IH _ _ H2) as [Hl Hf]. simpl. split; [f_equal; exact Hl|].
    rewrite Hf. apply (label_segment_features _ _ _ H1).
Qed.

(** What [get_segmentation_results] computes once the 'Segment'
    column exists. *)
Lemma segmentation_results_Ok (self : CustomerSegmentation)
    (labels : list string) (now : Z) (res : SegmentationResults) :
  segmentation_results sqrt self labels now = Py.Ok res ->
  total_customers (summary res) = List.length (rows (features self))
  /\ segments res
     = map (segment_summary (rows (features self)) labels) (unique labels).
Proof.
  unfold segmentation_results. intros H. apply bind_Ok in H.
  destruct H as (t & _ & [= <-]). split; reflexivity.
Qed.

(** [perform_clustering] leaves the rows as they are and adds an
    aligned 'Segment' column. *)
Lemma perform_clustering_Ok (self : CustomerSegmentation) (now : Z)
    (p : SegmentationResults * CustomerSegmentation) :
  perform_clustering sqrt fit_predict self now = Py.Ok p ->
  exists labels,
    Segment (features (snd p)) = Some labels
    /\ rows (features (snd p)) = rows (features self)
    /\ List.length labels = List.length (rows (features self))
    /\ segmentation_results sqrt (snd p) labels now = Py.Ok (fst p).
Proof.
  unfold perform_clustering. destruct (Segment (features self)); [discriminate|].
  intros H. apply bind_Ok in H. destruct H as (clusters & _ & H).
  destruct (negb _); [discriminate|].
  apply bind_Ok in H. destruct H as (q & Hq & H).
  apply bind_Ok in H. destruct H as (r & Hr & [= <-]).
  apply apply_label_segment_length in Hq. destruct Hq as [Hl _].
  exists (fst q). simpl. repeat split; assumption.
Qed.

Lemma get_segmentation_results_Ok (self self' : CustomerSegmentation) (now : Z)
    (res : SegmentationResults) :
  columns_aligned (features self) ->
  get_segmentation_results sqrt fit_predict self now = Py.Ok (res, self') ->
  exists labels,
    Segment (features self') = Some labels
    /\ rows (features self') = rows (features self)
    /\ List.length labels = List.length (rows (features self'))
    /\ segmentation_results sqrt self' labels now = Py.Ok res.
Proof.
  unfold get_segmentation_results, columns_aligned.
  destruct (Segment (features self)) as [labels|] eqn:E.
  - intros Hal H. apply bind_Ok in H. destruct H as (r & Hr & [= <- <-]).
    exists labels. repeat split; assumption.
  - intros _ H. apply bind_Ok in H. destruct H as (p & Hp & H).
    destruct (perform_clustering_Ok _ _ _ Hp) as (labels & Hs & Hrows & Hl & _).
    rewrite Hs in H. apply bind_Ok in H. destruct H as (r & Hr & [= <- <-]).
    exists labels. rewrite Hrows. repeat split; assumption.
Qed.

(** C10.  In a result of [get_segmentation_results] the customer
    counts of the segments add up to [total_customers], the segment
    names are distinct, the count of a segment is the number of
    customers carrying its label, and the label of every customer
    names exactly one segment of the result. *)
Theorem segments_partition (self self' : CustomerSegmentation) (now : Z)
    (res : SegmentationResults) :
  columns_aligned (features self) ->
  get_segmentation_results sqrt fit_predict self now = Py.Ok (res, self') ->
  exists labels,
    Segment (features self') = Some labels
    /\ List.length labels = List.length (rows (features self'))
    /\ total_customers (summary res) = List.length (rows (features self'))
    /\ sum_nat (map customer_count (segments res)) = total_customers (summary res)
    /\ NoDup (map segment_name (segments res))
    /\ (forall s, In s (segments res) ->
                  customer_count s = count_occ string_dec labels (segment_name s))
    /\ (forall i l, nth_error labels i = Some l ->
          exists s, In s (segments res) /\ segment_name s = l
                    /\ forall s', In s' (segments res) ->
                                  segment_name s' = l -> s' = s).
Proof.
  intros Hal H.
  destruct (get_segmentation_results_Ok _ _ _ _ Hal H)
    as (labels & Hs & _ & Hl & Hr).
  destruct (segmentation_results_Ok _ _ _ _ Hr) as [Ht Hseg].
  exists labels. split; [exact Hs|]. split; [exact Hl|]. split; [exact Ht|].
  rewrite Hseg, Ht. set (rs := rows (features self')) in *.
  assert (Hnames : map segment_name (map (segment_summary rs labels) (unique labels))
                   = unique labels).
  { rewrite map_map. simpl. apply map_id. }
  split; [|split; [|split]].
  - rewrite map_map. simpl. unfold segment_data.
    rewrite (map_ext _ (fun s => List.length
               (filter (fun p : FeatureRow * string => String.eqb (snd p) s)
                       (combine rs labels))))
      by (intros s; apply length_map).
    rewrite (count_groups snd).
    + rewrite length_combine. lia.
    + apply unique_NoDup.
    + intros [r l] Hin. apply unique_In. simpl.
      apply in_combine_r in Hin. exact Hin.
  - rewrite Hnames. apply unique_NoDup.
  - intros s Hin. apply in_map_iff in Hin. destruct Hin as (l & <- & _).
    simpl. unfold segment_data. rewrite length_map.
    apply filter_snd_count. symmetry. exact Hl.
  - intros i l Hi. exists (segment_summary rs labels l). split.
    + apply in_map, unique_In. eapply nth_error_In, Hi.
    + split; [reflexivity|].
      intros s' Hin E. apply in_map_iff in Hin. destruct Hin as (l' & <- & _).
      simpl in E. rewrite E. reflexivity.
Qed.

(** Once the 'Segment' column exists and the percentiles lie within
    [0, 1], [get_segmentation_results] returns. *)
Lemma get_segmentation_results_returns (self : CustomerSegmentation)
    (labels : list string) (now : Z) :
  Segment (features self) = Some labels ->
  0 <= high_percentile self <= 1 ->
  0 <= medium_percentile self <= 1 ->
  exists res,
    get_segmentation_results sqrt fit_predict self now = Py.Ok (res, self).
Proof.
  intros Hs [Hh0 Hh1] [Hm0 Hm1].
  unfold get_segmentation_results, segmentation_results, _calculate_thresholds.
  rewrite Hs.
  destruct (quantile_returns (column Total_Spending (rows (features self)))
              _ Hh0 Hh1) as (sh & ->).
  destruct (quantile_returns (column Total_Spending (rows (features self)))
              _ Hm0 Hm1) as (sm & ->).
  destruct (quantile_returns
              (column (fun m => inject_Z (Purchase_Frequency m))
                 (rows (features self))) _ Hh0 Hh1) as (fh & ->).
  destruct (quantile_returns
              (column (fun m => inject_Z (Purchase_Frequency m))
                 (rows (features self))) _ Hm0 Hm1) as (fm & ->).
  simpl. eexists. reflexivity.
Qed.

(** The segmentation half of C2: a customer absent from the index of
    [self.features] gets [None], and the engine is left as it was. *)
Lemma get_customer_segment_not_found (self : CustomerSegmentation)
    (c : string) (now : Z) :
  ~ In c (map Customer (rows (features self))) ->
  get_customer_segment sqrt fit_predict self c now = Py.Ok (None, self).
Proof.
  intros H. unfold get_customer_segment.
  destruct (in_index c (map Customer (rows (features self)))) eqn:E.
  - exfalso. apply H, in_index_In, E.
  - reflexivity.
Qed.

End Segmentation.

Section SegmentationExamples.

Import Classification.

(** A complete run on the store of spec 8 with one cluster. *)
Lemma segments_partition_witness :
  exists res self',
    get_segmentation_results Examples.sqrt_floor Examples.one_cluster
      Examples.three_customers_segmentation 0
    = Py.Ok (res, self')
    /\ Pandas.sum_nat (map customer_count (segments res)) = 3%nat.
Proof.
  destruct (get_segmentation_results Examples.sqrt_floor Examples.one_cluster
              Examples.three_customers_segmentation 0)
    as [[res self']|e] eqn:Hrun; [|vm_compute in Hrun; discriminate Hrun].
  exists res, self'. split; [reflexivity|].
  destruct (segments_partition Examples.sqrt_floor Examples.one_cluster
              Examples.three_customers_segmentation self' 0 res I Hrun)
    as (labels & _ & _ & Ht & Hsum & _).
  rewrite Hsum, Ht.
  destruct (get_segmentation_results_Ok Examples.sqrt_floor Examples.one_cluster
              Examples.three_customers_segmentation self' 0 res I Hrun)
    as (_ & _ & -> & _).
  reflexivity.
Defined.

(** A complete run with a single customer and a single cluster: no
    failure, a NaN recency cutoff and the label of rule 6. *)
Lemma single_customer_run :
  exists res self',
    perform_clustering Examples.sqrt_floor Examples.one_cluster
      (Classification.__init__ Examples.single_purchase Examples.a_month_later
         1 default_high_percentile default_medium_percentile
         default_recency_std_multiplier) 0
    = Py.Ok (res, self')
    /\ Segment (features self') = Some ["Occasional Buyers"%string]
    /\ recency (summary_thresholds (summary res)) = NaN.
Proof.
  eexists. eexists. split; [vm_compute; reflexivity|].
  split; reflexivity.
Qed.

End SegmentationExamples.

(* ------------------------------------------------------------------ *)
(** * Sorting by position *)

Section SortingFacts.

Import Pandas Recommendation.

Lemma take_all {A : Type} (xs : list A) (pre : list A) :
  take (pre ++ xs) (seq (List.length pre) (List.length xs)) = xs.
Proof.
  revert pre. induction xs as [|x xs IH]; intros pre; simpl; [reflexivity|].
  rewrite nth_error_app2, Nat.sub_diag by lia. simpl. f_equal.
  specialize (IH (pre ++ [x])).
  rewrite <- app_assoc, length_app, Nat.add_1_r in IH. exact IH.
Qed.

Lemma take_perm {A : Type} (xs : list A) (order : list nat) :
  Permutation order (seq 0 (List.length xs)) ->
  Permutation (take xs order) xs.
Proof.
  intros H. unfold take.
  eapply perm_trans; [apply Permutation_flat_map, H|].
  pose proof (take_all xs []) as E. simpl in E. unfold take in E.
  rewrite E. apply Permutation_refl.
Qed.

Lemma take_In {A : Type} (xs : list A) (order : list nat) (x : A) :
  In x (take xs order) -> In x xs.
Proof.
  unfold take. rewrite in_flat_map. intros (i & _ & H).
  destruct (nth_error xs i) eqn:E; [|destruct H].
  destruct H as [<- | []]. eapply nth_error_In, E.
Qed.

Lemma take_sorted {A : Type} (val : A -> Q) (xs : list A) (order : list nat) :
  StronglySorted (fun i j => nth i (map val xs) 0 <= nth j (map val xs) 0) order ->
  StronglySorted (fun a b => val a <= val b) (take xs order).
Proof.
  assert (Hval : forall i x, nth_error xs i = Some x ->
                             nth i (map val xs) 0 = val x).
  { intros i x E. apply nth_error_nth. rewrite nth_error_map, E. reflexivity. }
  induction 1 as [|i order Hs IH Hall]; simpl; [constructor|].
  destruct (nth_error xs i) as [x|] eqn:E; [|exact IH].
  simpl. constructor; [exact IH|].
  apply Forall_forall. intros y Hy. unfold take in Hy.
  apply in_flat_map in Hy. destruct Hy as (j & Hj & Hy).
  destruct (nth_error xs j) as [y'|] eqn:Ej; [|destruct Hy].
  destruct Hy as [<- | []].
  rewrite Forall_forall in Hall. specialize (Hall j Hj).
  rewrite (Hval _ _ E), (Hval _ _ Ej) in Hall. exact Hall.
Qed.

Lemma StronglySorted_app {A : Type} (R : A -> A -> Prop) (l1 l2 : list A) :
  StronglySorted R l1 -> StronglySorted R l2 ->
  (forall x y, In x l1 -> In y l2 -> R x y) ->
  StronglySorted R (l1 ++ l2).
Proof.
  induction 1 as [|x l1 Hs IH Hall]; simpl; intros H2 Hx; [exact H2|].
  constructor.
  - apply IH; [exact H2 | intros; apply Hx; auto].
  - apply Forall_app. split; [exact Hall|].
    apply Forall_forall. intros y Hy. apply Hx; auto.
Qed.

Lemma StronglySorted_rev {A : Type} (R : A -> A -> Prop) (l : list A) :
  StronglySorted R l -> StronglySorted (fun a b => R b a) (rev l).
Proof.
  induction 1 as [|x l Hs IH Hall]; simpl; [constructor|].
  apply StronglySorted_app; [exact IH | repeat constructor |].
  intros a b Ha [<- | []]. rewrite Forall_forall in Hall.
  apply Hall, in_rev, Ha.
Qed.

Lemma Sorted_impl {A : Type} (R R' : A -> A -> Prop) (l : list A) :
  (forall a b, R a b -> R' a b) -> Sorted R l -> Sorted R' l.
Proof.
  intros H. induction 1 as [|x l Hs IH Hhd]; constructor; [exact IH|].
  destruct Hhd; constructor; auto.
Qed.

(** Any insertion sort of the positions by a total order that refines
    the order of the values meets [argsort_sorts]. *)
Lemma sort_positions_sorts (leb : list Q -> nat -> nat -> bool) :
  (forall l a b, leb l a b = false -> leb l b a = true) ->
  (forall l a b, leb l a b = true -> nth a l 0 <= nth b l 0) ->
  argsort_sorts (fun l => sort_by (leb l) (seq 0 (List.length l))).
Proof.
  intros total sound l. split; [apply sort_by_perm|].
  apply Sorted_StronglySorted.
  - intros a b c Hab Hbc. eapply Qle_trans; eassumption.
  - eapply Sorted_impl; [apply sound | apply sort_by_sorted, total].
Qed.

Lemma Qle_bool_total (x y : Q) : Qle_bool x y = false -> Qle_bool y x = true.
Proof.
  intros H. apply Qle_bool_iff. destruct (Qlt_le_dec y x) as [Hl | Hl].
  - apply Qlt_le_weak, Hl.
  - apply Qle_bool_iff in Hl. congruence.
Qed.

Lemma argsort_stable_sorts : argsort_sorts Examples.argsort_stable.
Proof.
  apply (sort_positions_sorts
           (fun l i j => Qle_bool (nth i l 0) (nth j l 0))).
  - intros l a b. apply Qle_bool_total.
  - intros l a b H. apply Qle_bool_iff, H.
Qed.


Lemma firstn_subset {A : Type} (k : nat) (xs : list A) (x : A) :
  In x (firstn k xs) -> In x xs.
Proof.
  intros H. rewrite <- (firstn_skipn k xs). apply in_or_app. left. exact H.
Qed.

Lemma slice_to_In {A : Type} (xs : list A) (n : Z) (x : A) :
  In x (Py.slice_to xs n) -> In x xs.
Proof.
  unfold Py.slice_to. destruct (0 <=? n)%Z; apply firstn_subset.
Qed.

End SortingFacts.

(* ------------------------------------------------------------------ *)
(** * The recommendation engine *)

Section RecommendationFacts.

Import Pandas Recommendation.

Variable arpack : matrix -> Z -> Py.result (matrix * list Q * matrix).
Variable argsort : list Q -> list nat.

Lemma DataFrame_of_Ok (vals : matrix) (idx cols : list string)
    (f : DataFrame Q) :
  DataFrame_of vals idx cols = Py.Ok f ->
  f = mkDataFrame idx cols vals
  /\ has_shape vals (List.length idx) (List.length cols).
Proof.
  unfold DataFrame_of.
  destruct (List.length vals =? List.length idx)%nat eqn:E1; [|discriminate].
  destruct (forallb _ vals) eqn:E2; [|discriminate].
  intros [= <-]. split; [reflexivity|]. split.
  - apply Nat.eqb_eq, E1.
  - apply Forall_forall. intros r Hr.
    rewrite forallb_forall in E2. apply Nat.eqb_eq, E2, Hr.
Qed.

(** What a constructed engine holds. *)
Lemma init_Ok (data : list Transaction) (k : Z) (eng : RecommendationEngine) :
  __init__ arpack data k = Py.Ok eng ->
  purchase_matrix eng = pivot_table data Customer_ID Product_ID
  /\ df eng = data
  /\ exists vals,
       predictions_df eng
       = mkDataFrame (unique_sorted (map Customer_ID data))
                     (unique_sorted (map Product_ID data)) vals
       /\ has_shape vals (List.length (unique_sorted (map Customer_ID data)))
                         (List.length (unique_sorted (map Product_ID data))).
Proof.
  unfold __init__, _load_and_process_data. intros H.
  apply bind_Ok in H. destruct H as (matrix_norm & _ & H).
  apply bind_Ok in H. destruct H as (usv & _ & H).
  apply bind_Ok in H. destruct H as (us & _ & H).
  apply bind_Ok in H. destruct H as (predicted_norm & _ & H).
  apply bind_Ok in H. destruct H as (predicted_ratings & _ & H).
  apply bind_Ok in H. destruct H as (pred & Hpred & [= <-]).
  apply DataFrame_of_Ok in Hpred. destruct Hpred as [-> Hshape].
  simpl. split; [reflexivity|]. split; [reflexivity|].
  eexists. split; [reflexivity | exact Hshape].
Qed.

Lemma loc_row_shaped (idx cols : list string) (vals : matrix) (c : string) :
  has_shape vals (List.length idx) (List.length cols) ->
  In c idx ->
  exists r, loc_row (mkDataFrame idx cols vals) c = Py.Ok r
            /\ List.length r = List.length cols.
Proof.
  intros [Hlen Hrows] Hc. unfold loc_row. simpl.
  destruct (position_In c idx Hc) as (i & -> & Hi).
  assert (Hlt : (i < List.length vals)%nat).
  { rewrite Hlen. apply nth_error_Some. congruence. }
  destruct (nth_error vals i) as [r|] eqn:E.
  - exists r. split; [reflexivity|].
    rewrite Forall_forall in Hrows. eapply Hrows, nth_error_In, E.
  - apply nth_error_None in E. lia.
Qed.

Lemma loc_columns_Ok (f : DataFrame Q) (c : string) (r : list Q)
    (labels : list string) :
  loc_row f c = Py.Ok r ->
  List.length r = List.length (columns f) ->
  (forall l, In l labels -> In l (columns f)) ->
  exists s, loc_columns f c labels = Py.Ok s
            /\ map fst s = labels
            /\ forall l v, In (l, v) s -> loc_cell f c l = Py.Ok v.
Proof.
  intros Hr Hlen. unfold loc_columns, loc_cell. rewrite Hr. simpl.
  induction labels as [|l labels IH]; intros Hcols; simpl.
  - exists []. repeat split. intros l v [].
  - destruct IH as (s & -> & Hfst & Hcell);
      [intros; apply Hcols; right; assumption|].
    simpl.
    destruct (position_In l (columns f) (Hcols l (or_introl eq_refl)))
      as (j & Hj & Hn).
    rewrite Hj.
    assert (Hlt : (j < List.length r)%nat).
    { rewrite Hlen. apply nth_error_Some. congruence. }
    destruct (nth_error r j) as [v|] eqn:E;
      [|apply nth_error_None in E; lia].
    exists ((l, v) :: s). split; [reflexivity|]. split; [simpl; congruence|].
    intros l' v' [[= <- <-] | Hin]; [rewrite Hj, E; reflexivity|].
    apply Hcell, Hin.
Qed.

Lemma category_of_first (data : list Transaction) (p : string) :
  In p (map Product_ID data) ->
  exists k, category_of data p = Py.Ok k
            /\ Spec.first_category data p = Some k.
Proof.
  intros H. apply in_map_iff in H. destruct H as (t & E & Ht).
  unfold category_of, Spec.first_category. rewrite find_hd_filter.
  assert (Hin : In t (filter (fun t => String.eqb (Product_ID t) p) data))
    by (apply filter_In; split; [exact Ht | apply String.eqb_eq, E]).
  destruct (filter _ data) as [|t0 g]; [destruct Hin|].
  exists (Product_Category t0). split; reflexivity.
Qed.

Lemma build_recommendations_Ok (data : list Transaction)
    (top : list (string * Q)) :
  (forall p v, In (p, v) top -> In p (map Product_ID data)) ->
  exists recs,
    build_recommendations data top = Py.Ok recs
    /\ map (fun r => (product_id r, predicted_rating r)) recs = top
    /\ forall r, In r recs ->
                 Spec.first_category data (product_id r) = Some (category r).
Proof.
  induction top as [|[p v] top IH]; intros H; simpl.
  - exists []. repeat split. intros r [].
  - destruct (category_of_first data p) as (k & -> & Hk);
      [eapply H; left; reflexivity|].
    destruct IH as (recs & -> & Hmap & Hcat); [intros; eapply H; right; eauto|].
    simpl. eexists. split; [reflexivity|]. split; [simpl; congruence|].
    intros r [<- | Hr]; [exact Hk | apply Hcat, Hr].
Qed.

Lemma sort_values_descending_In (s : list (string * Q)) (x : string * Q) :
  In x (sort_values_descending argsort s) -> In x s.
Proof.
  unfold sort_values_descending. intros H.
  apply in_rev in H. apply take_In in H. apply in_rev in H. exact H.
Qed.

(** The customer's row of the purchase matrix and the products left
    to recommend: lines 104-105 of [get_recommendations]. *)
Lemma not_purchased_In (data : list Transaction) (c p : string) :
  In p (map fst
          (filter (fun q => Qeq_bool (snd q) 0)
             (combine (unique_sorted (map Product_ID data))
                (map (pivot_cell data Customer_ID Product_ID c)
                   (unique_sorted (map Product_ID data)))))) <->
  In p (map Product_ID data)
  /\ pivot_cell data Customer_ID Product_ID c p == 0.
Proof.
  rewrite in_map_iff. split.
  - intros ([p' v] & <- & H). apply filter_In in H. destruct H as [Hin Hz].
    simpl in *. pose proof (In_combine_map _ _ _ _ Hin) as ->.
    split; [|apply Qeq_bool_eq, Hz].
    apply in_combine_l in Hin. apply -> unique_sorted_In in Hin. exact Hin.
  - intros [Hp Hz].
    exists (p, pivot_cell data Customer_ID Product_ID c p). split; [reflexivity|].
    apply filter_In. split; [|apply Qeq_eq_bool, Hz].
    apply <- unique_sorted_In in Hp. revert Hp.
    generalize (unique_sorted (map Product_ID data)).
    induction l as [|a l IH]; simpl; [tauto|].
    intros [-> | H]; [left; reflexivity | right; apply IH, H].
Qed.

(** The outcome of [get_recommendations] for a customer of the
    purchase matrix. *)
Lemma get_recommendations_Ok (data : list Transaction) (k : Z)
    (eng : RecommendationEngine) (c : string) (n : Z) :
  __init__ arpack data k = Py.Ok eng ->
  In c (index (purchase_matrix eng)) ->
  exists predicted recs,
    get_recommendations argsort eng c n
    = Py.Ok (mkRecommendations None recs c)
    /\ map fst predicted
       = map fst
           (filter (fun q => Qeq_bool (snd q) 0)
              (combine (unique_sorted (map Product_ID data))
                 (map (pivot_cell data Customer_ID Product_ID c)
                    (unique_sorted (map Product_ID data)))))
    /\ (forall p v, In (p, v) predicted ->
                    loc_cell (predictions_df eng) c p = Py.Ok v)
    /\ map (fun r => (product_id r, predicted_rating r)) recs
       = Py.slice_to (sort_values_descending argsort predicted) n
    /\ (forall r, In r recs ->
                  Spec.first_category data (product_id r) = Some (category r)).
Proof.
  intros Hinit Hc.
  destruct (init_Ok _ _ _ Hinit) as (Hpm & Hdf & vals & Hpred & Hshape).
  rewrite Hpm in Hc. simpl in Hc.
  unfold get_recommendations. rewrite Hpred, Hpm, Hdf. simpl index.
  rewrite (proj2 (in_index_In _ _) Hc). simpl negb. cbv iota.
  unfold pivot_table at 1. rewrite loc_row_map by exact Hc. simpl Py.bind.
  simpl columns.
  destruct (loc_row_shaped _ _ _ c Hshape Hc) as (r & Hr & Hlen).
  destruct (loc_columns_Ok _ c r
              (map fst
                 (filter (fun q => Qeq_bool (snd q) 0)
                    (combine (unique_sorted (map Product_ID data))
                       (map (pivot_cell data Customer_ID Product_ID c)
                          (unique_sorted (map Product_ID data))))))
              Hr Hlen) as (predicted & -> & Hfst & Hcell).
  { intros l Hl. apply not_purchased_In in Hl. simpl.
    apply unique_sorted_In, Hl. }
  simpl Py.bind.
  destruct (build_recommendations_Ok data
              (Py.slice_to (sort_values_descending argsort predicted) n))
    as (recs & -> & Hmap & Hcat).
  { intros p v Hin. apply slice_to_In, sort_values_descending_In in Hin.
    apply (in_map fst) in Hin. rewrite Hfst in Hin.
    apply not_purchased_In in Hin. apply Hin. }
  simpl. exists predicted, recs. repeat split; assumption.
Qed.

Lemma loc_cell_pivot (data : list Transaction) (c p : string) :
  In c (map Customer_ID data) ->
  In p (map Product_ID data) ->
  loc_cell (pivot_table data Customer_ID Product_ID) c p
  = Py.Ok (pivot_cell data Customer_ID Product_ID c p).
Proof.
  intros Hc Hp. apply <- unique_sorted_In in Hc. apply <- unique_sorted_In in Hp.
  unfold loc_cell, pivot_table. rewrite loc_row_map by exact Hc. simpl.
  destruct (position_In p _ Hp) as (j & -> & Hj).
  rewrite nth_error_map, Hj. reflexivity.
Qed.

Lemma map_fst_filter_combine {A B : Type} (h : A -> B) (q : A * B -> bool)
    (l : list A) :
  map fst (filter q (combine l (map h l))) = filter (fun a => q (a, h a)) l.
Proof.
  induction l as [|a l IH]; simpl; [reflexivity|].
  destruct (q (a, h a)); simpl; rewrite IH; reflexivity.
Qed.

Lemma sort_values_descending_perm (s : list (string * Q)) :
  argsort_sorts argsort ->
  Permutation (sort_values_descending argsort s) s.
Proof.
  intros Hsort. unfold sort_values_descending.
  destruct (Hsort (map snd (rev s))) as [Hperm _].
  rewrite length_map in Hperm.
  eapply perm_trans; [apply Permutation_sym, Permutation_rev|].
  eapply perm_trans; [apply take_perm, Hperm|].
  apply Permutation_sym, Permutation_rev.
Qed.

Lemma sort_values_descending_sorted (s : list (string * Q)) :
  argsort_sorts argsort ->
  StronglySorted (fun a b => snd b <= snd a) (sort_values_descending argsort s).
Proof.
  intros Hsort. unfold sort_values_descending.
  destruct (Hsort (map snd (rev s))) as [_ Hsorted].
  apply (StronglySorted_rev (fun a b : string * Q => snd a <= snd b)).
  apply take_sorted, Hsorted.
Qed.

(** The recommendation half of C2: the structured not-found result. *)
Lemma get_recommendations_not_found (eng : RecommendationEngine)
    (c : string) (n : Z) :
  ~ In c (index (predictions_df eng)) ->
  get_recommendations argsort eng c n
  = Py.Ok (mkRecommendations
             (Some ("Customer " ++ c ++ " not found in database")%string) [] c).
Proof.
  intros H. unfold get_recommendations.
  destruct (in_index c (index (predictions_df eng))) eqn:E.
  - exfalso. apply H, in_index_In, E.
  - reflexivity.
Qed.

Lemma get_recommendations_success (eng : RecommendationEngine)
    (c : string) (n : Z) (res : Recommendations) :
  get_recommendations argsort eng c n = Py.Ok res ->
  error res = None ->
  In c (index (predictions_df eng)).
Proof.
  unfold get_recommendations.
  destruct (in_index c (index (predictions_df eng))) eqn:E.
  - intros _ _. apply in_index_In, E.
  - simpl. intros [= <-]. discriminate.
Qed.

(** C2.  For a customer absent from the index the recommendation
    lookup returns, without raising, a result that carries the error
    message and no recommendation, and the segmentation lookup returns
    [None].  A result of the recommendation lookup without error
    message is returned only for a customer of the index, so the
    not-found result cannot be taken for an empty success. *)
Theorem unknown_customer_not_found (sqrt : Q -> Q)
    (fit_predict : list (list float64) -> Z -> Py.result (list Z))
    (eng : RecommendationEngine)
    (seg : Classification.CustomerSegmentation) (c : string) (n now : Z) :
  (~ In c (index (predictions_df eng)) ->
   get_recommendations argsort eng c n
   = Py.Ok (mkRecommendations
              (Some ("Customer " ++ c ++ " not found in database")%string) [] c))
  /\ (forall res, get_recommendations argsort eng c n = Py.Ok res ->
                  error res = None -> In c (index (predictions_df eng)))
  /\ (~ In c (map Classification.Customer
                 (Classification.rows (Classification.features seg))) ->
      Classification.get_customer_segment sqrt fit_predict seg c now
      = Py.Ok (None, seg)).
Proof.
  split; [apply get_recommendations_not_found|].
  split; [apply get_recommendations_success|].
  apply get_customer_segment_not_found.
Qed.

(** C3.  For every customer of the purchase matrix and every requested
    count, [get_recommendations] returns a result without error, and
    every product in it has a purchase-matrix cell equal to 0 for that
    customer. *)
Theorem recommendations_never_purchased (data : list Transaction) (k : Z)
    (eng : RecommendationEngine) (c : string) (n : Z) :
  __init__ arpack data k = Py.Ok eng ->
  In c (index (purchase_matrix eng)) ->
  exists res,
    get_recommendations argsort eng c n = Py.Ok res
    /\ error res = None
    /\ forall r, In r (recommendations res) ->
         exists v, loc_cell (purchase_matrix eng) c (product_id r) = Py.Ok v
                   /\ v == 0.
Proof.
  intros Hinit Hc.
  destruct (get_recommendations_Ok data k eng c n Hinit Hc)
    as (predicted & recs & -> & Hfst & _ & Hmap & _).
  destruct (init_Ok _ _ _ Hinit) as (Hpm & _).
  eexists. split; [reflexivity|]. split; [reflexivity|]. simpl.
  intros r Hr.
  assert (Hin : In (product_id r, predicted_rating r)
                   (Py.slice_to (sort_values_descending argsort predicted) n)).
  { rewrite <- Hmap.
    apply (in_map (fun r => (product_id r, predicted_rating r))), Hr. }
  apply slice_to_In, sort_values_descending_In in Hin.
  apply (in_map fst) in Hin. rewrite Hfst in Hin. simpl in Hin.
  apply not_purchased_In in Hin. destruct Hin as [Hp Hz].
  exists (pivot_cell data Customer_ID Product_ID c (product_id r)).
  split; [|exact Hz].
  rewrite Hpm. apply loc_cell_pivot; [|exact Hp].
  rewrite Hpm in Hc. simpl in Hc. apply -> unique_sorted_In in Hc. exact Hc.
Qed.


End RecommendationFacts.

Section RecommendationExamples.

Import Pandas Recommendation.

(** Both lookups asked for a customer that is in neither index. *)
Lemma unknown_customer_not_found_witness :
  exists eng,
    __init__ Examples.three_customers_factors Examples.three_customers 1
    = Py.Ok eng
    /\ get_recommendations Examples.argsort_stable eng "C9" 5
       = Py.Ok (mkRecommendations
                  (Some "Customer C9 not found in database"%string) [] "C9")
    /\ Classification.get_customer_segment Examples.sqrt_floor
         Examples.one_cluster Examples.three_customers_segmentation "C9" 0
       = Py.Ok (None, Examples.three_customers_segmentation).
Proof.
  eexists. split; [vm_compute; reflexivity|].
  match goal with
  | |- get_recommendations _ ?e _ _ = _ /\ _ =>
      destruct (unknown_customer_not_found Examples.argsort_stable
                  Examples.sqrt_floor Examples.one_cluster e
                  Examples.three_customers_segmentation "C9" 5 0)
        as (H1 & _ & H3)
  end.
  split.
  - apply H1. simpl. intros [H | [H | [H | []]]]; discriminate H.
  - apply H3. simpl. intros [H | [H | [H | []]]]; discriminate H.
Defined.

(** The recommendation of the end-to-end example of spec 8:
    [recommend(C1, 1)] leaves out P1. *)
Lemma recommendations_never_purchased_witness :
  exists eng,
    __init__ Examples.three_customers_factors Examples.three_customers 1
    = Py.Ok eng
    /\ exists res,
         get_recommendations Examples.argsort_stable eng "C1" 1 = Py.Ok res
         /\ error res = None
         /\ forall r, In r (recommendations res) ->
              exists v, loc_cell (purchase_matrix eng) "C1" (product_id r)
                        = Py.Ok v
                        /\ v == 0.
Proof.
  eexists. split; [vm_compute; reflexivity|].
  apply (recommendations_never_purchased Examples.three_customers_factors
           Examples.argsort_stable Examples.three_customers 1).
  - vm_compute. reflexivity.
  - left. reflexivity.
Defined.



End RecommendationExamples.

(* ------------------------------------------------------------------ *)
(** * The latent factor predictor *)

Section MatrixFacts.

Import Pandas Recommendation.

Lemma nth_map_lt {A B : Type} (f : A -> B) (l : list A) (d : A) (d' : B)
    (i : nat) :
  (i < List.length l)%nat -> nth i (map f l) d' = f (nth i l d).
Proof.
  intros H. rewrite (nth_indep _ d' (f d)) by (rewrite length_map; exact H).
  apply map_nth.
Qed.

Lemma nth_error_map_seq {B : Type} (f : nat -> B) (n i : nat) :
  (i < n)%nat -> nth_error (map f (seq 0 n)) i = Some (f i).
Proof.
  intros H. rewrite nth_error_map.
  rewrite (nth_error_nth' _ 0%nat) by (rewrite length_seq; exact H).
  rewrite seq_nth by exact H. reflexivity.
Qed.

Lemma combine_nth_seq {A B : Type} (d1 : A) (d2 : B) (l1 : list A) :
  forall l2 : list B,
    List.length l1 = List.length l2 ->
    combine l1 l2
    = map (fun i => (nth i l1 d1, nth i l2 d2)) (seq 0 (List.length l1)).
Proof.
  induction l1 as [|x l1 IH]; intros [|y l2]; simpl; try discriminate;
    [reflexivity|].
  intros [= H]. rewrite <- seq_shift, map_map. f_equal. apply IH, H.
Qed.

Lemma Qsum_pick_seq (n l : nat) (a : Q) :
  Qsum (map (fun i => if (i =? l)%nat then a else 0) (seq 0 n))
  == if (l <? n)%nat then a else 0.
Proof.
  induction n as [|n IH].
  - reflexivity.
  - rewrite seq_S, map_app, Qsum_app, IH. simpl.
    destruct (Nat.eqb_spec n l) as [->|Hne].
    + rewrite Nat.ltb_irrefl.
      rewrite (proj2 (Nat.ltb_lt l (S l))) by lia. ring.
    + destruct (Nat.ltb_spec l n), (Nat.ltb_spec l (S n)); try lia; ring.
Qed.

Lemma has_shape_ncols (A : matrix) (m n : nat) :
  has_shape A m n -> (0 < m)%nat -> ncols A = n.
Proof.
  intros [Hm Hn] Hpos. destruct A as [|r A]; simpl in *; [lia|].
  inversion Hn; assumption.
Qed.

Lemma has_shape_row (A : matrix) (m n i : nat) :
  has_shape A m n -> (i < m)%nat -> List.length (nth i A []) = n.
Proof.
  intros [Hm Hn] Hi. rewrite Forall_forall in Hn.
  apply Hn, nth_In. lia.
Qed.

Lemma diag_shape (sigma : list Q) :
  has_shape (diag sigma) (List.length sigma) (List.length sigma).
Proof.
  unfold diag. split.
  - rewrite length_map, length_seq. reflexivity.
  - apply Forall_forall. intros r Hr. apply in_map_iff in Hr.
    destruct Hr as (i & <- & _). rewrite length_map, length_seq. reflexivity.
Qed.

Lemma diag_entry (sigma : list Q) (i l : nat) :
  (i < List.length sigma)%nat -> (l < List.length sigma)%nat ->
  nth l (nth i (diag sigma) []) 0
  = if (i =? l)%nat then nth i sigma 0 else 0.
Proof.
  intros Hi Hl. unfold diag.
  rewrite (nth_map_lt _ _ 0%nat) by (rewrite length_seq; exact Hi).
  rewrite seq_nth by exact Hi. simpl.
  rewrite (nth_map_lt _ _ 0%nat) by (rewrite length_seq; exact Hl).
  rewrite seq_nth by exact Hl. reflexivity.
Qed.

(** A row times [np.diag(sigma)] scales each entry by its singular
    value. *)
Lemma dot_row_diag (r sigma : list Q) (l : nat) :
  List.length r = List.length sigma ->
  (l < List.length sigma)%nat ->
  dot_row r (diag sigma) l == nth l r 0 * nth l sigma 0.
Proof.
  intros Hlen Hl. unfold dot_row.
  rewrite (combine_nth_seq 0 [])
    by (rewrite Hlen; symmetry; apply (diag_shape sigma)).
  rewrite map_map. simpl.
  transitivity
    (Qsum (map (fun i => if (i =? l)%nat then nth l r 0 * nth l sigma 0 else 0)
               (seq 0 (List.length r)))).
  - apply Qsum_ext. intros i Hi. apply in_seq in Hi.
    rewrite diag_entry by lia.
    destruct (Nat.eqb_spec i l) as [->|Hne]; ring.
  - rewrite Qsum_pick_seq, Hlen.
    rewrite (proj2 (Nat.ltb_lt _ _) Hl). reflexivity.
Qed.

Lemma dot_Ok (A B : matrix) (m k n : nat) :
  has_shape A m k -> has_shape B k n -> (0 < k)%nat ->
  dot A B = Py.Ok (map (fun r => map (dot_row r B) (seq 0 n)) A).
Proof.
  intros [Hm Hk] HB Hpos. unfold dot.
  rewrite (has_shape_ncols B k n HB Hpos).
  destruct HB as [HBk HBn]. unfold nrows. rewrite HBk.
  rewrite (proj2 (forallb_forall _ A)), (proj2 (forallb_forall _ B)).
  - reflexivity.
  - intros r Hr. rewrite Forall_forall in HBn. apply Nat.eqb_eq, HBn, Hr.
  - intros r Hr. rewrite Forall_forall in Hk. apply Nat.eqb_eq, Hk, Hr.
Qed.

Lemma dot_shape (A B : matrix) (m n : nat) :
  List.length A = m ->
  has_shape (map (fun r => map (dot_row r B) (seq 0 n)) A) m n.
Proof.
  intros Hm. split; [rewrite length_map; exact Hm|].
  apply Forall_forall. intros r Hr. apply in_map_iff in Hr.
  destruct Hr as (r0 & <- & _). rewrite length_map, length_seq. reflexivity.
Qed.

Lemma sub_rows_Ok (A : matrix) (means : list Q) :
  List.length A = List.length means ->
  sub_rows A means
  = Py.Ok (map (fun p => map (fun v => v - snd p) (fst p)) (combine A means)).
Proof.
  intros H. unfold sub_rows. rewrite (proj2 (Nat.eqb_eq _ _) H). reflexivity.
Qed.

Lemma add_rows_Ok (A : matrix) (means : list Q) :
  List.length A = List.length means ->
  add_rows A means
  = Py.Ok (map (fun p => map (fun v => v + snd p) (fst p)) (combine A means)).
Proof.
  intros H. unfold add_rows. rewrite (proj2 (Nat.eqb_eq _ _) H). reflexivity.
Qed.

Lemma rows_op_shape (op : Q -> Q -> Q) (A : matrix) (means : list Q)
    (m n : nat) :
  has_shape A m n -> List.length means = m ->
  has_shape (map (fun p => map (fun v => op v (snd p)) (fst p)) (combine A means))
            m n.
Proof.
  intros [Hm Hn] Hl. split.
  - rewrite length_map, length_combine. lia.
  - apply Forall_forall. intros r Hr. apply in_map_iff in Hr.
    destruct Hr as ([r0 mu] & <- & Hin). simpl. rewrite length_map.
    rewrite Forall_forall in Hn. apply Hn. eapply in_combine_l, Hin.
Qed.

Lemma DataFrame_of_shaped (vals : matrix) (idx cols : list string) :
  has_shape vals (List.length idx) (List.length cols) ->
  DataFrame_of vals idx cols = Py.Ok (mkDataFrame idx cols vals).
Proof.
  intros [Hm Hn]. unfold DataFrame_of.
  rewrite (proj2 (Nat.eqb_eq _ _) Hm), (proj2 (forallb_forall _ vals));
    [reflexivity|].
  intros r Hr. rewrite Forall_forall in Hn. apply Nat.eqb_eq, Hn, Hr.
Qed.

Lemma pivot_shape (data : list Transaction)
    (index_of columns_of : Transaction -> string) :
  has_shape (values (pivot_table data index_of columns_of))
    (List.length (unique_sorted (map index_of data)))
    (List.length (unique_sorted (map columns_of data))).
Proof.
  unfold pivot_table. simpl. split; [apply length_map|].
  apply Forall_forall. intros r Hr. apply in_map_iff in Hr.
  destruct Hr as (c & <- & _). apply length_map.
Qed.

Lemma centred_rows (A : matrix) :
  map (fun p => map (fun v => v - snd p) (fst p)) (combine A (mean_rows A))
  = map (fun r =>
           map (fun v => v - Qsum r / inject_Z (Z.of_nat (List.length r))) r)
        A.
Proof.
  induction A as [|r A IH]; simpl; [reflexivity|]. f_equal. exact IH.
Qed.

End MatrixFacts.

Section LatentFactors.

Import Pandas Recommendation.

Variable arpack : matrix -> Z -> Py.result (matrix * list Q * matrix).

Local Abbreviation purchases data := (pivot_table data Customer_ID Product_ID).

(** C4, as the code has it.  Let the factor count [k] satisfy
    [1 <= k < min(customers, products)] and let the solver return
    factors [U], [sigma], [Vt] of the expected shapes for the
    mean-centred matrix.  Then the engine is built; the centred matrix
    is the purchase matrix with the mean of each row subtracted from
    that row; every (customer, product) pair has a predicted score,
    which is the product of the three factors at that position plus the
    customer's row mean; the row mean is the customer's total spending
    divided by the number of products, hence the single amount divided
    by the number of products for a customer with one transaction. *)
Theorem latent_factor_predictor (data : list Transaction) (k : Z)
    (centred U : matrix) (sigma : list Q) (Vt : matrix) :
  (1 <= k < Z.of_nat (Nat.min (List.length (index (purchases data)))
                              (List.length (columns (purchases data)))))%Z ->
  sub_rows (values (purchases data)) (mean_rows (values (purchases data)))
  = Py.Ok centred ->
  arpack centred k = Py.Ok (U, sigma, Vt) ->
  has_shape U (List.length (index (purchases data))) (Z.to_nat k) ->
  List.length sigma = Z.to_nat k ->
  has_shape Vt (Z.to_nat k) (List.length (columns (purchases data))) ->
  exists eng,
    __init__ arpack data k = Py.Ok eng
    /\ purchase_matrix eng = purchases data
    /\ index (predictions_df eng) = index (purchases data)
    /\ columns (predictions_df eng) = columns (purchases data)
    /\ centred
       = map (fun r =>
                map (fun v => v - Qsum r / inject_Z (Z.of_nat (List.length r))) r)
             (values (purchases data))
    /\ (forall c pr,
          In c (index (purchases data)) ->
          In pr (columns (purchases data)) ->
          exists i j score,
            position c (index (purchases data)) = Some i
            /\ position pr (columns (purchases data)) = Some j
            /\ loc_cell (predictions_df eng) c pr = Py.Ok score
            /\ score == Spec.reconstructed U sigma Vt
                          (mean_rows (values (purchases data))) i j)
    /\ (forall c i,
          position c (index (purchases data)) = Some i ->
          nth i (mean_rows (values (purchases data))) 0
          == Qsum (map Purchase_Amount (Classification.group data c))
             / inject_Z (Z.of_nat (List.length (columns (purchases data)))))
    /\ (forall t i,
          In t data ->
          Classification.group data (Customer_ID t) = [t] ->
          position (Customer_ID t) (index (purchases data)) = Some i ->
          nth i (mean_rows (values (purchases data))) 0
          == Purchase_Amount t
             / inject_Z (Z.of_nat (List.length (columns (purchases data))))).
Proof.
  intros Hk Hc Ha HU Hs HVt.
  pose proof (pivot_shape data Customer_ID Product_ID) as HM.
  change (unique_sorted (map Customer_ID data))
    with (index (purchases data)) in HM.
  change (unique_sorted (map Product_ID data))
    with (columns (purchases data)) in HM.
  set (idx := index (purchases data)) in *.
  set (cols := columns (purchases data)) in *.
  set (M := values (purchases data)) in *.
  set (means := mean_rows M) in *.
  set (kk := Z.to_nat k) in *.
  assert (Hkk : (0 < kk)%nat) by (unfold kk; lia).
  assert (Hm : (0 < List.length idx)%nat) by lia.
  assert (Hmeans : List.length means = List.length idx).
  { unfold means, mean_rows. rewrite length_map. apply HM. }
  rewrite sub_rows_Ok in Hc by (rewrite Hmeans; apply HM).
  injection Hc as Hc.
  pose proof (rows_op_shape Qminus M means _ _ HM Hmeans) as Hcs.
  change (fun p : list Q * Q => map (fun v : Q => Qminus v (snd p)) (fst p))
    with (fun p : list Q * Q => map (fun v : Q => v - snd p) (fst p)) in Hcs.
  rewrite Hc in Hcs.
  set (US := map (fun r => map (dot_row r (diag sigma)) (seq 0 kk)) U).
  set (PN := map (fun r => map (dot_row r Vt) (seq 0 (List.length cols))) US).
  set (vals := map (fun p : list Q * Q => map (fun v => v + snd p) (fst p))
                   (combine PN means)).
  assert (HUS : has_shape US (List.length idx) kk)
    by (apply dot_shape, HU).
  assert (HPN : has_shape PN (List.length idx) (List.length cols))
    by (apply dot_shape, HUS).
  assert (Hvals : has_shape vals (List.length idx) (List.length cols))
    by (apply (rows_op_shape Qplus); assumption).
  assert (Hinit : __init__ arpack data k
                  = Py.Ok (mkRecommendationEngine k
                             (mkDataFrame idx cols vals) (purchases data) data)).
  { unfold __init__, _load_and_process_data. cbv zeta.
    fold idx cols M means.
    rewrite sub_rows_Ok by (rewrite Hmeans; apply HM).
    cbn [Py.bind]. rewrite Hc. unfold svds.
    assert (E1 : (0 <? k)%Z = true) by (apply Z.ltb_lt; lia).
    assert (E2 : (k <? Z.of_nat (Nat.min (nrows centred) (ncols centred)))%Z
                 = true).
    { unfold nrows. rewrite (has_shape_ncols _ _ _ Hcs Hm).
      destruct Hcs as [-> _]. apply Z.ltb_lt. lia. }
    rewrite E1, E2. cbn [andb]. rewrite Ha. cbn [Py.bind fst snd].
    rewrite (dot_Ok U (diag sigma) (List.length idx) kk kk);
      [|exact HU | rewrite <- Hs; apply diag_shape | exact Hkk].
    cbn [Py.bind]. fold US.
    rewrite (dot_Ok US Vt (List.length idx) kk (List.length cols));
      [|exact HUS | exact HVt | exact Hkk].
    cbn [Py.bind]. fold PN.
    rewrite add_rows_Ok by (rewrite Hmeans; apply HPN).
    cbn [Py.bind]. fold vals.
    rewrite DataFrame_of_shaped by exact Hvals.
    reflexivity. }
  eexists. split; [exact Hinit|]. cbn [purchase_matrix predictions_df index columns].
  split; [reflexivity|]. split; [reflexivity|]. split; [reflexivity|].
  assert (Hmean_i : forall c i, position c idx = Some i ->
            nth i means 0
            = Qsum (map (pivot_cell data Customer_ID Product_ID c) cols)
              / inject_Z (Z.of_nat (List.length cols))).
  { intros c i Hi. pose proof (position_Some _ _ _ Hi) as Hn.
    assert (Hlt : (i < List.length idx)%nat)
      by (apply nth_error_Some; congruence).
    unfold means, mean_rows, M. unfold pivot_table. cbn [values].
    rewrite map_map.
    rewrite (nth_map_lt _ _ ""%string) by exact Hlt.
    rewrite (nth_error_nth _ _ _ Hn), length_map. reflexivity. }
  split; [|split].
  - rewrite <- Hc. apply centred_rows.
  - intros c pr Hcin Hpin.
    destruct (position_In c idx Hcin) as (i & Hi & Hni).
    destruct (position_In pr cols Hpin) as (j & Hj & Hnj).
    assert (Hilt : (i < List.length idx)%nat)
      by (apply nth_error_Some; congruence).
    assert (Hjlt : (j < List.length cols)%nat)
      by (apply nth_error_Some; congruence).
    exists i, j. eexists. split; [exact Hi|]. split; [exact Hj|].
    unfold loc_cell, loc_row. cbn [index columns values]. rewrite Hi, Hj.
    unfold vals. rewrite nth_error_map.
    rewrite (nth_error_nth' _ ([], 0))
      by (rewrite length_combine, Hmeans; destruct HPN as [-> _]; lia).
    rewrite combine_nth by (rewrite Hmeans; apply HPN).
    cbn [option_map fst snd Py.bind].
    unfold PN at 1.
    rewrite (nth_map_lt _ _ []) by (destruct HUS as [-> _]; exact Hilt).
    rewrite map_map, nth_error_map_seq by exact Hjlt.
    split; [reflexivity|].
    unfold Spec.reconstructed. fold means. apply Qplus_comp; [|reflexivity].
    unfold dot_row at 1.
    assert (HUSi : List.length (nth i US []) = kk)
      by (apply (has_shape_row _ _ _ _ HUS Hilt)).
    rewrite (combine_nth_seq 0 [])
      by (rewrite HUSi; symmetry; apply HVt).
    rewrite map_map, HUSi, Hs. apply Qsum_ext. intros l Hl.
    apply in_seq in Hl. cbn [fst snd].
    unfold US.
    rewrite (nth_map_lt _ _ []) by (destruct HU as [-> _]; exact Hilt).
    rewrite (nth_map_lt _ _ 0%nat) by (rewrite length_seq; lia).
    rewrite seq_nth by lia. cbn [Nat.add].
    rewrite dot_row_diag; [reflexivity | | lia].
    rewrite Hs. apply (has_shape_row _ _ _ _ HU Hilt).
  - split.
    + intros c i Hi. rewrite (Hmean_i c i Hi).
      apply Qdiv_comp; [apply (pivot_row_sum data Product_ID c) | reflexivity].
    + intros t i Ht Hg Hi. rewrite (Hmean_i _ i Hi).
      apply Qdiv_comp; [|reflexivity].
      etransitivity; [apply (pivot_row_sum data Product_ID (Customer_ID t))|].
      rewrite Hg. simpl. ring.
Qed.

End LatentFactors.

Section LatentFactorsExamples.

Import Pandas Recommendation.

(** The end-to-end example of spec 8 with one factor: the predicted
    score of customer C1 for product P2 is 0. *)
Lemma latent_factor_predictor_witness :
  exists eng,
    __init__ Examples.three_customers_factors Examples.three_customers 1
    = Py.Ok eng
    /\ exists score,
         loc_cell (predictions_df eng) "C1" "P2" = Py.Ok score /\ score == 0.
Proof.
  eassert (Hc : sub_rows
                  (values (pivot_table Examples.three_customers
                             Customer_ID Product_ID))
                  (mean_rows
                     (values (pivot_table Examples.three_customers
                                Customer_ID Product_ID)))
                = Py.Ok _) by (vm_compute; reflexivity).
  match type of Hc with
  | _ = Py.Ok ?m =>
      destruct (latent_factor_predictor Examples.three_customers_factors
                  Examples.three_customers 1 m [[1]; [0]; [-2]] [50] [[1; -1]])
        as (eng & Hinit & _ & _ & _ & _ & Hscore & _)
  end.
  - vm_compute. split; [discriminate | reflexivity].
  - exact Hc.
  - reflexivity.
  - split; [reflexivity | repeat constructor].
  - reflexivity.
  - split; [reflexivity | repeat constructor].
  - exists eng. split; [exact Hinit|].
    destruct (Hscore "C1"%string "P2"%string) as (i & j & score & Hi & Hj & Hs & Hv).
    + left. reflexivity.
    + right. left. reflexivity.
    + vm_compute in Hi, Hj. injection Hi as <-. injection Hj as <-.
      exists score. split; [exact Hs|]. rewrite Hv. reflexivity.
Defined.

(** C4 as stated fails: a factor count of 0 is below both dimensions,
    and [svds] rejects it. *)
Lemma zero_factors_counterexample :
  ~ (forall (arpack : matrix -> Z -> Py.result (matrix * list Q * matrix))
            (data : list Transaction) (k : Z),
        (k < Z.of_nat
               (Nat.min
                  (List.length (index (pivot_table data Customer_ID Product_ID)))
                  (List.length (columns (pivot_table data Customer_ID Product_ID)))))%Z ->
        exists eng, __init__ arpack data k = Py.Ok eng).
Proof.
  intros H.
  destruct (H Examples.three_customers_factors Examples.three_customers 0%Z)
    as [eng He].
  - reflexivity.
  - vm_compute in He. discriminate He.
Qed.

End LatentFactorsExamples.

(* ------------------------------------------------------------------ *)
(** * More on the feature builder *)

Section FeatureBuilderFacts.

Import Pandas Classification.

Variable data : list Transaction.
Variable current_date : Z.
Variables (k : Z) (hp mp mult : Q).

Local Abbreviation engine := (__init__ data current_date k hp mp mult).

Lemma features_index :
  map Customer (rows (features engine)) = unique_sorted (map Customer_ID data).
Proof. rewrite features_rows, map_map. simpl. apply map_id. Qed.

Lemma leb_false_total (a b : string) :
  String.leb a b = false -> String.leb b a = true.
Proof. destruct (String.leb_total a b) as [H | H]; congruence. Qed.

(** X1.  [self.features] has exactly one row per customer of the store,
    in ascending order of customer id. *)
Theorem features_one_row_per_customer :
  NoDup (map Customer
           (rows (features (__init__ data current_date k hp mp mult))))
  /\ Sorted (fun a b => String.leb a b = true)
       (map Customer
          (rows (features (__init__ data current_date k hp mp mult))))
  /\ (forall c,
        In c (map Customer
                (rows (features (__init__ data current_date k hp mp mult))))
        <-> exists t, In t data /\ Customer_ID t = c)
  /\ (List.length
        (rows (features (__init__ data current_date k hp mp mult)))
      <= List.length data)%nat.
Proof.
  rewrite <- (length_map Customer), features_index.
  split; [apply unique_sorted_NoDup|].
  split; [apply sort_by_sorted, leb_false_total|].
  split.
  - intros c. rewrite unique_sorted_In, in_map_iff.
    split; intros (t & H1 & H2); exists t; auto.
  - rewrite <- (length_map Customer_ID data).
    apply NoDup_incl_length; [apply unique_sorted_NoDup|].
    intros c Hc. apply unique_sorted_In, Hc.
Qed.

Lemma Zsum_of_nat {A : Type} (f : A -> nat) (l : list A) :
  fold_right Z.add 0%Z (map (fun x => Z.of_nat (f x)) l)
  = Z.of_nat (sum_nat (map f l)).
Proof.
  induction l as [|x l IH]; simpl; [reflexivity|]. rewrite IH. lia.
Qed.

(** X2.  Conservation of the transaction count: the purchase frequencies
    of all customers add up to the number of transactions, and every
    customer has at least one. *)
Theorem purchase_frequency_conserved :
  fold_right Z.add 0%Z
    (map (fun f => Purchase_Frequency (feature_metrics f))
         (rows (features (__init__ data current_date k hp mp mult))))
  = Z.of_nat (List.length data)
  /\ forall f,
       In f (rows (features (__init__ data current_date k hp mp mult))) ->
       (1 <= Purchase_Frequency (feature_metrics f))%Z.
Proof.
  split.
  - rewrite features_rows, map_map. simpl.
    rewrite (Zsum_of_nat (fun c => List.length (group data c))).
    f_equal. apply (count_groups Customer_ID).
    + apply unique_sorted_NoDup.
    + intros t Ht. apply unique_sorted_In, in_map, Ht.
  - intros f Hf. destruct (features_row_unique _ _ _ _ _ _ _ Hf) as [Hc ->].
    simpl. destruct (group_nonempty data _ Hc) as (t & g & ->). simpl. lia.
Qed.


Lemma max_fold_upper (s : Z) (l : list Z) (x : Z) :
  x = s \/ In x l -> (x <= fold_right Z.max s l)%Z.
Proof.
  induction l as [|y l IH]; simpl.
  - intros [-> | []]. lia.
  - intros [H | [-> | H]]; [specialize (IH (or_introl H)) | | specialize (IH (or_intror H))]; lia.
Qed.

Lemma max_fold_attained (s : Z) (l : list Z) :
  fold_right Z.max s l = s \/ In (fold_right Z.max s l) l.
Proof.
  induction l as [|y l IH]; simpl; [left; reflexivity|].
  destruct (Z.max_spec y (fold_right Z.max s l)) as [[_ ->] | [_ ->]].
  - destruct IH as [IH | IH]; [left; exact IH | right; right; exact IH].
  - right. left. reflexivity.
Qed.

Lemma last_purchase_upper (l : list Z) (x : Z) :
  In x l -> (x <= Spec.last_purchase l)%Z.
Proof.
  destruct l as [|d ds]; [intros []|]. simpl.
  intros [<- | H]; apply max_fold_upper; auto.
Qed.

Lemma last_purchase_attained (l : list Z) :
  l <> [] -> In (Spec.last_purchase l) l.
Proof.
  destruct l as [|d ds]; [congruence|]. intros _. simpl.
  destruct (max_fold_attained d ds) as [-> | H]; auto.
Qed.

(** X4.  Recency is measured from the customer's latest purchase: no
    purchase of the customer is more recent, and one is exactly that
    old. *)
Theorem recency_of_latest_purchase (f : FeatureRow) :
  In f (rows (features (__init__ data current_date k hp mp mult))) ->
  (forall t, In t data -> Customer_ID t = Customer f ->
             (Days_Since_Last_Purchase (feature_metrics f)
              <= (current_date - Purchase_Date t) / us_per_day)%Z)
  /\ exists t, In t data /\ Customer_ID t = Customer f
               /\ Days_Since_Last_Purchase (feature_metrics f)
                  = ((current_date - Purchase_Date t) / us_per_day)%Z.
Proof.
  intros Hf. destruct (features_row_unique _ _ _ _ _ _ _ Hf) as [Hc ->].
  simpl. split.
  - intros t Ht E. apply Z.div_le_mono; [reflexivity|].
    assert (Purchase_Date t
            <= Spec.last_purchase (map Purchase_Date (group data (Customer f))))%Z.
    { apply last_purchase_upper, in_map, group_In. auto. }
    lia.
  - assert (Hne : map Purchase_Date (group data (Customer f)) <> []).
    { destruct (group_nonempty data _ Hc) as (t & g & ->). discriminate. }
    apply last_purchase_attained in Hne. apply in_map_iff in Hne.
    destruct Hne as (t & E & Ht). apply group_In in Ht.
    exists t. split; [apply Ht|]. split; [apply Ht|]. rewrite E. reflexivity.
Qed.

Lemma max_fold_seed (a : Z) (d : Z) (ds : list Z) :
  In a (d :: ds) -> fold_right Z.max a (d :: ds) = fold_right Z.max d ds.
Proof.
  intros Ha. apply Z.le_antisymm.
  - destruct (max_fold_attained a (d :: ds)) as [-> | H].
    + destruct Ha as [<- | Ha]; apply max_fold_upper; auto.
    + destruct H as [<- | H]; apply max_fold_upper; auto.
  - destruct (max_fold_attained d ds) as [-> | H];
      apply max_fold_upper; right; [left; reflexivity | right; exact H].
Qed.

(** X5.  The metric columns added to [self.df] are broadcast: the rows
    keep the transactions in file order, and every row carries the
    feature vector of its customer. *)
Theorem df_rows_carry_customer_metrics :
  map txn (df (__init__ data current_date k hp mp mult)) = data
  /\ forall r,
       In r (df (__init__ data current_date k hp mp mult)) ->
       exists f,
         In f (rows (features (__init__ data current_date k hp mp mult)))
         /\ Customer f = Customer_ID (txn r)
         /\ metrics r = feature_metrics f.
Proof.
  unfold __init__, _prepare_features. simpl. split.
  - rewrite map_map. simpl. apply map_id.
  - intros r Hr. apply in_map_iff in Hr. destruct Hr as (t & <- & Ht).
    exists (mkFeatureRow (Customer_ID t)
              (Spec.feature_vector current_date data (Customer_ID t))
              (joined_shares (category_pivot data) (Customer_ID t))).
    split; [|split; [reflexivity|]].
    + pose proof (features_rows data current_date k hp mp mult) as E.
      unfold __init__, _prepare_features in E. simpl in E. rewrite E.
      apply (in_map (fun c => mkFeatureRow c
                                (Spec.feature_vector current_date data c)
                                (joined_shares (category_pivot data) c))).
      apply unique_sorted_In, in_map, Ht.
    + unfold prepare_row, Spec.feature_vector. simpl. f_equal. f_equal. f_equal.
      assert (Hin : In t (group data (Customer_ID t)))
        by (apply group_In; auto).
      destruct (group data (Customer_ID t)) as [|t0 g]; [destruct Hin|].
      simpl map. unfold Spec.last_purchase.
      apply max_fold_seed. apply (in_map Purchase_Date) in Hin. exact Hin.
Qed.

End FeatureBuilderFacts.

Section FeatureBuilderFactsExamples.

Import Classification.


(** The recency of customer C2, whose purchases are three and two
    days old. *)
Lemma recency_of_latest_purchase_witness :
  exists f,
    In f (rows (features Examples.three_customers_segmentation))
    /\ Customer f = "C2"%string
    /\ exists t,
         In t Examples.three_customers /\ Customer_ID t = Customer f
         /\ Days_Since_Last_Purchase (feature_metrics f)
            = ((3 * us_per_day - Purchase_Date t) / us_per_day)%Z.
Proof.
  eexists. split; [right; left; reflexivity|]. split; [reflexivity|].
  apply (recency_of_latest_purchase Examples.three_customers
           (3 * us_per_day)%Z 1 (3 # 4) (1 # 2) 1).
  right; left; reflexivity.
Defined.

End FeatureBuilderFactsExamples.

(* ------------------------------------------------------------------ *)
(** * More on the threshold calculator *)

Section QuantileFacts.

Import Pandas.

Lemma sort_Qle_sorted (xs : list Q) : StronglySorted Qle (sort_by Qle_bool xs).
Proof.
  apply Sorted_StronglySorted.
  - intros a b c Hab Hbc. eapply Qle_trans; eassumption.
  - eapply Sorted_impl; [|apply sort_by_sorted, Qle_bool_total].
    intros a b H. apply Qle_bool_iff, H.
Qed.

Lemma sorted_nth_le (l : list Q) (d : Q) :
  StronglySorted Qle l ->
  forall i j, (i <= j < List.length l)%nat -> nth i l d <= nth j l d.
Proof.
  induction 1 as [|x l Hs IH Hall]; intros i j Hij; simpl in *; [lia|].
  destruct i as [|i], j as [|j]; try lia.
  - apply Qle_refl.
  - rewrite Forall_forall in Hall. apply Hall, nth_In. lia.
  - apply IH. lia.
Qed.

Lemma sort_by_nonempty (xs : list Q) : xs <> [] -> sort_by Qle_bool xs <> [].
Proof.
  intros H E. apply H.
  apply Permutation_nil. rewrite <- E. apply sort_by_perm.
Qed.

Lemma quantile_interpolate (xs : list Q) (q : Q) :
  0 <= q -> q <= 1 -> xs <> [] ->
  quantile xs q = Py.Ok (Fin (Stats.interpolate (sort_by Qle_bool xs) q)).
Proof.
  intros H0 H1 Hne. unfold quantile.
  rewrite (proj2 (Qle_bool_iff 0 q) H0), (proj2 (Qle_bool_iff q 1) H1).
  cbn [andb]. pose proof (sort_by_nonempty xs Hne) as Hs.
  destruct (sort_by Qle_bool xs) as [|x0 l]; [congruence|]. reflexivity.
Qed.

(** The position [q * (n - 1)] of a quantile and its integer part. *)
Lemma position_bounds (n : nat) (q : Q) :
  (1 <= n)%nat -> 0 <= q -> q <= 1 ->
  (0 <= Qfloor (q * inject_Z (Z.of_nat n - 1)) <= Z.of_nat n - 1)%Z.
Proof.
  intros Hn H0 H1.
  assert (HN : 0 <= inject_Z (Z.of_nat n - 1))
    by (change 0 with (inject_Z 0); rewrite <- Zle_Qle; lia).
  split.
  - change 0%Z with (Qfloor 0). apply Qfloor_resp_le. nra.
  - rewrite <- (Qfloor_Z (Z.of_nat n - 1)) at 2. apply Qfloor_resp_le. nra.
Qed.

Lemma interpolate_between (l : list Q) (q : Q) :
  StronglySorted Qle l -> l <> [] -> 0 <= q -> q <= 1 ->
  exists i j,
    (i <= j < List.length l)%nat
    /\ i = Z.to_nat (Qfloor (q * inject_Z (Z.of_nat (List.length l) - 1)))
    /\ j = Nat.min (S i) (List.length l - 1)
    /\ nth i l (hd 0 l) <= Stats.interpolate l q
    /\ Stats.interpolate l q <= nth j l (hd 0 l).
Proof.
  intros Hs Hne H0 H1.
  assert (Hn : (1 <= List.length l)%nat)
    by (destruct l; [congruence | simpl; lia]).
  pose proof (position_bounds _ q Hn H0 H1) as Hfl.
  unfold Stats.interpolate. cbv zeta.
  set (pos := q * inject_Z (Z.of_nat (List.length l) - 1)) in *.
  set (i := Z.to_nat (Qfloor pos)).
  set (j := Nat.min (S i) (List.length l - 1)).
  assert (Hij : (i <= j < List.length l)%nat) by (unfold j, i; lia).
  exists i, j. split; [exact Hij|]. split; [reflexivity|]. split; [reflexivity|].
  pose proof (sorted_nth_le l (hd 0 l) Hs i j Hij) as Hab.
  pose proof (Qfloor_le pos) as Hf1.
  pose proof (Qlt_floor pos) as Hf2.
  rewrite inject_Z_plus in Hf2. change (inject_Z 1) with 1 in Hf2.
  split; nra.
Qed.

(** A quantile of a non-empty column lies between two of its values. *)
Lemma quantile_within (xs : list Q) (q : Q) :
  0 <= q -> q <= 1 -> xs <> [] ->
  exists v a b,
    quantile xs q = Py.Ok (Fin v) /\ In a xs /\ In b xs /\ a <= v /\ v <= b.
Proof.
  intros H0 H1 Hne.
  destruct (interpolate_between (sort_by Qle_bool xs) q (sort_Qle_sorted xs)
              (sort_by_nonempty xs Hne) H0 H1)
    as (i & j & Hij & _ & _ & Ha & Hb).
  exists (Stats.interpolate (sort_by Qle_bool xs) q),
    (nth i (sort_by Qle_bool xs) (hd 0 (sort_by Qle_bool xs))),
    (nth j (sort_by Qle_bool xs) (hd 0 (sort_by Qle_bool xs))).
  split; [apply quantile_interpolate; assumption|].
  split; [|split; [|split; assumption]];
    (eapply Permutation_in; [apply sort_by_perm | apply nth_In; lia]).
Qed.

Lemma interpolate_mono (l : list Q) (q1 q2 : Q) :
  StronglySorted Qle l -> l <> [] ->
  0 <= q1 -> q1 <= q2 -> q2 <= 1 ->
  Stats.interpolate l q1 <= Stats.interpolate l q2.
Proof.
  intros Hs Hne H0 H12 H1.
  assert (Hn : (1 <= List.length l)%nat)
    by (destruct l; [congruence | simpl; lia]).
  assert (H1' : q1 <= 1) by lra. assert (H0' : 0 <= q2) by lra.
  destruct (interpolate_between l q1 Hs Hne H0 H1')
    as (i1 & j1 & Hij1 & Ei1 & Ej1 & Ha1 & Hb1).
  destruct (interpolate_between l q2 Hs Hne H0' H1)
    as (i2 & j2 & Hij2 & Ei2 & Ej2 & Ha2 & Hb2).
  pose proof (position_bounds _ q1 Hn H0 H1') as Hfl1.
  pose proof (position_bounds _ q2 Hn H0' H1) as Hfl2.
  assert (HN : 0 <= inject_Z (Z.of_nat (List.length l) - 1))
    by (change 0 with (inject_Z 0); rewrite <- Zle_Qle; lia).
  assert (Hpos : q1 * inject_Z (Z.of_nat (List.length l) - 1)
                 <= q2 * inject_Z (Z.of_nat (List.length l) - 1)) by nra.
  pose proof (Qfloor_resp_le _ _ Hpos) as Hfl.
  destruct (Z.eq_dec (Qfloor (q1 * inject_Z (Z.of_nat (List.length l) - 1)))
              (Qfloor (q2 * inject_Z (Z.of_nat (List.length l) - 1))))
    as [E | Hneq].
  - assert (Ei : i1 = i2) by (rewrite Ei1, Ei2, E; reflexivity).
    assert (Ej : j1 = j2) by (rewrite Ej1, Ej2, Ei; reflexivity).
    pose proof (sorted_nth_le l (hd 0 l) Hs i2 j2 Hij2) as Hab.
    unfold Stats.interpolate. cbv zeta.
    rewrite <- Ei1, <- Ej1, <- Ei2, <- Ej2, Ei, Ej, E. nra.
  - assert (Hlt : (j1 <= i2)%nat) by lia.
    pose proof (sorted_nth_le l (hd 0 l) Hs j1 i2 ltac:(lia)).
    lra.
Qed.

End QuantileFacts.

Section ThresholdFacts.

Import Pandas Classification.

Variable sqrt : Q -> Q.

Lemma quantile_invalid (xs : list Q) (q : Q) :
  ~ (0 <= q /\ q <= 1) -> quantile xs q = Py.Raise Py.ValueError.
Proof.
  intros H. unfold quantile.
  destruct (Qle_bool 0 q) eqn:E0; [|reflexivity].
  destruct (Qle_bool q 1) eqn:E1; [|reflexivity].
  exfalso. apply H. split; apply Qle_bool_iff; assumption.
Qed.

Lemma quantile_Ok_valid (xs : list Q) (q : Q) (v : float64) :
  quantile xs q = Py.Ok v -> 0 <= q /\ q <= 1.
Proof.
  unfold quantile.
  destruct (Qle_bool 0 q) eqn:E0; [|discriminate].
  destruct (Qle_bool q 1) eqn:E1; [|discriminate].
  intros _. split; apply Qle_bool_iff; assumption.
Qed.

(** The thresholds depend on the rows of [self.features] and on the
    configuration only. *)
Lemma calculate_thresholds_ext (a b : CustomerSegmentation) :
  rows (features a) = rows (features b) ->
  high_percentile a = high_percentile b ->
  medium_percentile a = medium_percentile b ->
  recency_std_multiplier a = recency_std_multiplier b ->
  _calculate_thresholds sqrt a = _calculate_thresholds sqrt b.
Proof.
  intros Hr Hh Hm Hs. unfold _calculate_thresholds.
  rewrite Hr, Hh, Hm, Hs. reflexivity.
Qed.

Lemma column_nonempty {V : Type} (f : Metrics -> V) (rs : list FeatureRow) :
  rs <> [] -> column f rs <> [].
Proof. destruct rs; [congruence | discriminate]. Qed.

Lemma In_column {V : Type} (f : Metrics -> V) (rs : list FeatureRow) (x : V) :
  In x (column f rs) -> exists r, In r rs /\ f (feature_metrics r) = x.
Proof.
  unfold column. rewrite in_map_iff. intros (r & E & Hr). exists r. auto.
Qed.

(** X6.  Percentile thresholds are ordered like the percentiles: with
    [medium_percentile <= high_percentile] the medium spending and
    frequency thresholds do not exceed the high ones. *)
Theorem thresholds_ordered (self : CustomerSegmentation) :
  rows (features self) <> [] ->
  0 <= medium_percentile self ->
  medium_percentile self <= high_percentile self ->
  high_percentile self <= 1 ->
  exists sh sm fh fm rec,
    _calculate_thresholds sqrt self
    = Py.Ok (mkThresholds (mkLevels (Fin sh) (Fin sm))
                          (mkLevels (Fin fh) (Fin fm)) rec)
    /\ sm <= sh /\ fm <= fh.
Proof.
  intros Hne H0 Hmh H1.
  assert (Hh0 : 0 <= high_percentile self) by lra.
  assert (Hm1 : medium_percentile self <= 1) by lra.
  unfold _calculate_thresholds.
  rewrite !quantile_interpolate
    by (try assumption; apply column_nonempty, Hne).
  cbn [Py.bind]. do 5 eexists. split; [reflexivity|].
  split; apply interpolate_mono;
    try assumption; try apply sort_Qle_sorted;
    apply sort_by_nonempty, column_nonempty, Hne.
Qed.

(** X7.  Every percentile threshold lies between the values of two
    customers: the spending thresholds between two customers' total
    spending, the frequency thresholds between two customers' purchase
    frequencies. *)
Theorem thresholds_within_data (self : CustomerSegmentation) :
  rows (features self) <> [] ->
  0 <= high_percentile self <= 1 ->
  0 <= medium_percentile self <= 1 ->
  exists sh sm fh fm rec,
    _calculate_thresholds sqrt self
    = Py.Ok (mkThresholds (mkLevels (Fin sh) (Fin sm))
                          (mkLevels (Fin fh) (Fin fm)) rec)
    /\ (forall v, v = sh \/ v = sm ->
          exists r1 r2,
            In r1 (rows (features self)) /\ In r2 (rows (features self))
            /\ Total_Spending (feature_metrics r1) <= v
            /\ v <= Total_Spending (feature_metrics r2))
    /\ (forall v, v = fh \/ v = fm ->
          exists r1 r2,
            In r1 (rows (features self)) /\ In r2 (rows (features self))
            /\ inject_Z (Purchase_Frequency (feature_metrics r1)) <= v
            /\ v <= inject_Z (Purchase_Frequency (feature_metrics r2))).
Proof.
  intros Hne [Hh0 Hh1] [Hm0 Hm1]. unfold _calculate_thresholds.
  set (spent := column Total_Spending (rows (features self))).
  set (freq := column (fun m => inject_Z (Purchase_Frequency m))
                      (rows (features self))).
  destruct (quantile_within spent _ Hh0 Hh1 (column_nonempty _ _ Hne))
    as (sh & a1 & b1 & -> & Ha1 & Hb1 & Hsh).
  destruct (quantile_within spent _ Hm0 Hm1 (column_nonempty _ _ Hne))
    as (sm & a2 & b2 & -> & Ha2 & Hb2 & Hsm).
  destruct (quantile_within freq _ Hh0 Hh1 (column_nonempty _ _ Hne))
    as (fh & a3 & b3 & -> & Ha3 & Hb3 & Hfh).
  destruct (quantile_within freq _ Hm0 Hm1 (column_nonempty _ _ Hne))
    as (fm & a4 & b4 & -> & Ha4 & Hb4 & Hfm).
  cbn [Py.bind]. exists sh, sm, fh, fm. eexists. split; [reflexivity|].
  apply In_column in Ha1, Hb1, Ha2, Hb2, Ha3, Hb3, Ha4, Hb4.
  destruct Ha1 as (ra1 & ? & <-), Hb1 as (rb1 & ? & <-),
    Ha2 as (ra2 & ? & <-), Hb2 as (rb2 & ? & <-),
    Ha3 as (ra3 & ? & <-), Hb3 as (rb3 & ? & <-),
    Ha4 as (ra4 & ? & <-), Hb4 as (rb4 & ? & <-).
  split; intros v [-> | ->].
  - exists ra1, rb1. tauto.
  - exists ra2, rb2. tauto.
  - exists ra3, rb3. tauto.
  - exists ra4, rb4. tauto.
Qed.

Lemma calculate_thresholds_invalid (self : CustomerSegmentation) :
  ~ (0 <= high_percentile self /\ high_percentile self <= 1)
  \/ ~ (0 <= medium_percentile self /\ medium_percentile self <= 1) ->
  _calculate_thresholds sqrt self = Py.Raise Py.ValueError.
Proof.
  intros H. unfold _calculate_thresholds.
  destruct (quantile (column Total_Spending (rows (features self)))
              (high_percentile self)) as [sh|e] eqn:Esh.
  - destruct H as [H | H].
    + exfalso. apply H. eapply quantile_Ok_valid, Esh.
    + cbn [Py.bind]. rewrite (quantile_invalid _ _ H). reflexivity.
  - destruct H as [H | H].
    + rewrite (quantile_invalid _ _ H) in Esh. injection Esh as <-. reflexivity.
    + cbn [Py.bind].
      destruct (Qle_bool 0 (high_percentile self)
                && Qle_bool (high_percentile self) 1) eqn:E.
      * unfold quantile in Esh. rewrite E in Esh.
        destruct (sort_by Qle_bool _); discriminate.
      * unfold quantile in Esh. rewrite E in Esh. injection Esh as <-.
        reflexivity.
Qed.

End ThresholdFacts.

Section ThresholdFactsExamples.

Import Classification.

(** The thresholds of the store of spec 8 at the 75th and 50th
    percentiles. *)
Lemma thresholds_ordered_witness :
  exists sh sm fh fm rec,
    _calculate_thresholds Examples.sqrt_floor
      Examples.three_customers_segmentation
    = Py.Ok (mkThresholds (mkLevels (Fin sh) (Fin sm))
                          (mkLevels (Fin fh) (Fin fm)) rec)
    /\ sm <= sh /\ fm <= fh.
Proof.
  apply (thresholds_ordered Examples.sqrt_floor
           Examples.three_customers_segmentation).
  - discriminate.
  - discriminate.
  - discriminate.
  - discriminate.
Defined.

Lemma thresholds_within_data_witness :
  exists sh sm fh fm rec,
    _calculate_thresholds Examples.sqrt_floor
      Examples.three_customers_segmentation
    = Py.Ok (mkThresholds (mkLevels (Fin sh) (Fin sm))
                          (mkLevels (Fin fh) (Fin fm)) rec)
    /\ 100 <= sh /\ sh <= 200.
Proof.
  destruct (thresholds_within_data Examples.sqrt_floor
              Examples.three_customers_segmentation)
    as (sh & sm & fh & fm & rec & E & Hs & _).
  - discriminate.
  - split; discriminate.
  - split; discriminate.
  - exists sh, sm, fh, fm, rec. split; [exact E|].
    destruct (Hs sh (or_introl eq_refl)) as (r1 & r2 & H1 & H2 & Hlo & Hhi).
    assert (Hall : forall r,
               In r (rows (features Examples.three_customers_segmentation)) ->
               100 <= Total_Spending (feature_metrics r)
               /\ Total_Spending (feature_metrics r) <= 200).
    { intros r [<- | [<- | [<- | []]]]; split; discriminate. }
    destruct (Hall r1 H1) as [Ha _]. destruct (Hall r2 H2) as [_ Hb].
    split; lra.
Defined.

End ThresholdFactsExamples.

(* ------------------------------------------------------------------ *)
(** * More on clustering and its results *)

Section ClusteringFacts.

Import Pandas Classification Setup.

Variable sqrt : Q -> Q.
Variable fit_predict : list (list float64) -> Z -> Py.result (list Z).

Lemma same_setup_trans (a b c : CustomerSegmentation) :
  same_setup a b -> same_setup b c -> same_setup a c.
Proof.
  unfold same_setup. intros (? & ? & ? & ? & ?) (? & ? & ? & ? & ?).
  repeat split; congruence.
Qed.

Lemma same_setup_thresholds (a b : CustomerSegmentation) :
  same_setup a b ->
  _calculate_thresholds sqrt a = _calculate_thresholds sqrt b.
Proof.
  intros (Hr & _ & Hh & Hm & Hs). apply calculate_thresholds_ext; assumption.
Qed.

Lemma label_segment_setup (self : CustomerSegmentation) (r : FeatureRow)
    (p : string * CustomerSegmentation) :
  _label_segment sqrt self r = Py.Ok p -> same_setup (snd p) self.
Proof.
  unfold _label_segment. destruct (_thresholds self).
  - intros [= <-]. repeat split.
  - intros H. apply bind_Ok in H. destruct H as (t & _ & [= <-]).
    repeat split.
Qed.

Lemma apply_label_setup (rs : list FeatureRow) :
  forall (self : CustomerSegmentation) (q : list string * CustomerSegmentation),
    apply_label_segment sqrt self rs = Py.Ok q -> same_setup (snd q) self.
Proof.
  induction rs as [|r rs IH]; intros self q; simpl.
  - intros [= <-]. repeat split.
  - intros H. apply bind_Ok in H. destruct H as (p1 & H1 & H).
    apply bind_Ok in H. destruct H as (p2 & H2 & [= <-]). simpl.
    eapply same_setup_trans; [apply (IH _ _ H2)|].
    apply (label_segment_setup _ _ _ H1).
Qed.

Lemma apply_label_memoized (t : Thresholds) (rs : list FeatureRow) :
  forall self, _thresholds self = Some t ->
    apply_label_segment sqrt self rs
    = Py.Ok (map (fun r => label_of r t) rs, self).
Proof.
  induction rs as [|r rs IH]; intros self H; simpl; [reflexivity|].
  unfold _label_segment. rewrite H. cbn [Py.bind fst snd].
  rewrite (IH self H). reflexivity.
Qed.

(** On an engine without memoized thresholds the first row computes
    them and all rows are labelled against them. *)
Lemma apply_label_fresh (self : CustomerSegmentation) (rs : list FeatureRow)
    (q : list string * CustomerSegmentation) :
  _thresholds self = None ->
  apply_label_segment sqrt self rs = Py.Ok q ->
  (rs = [] /\ fst q = [])
  \/ (exists t, _calculate_thresholds sqrt self = Py.Ok t
                /\ fst q = map (fun r => label_of r t) rs
                /\ _thresholds (snd q) = Some t).
Proof.
  intros Hnone. destruct rs as [|r rs]; simpl.
  - intros [= <-]. left. split; reflexivity.
  - intros H. right. unfold _label_segment in H. rewrite Hnone in H.
    destruct (_calculate_thresholds sqrt self) as [t|e]; [|discriminate].
    cbn [Py.bind fst snd] in H.
    rewrite (apply_label_memoized t rs (set_thresholds self t) eq_refl) in H.
    cbn [Py.bind fst snd] in H. injection H as <-.
    exists t. repeat split.
Qed.

(** A successful [perform_clustering] keeps rows and configuration. *)
Lemma perform_clustering_setup (self : CustomerSegmentation) (now : Z)
    (p : SegmentationResults * CustomerSegmentation) :
  perform_clustering sqrt fit_predict self now = Py.Ok p ->
  same_setup (snd p) self.
Proof.
  unfold perform_clustering. destruct (Segment (features self)); [discriminate|].
  intros H. apply bind_Ok in H. destruct H as (clusters & _ & H).
  destruct (negb _); [discriminate|].
  apply bind_Ok in H. destruct H as (q & Hq & H).
  apply bind_Ok in H. destruct H as (r & _ & [= <-]).
  apply apply_label_setup in Hq. destruct Hq as (_ & ? & ? & ? & ?).
  repeat split; assumption.
Qed.

(** What a successful [perform_clustering] leaves behind on an engine
    that has not labelled anything yet. *)
Lemma perform_clustering_fresh (self self' : CustomerSegmentation) (now : Z)
    (res : SegmentationResults) :
  _thresholds self = None ->
  perform_clustering sqrt fit_predict self now = Py.Ok (res, self') ->
  exists t clusters,
    _calculate_thresholds sqrt self = Py.Ok t
    /\ fit_predict (feature_matrix (rows (features self))) (n_clusters self)
       = Py.Ok clusters
    /\ List.length clusters = List.length (rows (features self))
    /\ features self'
       = mkFeatures (rows (features self)) (Some clusters)
           (Some (map (fun r => label_of r t) (rows (features self))))
    /\ segmentation_results sqrt self'
         (map (fun r => label_of r t) (rows (features self))) now
       = Py.Ok res
    /\ summary_thresholds (summary res) = t.
Proof.
  intros Hnone Hrun.
  pose proof (perform_clustering_setup _ _ _ Hrun) as Hsetup.
  cbn [snd] in Hsetup. revert Hrun. unfold perform_clustering.
  destruct (Segment (features self)); [discriminate|].
  intros H. apply bind_Ok in H. destruct H as (clusters & Hfit & H).
  destruct (List.length clusters =? List.length (rows (features self)))%nat
    eqn:Elen; [|discriminate]. cbn [negb] in H.
  apply bind_Ok in H. destruct H as (q & Hq & H).
  apply bind_Ok in H. destruct H as (r & Hr & [= <- <-]).
  pose proof Hr as Hr'. unfold segmentation_results in Hr'.
  apply bind_Ok in Hr'. destruct Hr' as (t' & Ht' & [= E]).
  rewrite (same_setup_thresholds _ _ Hsetup) in Ht'.
  assert (Hlabels : fst q = map (fun r => label_of r t') (rows (features self))).
  { destruct (apply_label_fresh
                (set_features self
                   (mkFeatures (rows (features self)) (Some clusters) None))
                _ _ Hnone Hq) as [[E0 ->] | (t & Ht & -> & _)].
    - rewrite E0. reflexivity.
    - rewrite (same_setup_thresholds _ self) in Ht by (repeat split).
      assert (Et : t = t') by congruence. rewrite Et. reflexivity. }
  exists t', clusters. split; [exact Ht'|]. split; [exact Hfit|].
  split; [apply Nat.eqb_eq, Elen|].
  rewrite Hlabels in *. split; [reflexivity|].
  split; [exact Hr|]. rewrite <- E. reflexivity.
Qed.

(** X8.  With a percentile outside [0, 1] nothing is computed: the
    thresholds raise [ValueError], and neither [perform_clustering] nor
    [get_segmentation_results] returns a result. *)
Theorem invalid_percentile_no_result (self : CustomerSegmentation) (now : Z) :
  ~ (0 <= high_percentile self /\ high_percentile self <= 1)
  \/ ~ (0 <= medium_percentile self /\ medium_percentile self <= 1) ->
  _calculate_thresholds sqrt self = Py.Raise Py.ValueError
  /\ ~ Py.returns (perform_clustering sqrt fit_predict self now)
  /\ ~ Py.returns (get_segmentation_results sqrt fit_predict self now).
Proof.
  intros Hbad.
  assert (Hstuck : forall s labels r,
            same_setup s self ->
            segmentation_results sqrt s labels now <> Py.Ok r).
  { intros s labels r Hs Hr. unfold segmentation_results in Hr.
    rewrite (same_setup_thresholds _ _ Hs) in Hr.
    rewrite (calculate_thresholds_invalid sqrt self Hbad) in Hr.
    discriminate Hr. }
  assert (Hpc : ~ Py.returns (perform_clustering sqrt fit_predict self now)).
  { intros [p Hp].
    destruct (perform_clustering_Ok _ _ _ _ _ Hp) as (labels & _ & _ & _ & Hr).
    apply (Hstuck _ _ _ (perform_clustering_setup _ _ _ Hp) Hr). }
  split; [apply calculate_thresholds_invalid, Hbad|]. split; [exact Hpc|].
  intros [[res self'] H]. unfold get_segmentation_results in H.
  destruct (Segment (features self)) as [labels|].
  - apply bind_Ok in H. destruct H as (r & Hr & _).
    apply (Hstuck self labels r); [repeat split | exact Hr].
  - apply bind_Ok in H. destruct H as (p & Hp & _).
    apply Hpc. exists p. exact Hp.
Qed.

(** X9.  Every customer's segment is the labeler applied to the
    customer's metrics and to the thresholds reported in the summary,
    which are the thresholds of the engine; the cluster ids are those of
    the clustering, one per customer. *)
Theorem segments_follow_reported_thresholds (self self' : CustomerSegmentation)
    (now : Z) (res : SegmentationResults) :
  _thresholds self = None ->
  perform_clustering sqrt fit_predict self now = Py.Ok (res, self') ->
  exists labels clusters,
    Segment (features self') = Some labels
    /\ Cluster (features self') = Some clusters
    /\ rows (features self') = rows (features self)
    /\ fit_predict (feature_matrix (rows (features self))) (n_clusters self)
       = Py.Ok clusters
    /\ List.length clusters = List.length (rows (features self))
    /\ _calculate_thresholds sqrt self
       = Py.Ok (summary_thresholds (summary res))
    /\ forall i row,
         nth_error (rows (features self)) i = Some row ->
         nth_error labels i
         = Some (label_of row (summary_thresholds (summary res))).
Proof.
  intros Hnone Hrun.
  destruct (perform_clustering_fresh _ _ _ _ Hnone Hrun)
    as (t & clusters & Ht & Hfit & Hlen & Hf & _ & Hsum).
  rewrite Hf, Hsum. simpl. eexists. exists clusters.
  repeat (split; [first [reflexivity | assumption]|]).
  intros i row Hi. rewrite nth_error_map, Hi. reflexivity.
Qed.

Lemma quantile_single_Ok (x q : Q) (v : float64) :
  quantile [x] q = Py.Ok v -> exists w, v = Fin w /\ w == x.
Proof.
  intros H. destruct (quantile_Ok_valid _ _ _ H) as [H0 H1].
  destruct (quantile_single x q H0 H1) as (w & E & Hw).
  rewrite E in H. injection H as <-. exists w. split; [reflexivity | exact Hw].
Qed.

Lemma label_of_single (r : FeatureRow) (sh sm fh fm : Q) :
  sh == Total_Spending (feature_metrics r) ->
  sm == Total_Spending (feature_metrics r) ->
  fh == inject_Z (Purchase_Frequency (feature_metrics r)) ->
  label_of r (mkThresholds (mkLevels (Fin sh) (Fin sm))
                           (mkLevels (Fin fh) (Fin fm)) NaN)
  = "Occasional Buyers"%string.
Proof.
  intros Hsh Hsm Hfh. unfold label_of. cbv zeta. cbn [high medium spending frequency recency].
  unfold Float.of_Z. cbn [Float.gtb].
  rewrite (Qltb_irrefl_eq _ _ (Qeq_sym _ _ Hsh)).
  rewrite (Qltb_irrefl_eq _ _ (Qeq_sym _ _ Hsm)).
  rewrite (Qltb_irrefl_eq _ _ (Qeq_sym _ _ Hfh)).
  reflexivity.
Qed.

(** X10.  In a store with a single customer, a clustering that completes
    labels that customer an occasional buyer, whatever was bought and
    whenever. *)
Theorem single_customer_is_occasional (self self' : CustomerSegmentation)
    (now : Z) (res : SegmentationResults) (r : FeatureRow) :
  _thresholds self = None ->
  rows (features self) = [r] ->
  perform_clustering sqrt fit_predict self now = Py.Ok (res, self') ->
  Segment (features self') = Some ["Occasional Buyers"%string].
Proof.
  intros Hnone Hrows Hrun.
  destruct (perform_clustering_fresh _ _ _ _ Hnone Hrun)
    as (t & clusters & Ht & _ & _ & Hf & _).
  rewrite Hf, Hrows. simpl. f_equal. f_equal.
  unfold _calculate_thresholds in Ht. rewrite Hrows in Ht.
  unfold column in Ht. simpl map in Ht.
  apply bind_Ok in Ht. destruct Ht as (sh & Hsh & Ht).
  apply bind_Ok in Ht. destruct Ht as (sm & Hsm & Ht).
  apply bind_Ok in Ht. destruct Ht as (fh & Hfh & Ht).
  apply bind_Ok in Ht. destruct Ht as (fm & Hfm & Ht).
  apply quantile_single_Ok in Hsh, Hsm, Hfh, Hfm.
  destruct Hsh as (sh' & -> & Esh), Hsm as (sm' & -> & Esm),
    Hfh as (fh' & -> & Efh), Hfm as (fm' & -> & Efm).
  rewrite std_few in Ht by (simpl; lia). simpl Float.mul in Ht.
  rewrite add_nan_r in Ht. injection Ht as <-.
  apply label_of_single; assumption.
Qed.

Lemma label_of_name (row : FeatureRow) (t : Thresholds) :
  In (label_of row t) segment_names.
Proof.
  rewrite label_of_decision_list.
  destruct (Spec.label_segment row t); simpl; tauto.
Qed.

Lemma segment_count (rs : list FeatureRow) (labels : list string) (l : string) :
  List.length labels = List.length rs ->
  customer_count (segment_summary rs labels l) = count_occ string_dec labels l.
Proof.
  intros H. simpl. unfold segment_data. rewrite length_map.
  apply filter_snd_count. symmetry. exact H.
Qed.

(** X11.  A first call of [get_segmentation_results]: the segments of
    the result carry names of the six-label enumeration, none of them is
    empty, and their number, reported as [number_of_segments], is at
    most 6 and at most the number of customers. *)
Theorem segments_named_and_nonempty (self self' : CustomerSegmentation)
    (now : Z) (res : SegmentationResults) :
  Segment (features self) = None ->
  _thresholds self = None ->
  get_segmentation_results sqrt fit_predict self now = Py.Ok (res, self') ->
  number_of_segments (summary res) = List.length (segments res)
  /\ (List.length (segments res) <= 6)%nat
  /\ (List.length (segments res) <= total_customers (summary res))%nat
  /\ forall s, In s (segments res) ->
       In (segment_name s) segment_names /\ (1 <= customer_count s)%nat.
Proof.
  intros Hseg Hnone H. unfold get_segmentation_results in H. rewrite Hseg in H.
  apply bind_Ok in H. destruct H as ([r0 s0] & Hp & H). cbn [snd] in H.
  destruct (perform_clustering_fresh _ _ _ _ Hnone Hp)
    as (t & clusters & _ & _ & _ & Hf & _).
  rewrite Hf in H. cbn [Segment] in H.
  apply bind_Ok in H. destruct H as (r & Hr & [= <- <-]).
  unfold segmentation_results in Hr.
  apply bind_Ok in Hr. destruct Hr as (t' & _ & [= <-]).
  rewrite Hf. cbn [summary segments number_of_segments total_customers rows].
  set (rs := rows (features self)).
  set (labels := map (fun r => label_of r t) rs).
  assert (Hlen : List.length labels = List.length rs) by apply length_map.
  rewrite length_map.
  split; [reflexivity|]. split; [|split].
  - change 6%nat with (List.length segment_names).
    apply NoDup_incl_length; [apply unique_NoDup|].
    intros l Hl. apply -> unique_In in Hl. apply in_map_iff in Hl.
    destruct Hl as (row & <- & _). apply label_of_name.
  - rewrite <- Hlen. apply NoDup_incl_length; [apply unique_NoDup|].
    intros l Hl. apply unique_In, Hl.
  - intros s Hs. apply in_map_iff in Hs. destruct Hs as (l & <- & Hl).
    apply -> unique_In in Hl. split.
    + simpl. apply in_map_iff in Hl. destruct Hl as (row & <- & _).
      apply label_of_name.
    + rewrite (segment_count rs labels l Hlen).
      apply (count_occ_In string_dec) in Hl. lia.
Qed.




(** X13.  A found customer: the reported segment is the labeler applied
    to the metrics of the customer's row and to the reported thresholds,
    which are the thresholds of the engine; the reported metrics are
    those of the row. *)
Theorem customer_segment_found (self self' : CustomerSegmentation)
    (c : string) (now : Z) (cs : CustomerSegment) :
  Segment (features self) = None ->
  _thresholds self = None ->
  get_customer_segment sqrt fit_predict self c now = Py.Ok (Some cs, self') ->
  customer_id cs = c
  /\ _calculate_thresholds sqrt self = Py.Ok (thresholds cs)
  /\ exists row,
       In row (rows (features self))
       /\ Customer row = c
       /\ segment cs = label_of row (thresholds cs)
       /\ total_spending cs = Fin (Total_Spending (feature_metrics row))
       /\ purchase_frequency cs = Purchase_Frequency (feature_metrics row)
       /\ average_order_value cs
          = Average_Purchase_Amount (feature_metrics row)
       /\ days_since_last_purchase cs
          = Days_Since_Last_Purchase (feature_metrics row).
Proof.
  intros Hseg Hnone H. unfold get_customer_segment in H.
  destruct (negb _); [discriminate|]. rewrite Hseg in H.
  apply bind_Ok in H. destruct H as (s1 & Hs1 & H).
  apply bind_Ok in Hs1. destruct Hs1 as ([r0 s0] & Hp & [= <-]).
  pose proof (perform_clustering_setup _ _ _ Hp) as Hsetup.
  destruct (perform_clustering_fresh _ _ _ _ Hnone Hp)
    as (t & clusters & Ht & _ & _ & Hf & _).
  cbn [snd] in *. rewrite Hf in H. cbn [Segment rows] in H.
  apply bind_Ok in H. destruct H as ([row label] & Hloc & H).
  apply bind_Ok in H. destruct H as (t2 & Ht2 & [= <- <-]).
  rewrite (same_setup_thresholds _ _ Hsetup) in Ht2.
  assert (Et : t2 = t) by congruence. subst t2.
  unfold loc_customer in Hloc.
  destruct (find _ _) as [p|] eqn:Efind; [|discriminate].
  injection Hloc as ->. apply find_some in Efind.
  destruct Efind as [Hin Hc]. simpl in Hc. apply String.eqb_eq in Hc.
  pose proof (In_combine_map _ _ _ _ Hin) as Hlabel.
  apply in_combine_l in Hin.
  cbn [customer_id thresholds segment total_spending purchase_frequency
       average_order_value days_since_last_purchase fst snd].
  split; [reflexivity|]. split; [exact Ht|].
  exists row. repeat split; assumption.
Qed.

(** X14.  After a clustering, [get_segmentation_results] reports the
    same counts, thresholds and segments again, under the date of the
    new call, and leaves the engine as it is: nothing is clustered or
    labelled a second time. *)
Theorem clustering_results_repeatable (self self' : CustomerSegmentation)
    (now later : Z) (res : SegmentationResults) :
  perform_clustering sqrt fit_predict self now = Py.Ok (res, self') ->
  get_segmentation_results sqrt fit_predict self' later
  = Py.Ok (mkSegmentationResults
             (mkSummary (total_customers (summary res))
                        (number_of_segments (summary res)) later
                        (summary_thresholds (summary res)))
             (segments res),
           self').
Proof.
  intros Hp.
  destruct (perform_clustering_Ok _ _ _ _ _ Hp) as (labels & Hs & _ & _ & Hr).
  cbn [fst snd] in *. unfold get_segmentation_results. rewrite Hs.
  unfold segmentation_results in *.
  destruct (_calculate_thresholds sqrt self') as [t|e]; [|discriminate Hr].
  cbn [Py.bind] in *. injection Hr as <-. reflexivity.
Qed.

End ClusteringFacts.

Section ClusteringFactsExamples.

Import Pandas Classification.

(** The store of spec 8 with a high percentile of 1.5. *)
Lemma invalid_percentile_no_result_witness :
  _calculate_thresholds Examples.sqrt_floor
    (Classification.__init__ Examples.three_customers 0 1 (3 # 2) (1 # 2) 1)
  = Py.Raise Py.ValueError
  /\ ~ Py.returns
         (perform_clustering Examples.sqrt_floor Examples.one_cluster
            (Classification.__init__ Examples.three_customers 0 1
               (3 # 2) (1 # 2) 1) 0).
Proof.
  destruct (invalid_percentile_no_result Examples.sqrt_floor
              Examples.one_cluster
              (Classification.__init__ Examples.three_customers 0 1
                 (3 # 2) (1 # 2) 1) 0) as (H1 & H2 & _).
  - left. intros [_ H]. apply H. reflexivity.
  - split; assumption.
Defined.

(** The labels of a complete run on the store of spec 8. *)
Lemma segments_follow_reported_thresholds_witness :
  exists res self',
    perform_clustering Examples.sqrt_floor Examples.one_cluster
      Examples.three_customers_segmentation 0
    = Py.Ok (res, self')
    /\ _calculate_thresholds Examples.sqrt_floor
         Examples.three_customers_segmentation
       = Py.Ok (summary_thresholds (summary res)).
Proof.
  destruct (perform_clustering Examples.sqrt_floor Examples.one_cluster
              Examples.three_customers_segmentation 0)
    as [[res self']|e] eqn:Hrun; [|vm_compute in Hrun; discriminate Hrun].
  exists res, self'. split; [reflexivity|].
  destruct (segments_follow_reported_thresholds Examples.sqrt_floor
              Examples.one_cluster Examples.three_customers_segmentation
              self' 0 res eq_refl Hrun)
    as (labels & clusters & _ & _ & _ & _ & _ & Ht & _).
  exact Ht.
Defined.

(** A run on a store with a single purchase. *)
Lemma single_customer_is_occasional_witness :
  exists res self',
    perform_clustering Examples.sqrt_floor Examples.one_cluster
      (Classification.__init__ Examples.single_purchase Examples.a_month_later
         1 default_high_percentile default_medium_percentile
         default_recency_std_multiplier) 0
    = Py.Ok (res, self')
    /\ Segment (features self') = Some ["Occasional Buyers"%string].
Proof.
  destruct (perform_clustering Examples.sqrt_floor Examples.one_cluster
              (Classification.__init__ Examples.single_purchase
                 Examples.a_month_later 1 default_high_percentile
                 default_medium_percentile default_recency_std_multiplier) 0)
    as [[res self']|e] eqn:Hrun; [|vm_compute in Hrun; discriminate Hrun].
  exists res, self'. split; [reflexivity|].
  eapply (single_customer_is_occasional Examples.sqrt_floor
            Examples.one_cluster
            (Classification.__init__ Examples.single_purchase
               Examples.a_month_later 1 default_high_percentile
               default_medium_percentile default_recency_std_multiplier)
            self' 0 res).
  - reflexivity.
  - vm_compute. reflexivity.
  - exact Hrun.
Defined.

Lemma segments_named_and_nonempty_witness :
  exists res self',
    get_segmentation_results Examples.sqrt_floor Examples.one_cluster
      Examples.three_customers_segmentation 0
    = Py.Ok (res, self')
    /\ (List.length (segments res) <= 6)%nat
    /\ forall s, In s (segments res) -> (1 <= customer_count s)%nat.
Proof.
  destruct (get_segmentation_results Examples.sqrt_floor Examples.one_cluster
              Examples.three_customers_segmentation 0)
    as [[res self']|e] eqn:Hrun; [|vm_compute in Hrun; discriminate Hrun].
  exists res, self'. split; [reflexivity|].
  destruct (segments_named_and_nonempty Examples.sqrt_floor
              Examples.one_cluster Examples.three_customers_segmentation
              self' 0 res eq_refl eq_refl Hrun) as (_ & H6 & _ & Hs).
  split; [exact H6|]. intros s Hin. apply (Hs s Hin).
Defined.


(** The lookup of customer C3 of the store of spec 8. *)
Lemma customer_segment_found_witness :
  exists cs self',
    get_customer_segment Examples.sqrt_floor Examples.one_cluster
      Examples.three_customers_segmentation "C3" 0
    = Py.Ok (Some cs, self')
    /\ customer_id cs = "C3"%string
    /\ _calculate_thresholds Examples.sqrt_floor
         Examples.three_customers_segmentation
       = Py.Ok (thresholds cs).
Proof.
  destruct (get_customer_segment Examples.sqrt_floor Examples.one_cluster
              Examples.three_customers_segmentation "C3" 0)
    as [[[cs|] self']|e] eqn:Hrun;
    [|vm_compute in Hrun; discriminate Hrun
     |vm_compute in Hrun; discriminate Hrun].
  exists cs, self'. split; [reflexivity|].
  destruct (customer_segment_found Examples.sqrt_floor Examples.one_cluster
              Examples.three_customers_segmentation self' "C3" 0 cs
              eq_refl eq_refl Hrun) as (Hid & Ht & _).
  split; [exact Hid | exact Ht].
Defined.

Lemma clustering_results_repeatable_witness :
  exists res self',
    perform_clustering Examples.sqrt_floor Examples.one_cluster
      Examples.three_customers_segmentation 0
    = Py.Ok (res, self')
    /\ get_segmentation_results Examples.sqrt_floor Examples.one_cluster
         self' us_per_day
       = Py.Ok (mkSegmentationResults
                  (mkSummary (total_customers (summary res))
                             (number_of_segments (summary res)) us_per_day
                             (summary_thresholds (summary res)))
                  (segments res),
                self').
Proof.
  destruct (perform_clustering Examples.sqrt_floor Examples.one_cluster
              Examples.three_customers_segmentation 0)
    as [[res self']|e] eqn:Hrun; [|vm_compute in Hrun; discriminate Hrun].
  exists res, self'. split; [reflexivity|].
  apply (clustering_results_repeatable Examples.sqrt_floor
           Examples.one_cluster Examples.three_customers_segmentation
           self' 0 us_per_day res Hrun).
Defined.

End ClusteringFactsExamples.

(* ------------------------------------------------------------------ *)
(** * More on the recommendation engine *)

Section RecommenderFacts.

Import Pandas Recommendation.

Variable arpack : matrix -> Z -> Py.result (matrix * list Q * matrix).
Variable argsort : list Q -> list nat.

(** The products left to recommend to customer [c]: those whose cell
    of the purchase matrix is 0. *)
Local Abbreviation candidates data c :=
  (filter (fun p => Qeq_bool (pivot_cell data Customer_ID Product_ID c p) 0)
          (unique_sorted (map Product_ID data))).

Lemma customers_nonempty (data : list Transaction) :
  data <> [] -> (0 < List.length (unique_sorted (map Customer_ID data)))%nat.
Proof.
  intros H. destruct data as [|t data]; [congruence|].
  assert (Hin : In (Customer_ID t)
                   (unique_sorted (map Customer_ID (t :: data))))
    by (apply unique_sorted_In; left; reflexivity).
  destruct (unique_sorted _); [destruct Hin | simpl; lia].
Qed.

Lemma init_rejects_factor_count (data : list Transaction) (k : Z) :
  data <> [] ->
  (k <= 0
   \/ Z.of_nat (Nat.min (List.length (unique_sorted (map Customer_ID data)))
                        (List.length (unique_sorted (map Product_ID data))))
      <= k)%Z ->
  __init__ arpack data k = Py.Raise Py.ValueError.
Proof.
  intros Hdata Hk. unfold __init__, _load_and_process_data. cbv zeta.
  rewrite sub_rows_Ok by (unfold mean_rows; rewrite length_map; reflexivity).
  cbn [Py.bind]. unfold svds.
  pose proof (pivot_shape data Customer_ID Product_ID) as Hshape.
  pose proof (rows_op_shape Qminus _ (mean_rows
                (values (pivot_table data Customer_ID Product_ID))) _ _ Hshape)
    as Hc.
  specialize (Hc ltac:(unfold mean_rows; rewrite length_map; apply Hshape)).
  rewrite (has_shape_ncols _ _ _ Hc (customers_nonempty data Hdata)).
  unfold nrows. rewrite (proj1 Hc).
  replace (_ && _) with false; [reflexivity|]. symmetry.
  apply andb_false_iff. destruct Hk as [Hk | Hk].
  - left. apply Z.ltb_ge, Hk.
  - right. apply Z.ltb_ge, Hk.
Qed.

(** X15.  [svds] is asked for [n_factors] factors of the centred
    purchase matrix, and refuses a count that is not below both of its
    dimensions: such an engine is never built. *)
Theorem factor_count_out_of_range (data : list Transaction) (k : Z) :
  data <> [] ->
  (k <= 0
   \/ Z.of_nat (Nat.min (List.length (unique_sorted (map Customer_ID data)))
                        (List.length (unique_sorted (map Product_ID data))))
      <= k)%Z ->
  __init__ arpack data k = Py.Raise Py.ValueError.
Proof. apply init_rejects_factor_count. Qed.

Lemma NoDup_firstn {A : Type} (j : nat) (l : list A) :
  NoDup l -> NoDup (firstn j l).
Proof.
  intros H. rewrite <- (firstn_skipn j l) in H.
  apply NoDup_app_remove_r in H. exact H.
Qed.

Lemma slice_to_firstn {A : Type} (xs : list A) (n : Z) :
  exists j, Py.slice_to xs n = firstn j xs.
Proof. unfold Py.slice_to. destruct (0 <=? n)%Z; eexists; reflexivity. Qed.

Lemma sorted_app_le {A : Type} (R : A -> A -> Prop) (l1 l2 : list A)
    (a b : A) :
  StronglySorted R (l1 ++ l2) -> In a l1 -> In b l2 -> R a b.
Proof.
  induction l1 as [|x l1 IH]; simpl; intros Hs Ha Hb; [destruct Ha|].
  inversion Hs as [|? ? Hs' Hall]; subst. destruct Ha as [-> | Ha].
  - rewrite Forall_forall in Hall. apply Hall, in_or_app. right. exact Hb.
  - apply IH; assumption.
Qed.

(** The ranking behind a result of [get_recommendations]: the
    candidates, each once and with its predicted score, in
    non-increasing order of score, of which the result is a prefix. *)
Lemma recommendations_prefix (data : list Transaction) (k : Z)
    (eng : RecommendationEngine) (c : string) (n : Z) :
  argsort_sorts argsort ->
  __init__ arpack data k = Py.Ok eng ->
  In c (index (purchase_matrix eng)) ->
  exists ranked recs,
    get_recommendations argsort eng c n
    = Py.Ok (mkRecommendations None recs c)
    /\ Permutation (map fst ranked) (candidates data c)
    /\ (forall p v, In (p, v) ranked ->
                    loc_cell (predictions_df eng) c p = Py.Ok v)
    /\ StronglySorted (fun a b => snd b <= snd a) ranked
    /\ map (fun r => (product_id r, predicted_rating r)) recs
       = Py.slice_to ranked n.
Proof.
  intros Hsort Hinit Hc.
  destruct (get_recommendations_Ok arpack argsort data k eng c n Hinit Hc)
    as (predicted & recs & Hrun & Hfst & Hcell & Hmap & _).
  pose proof (sort_values_descending_perm argsort predicted Hsort) as Hperm.
  exists (sort_values_descending argsort predicted), recs.
  split; [exact Hrun|]. split; [|split; [|split]].
  - eapply perm_trans; [apply Permutation_map, Hperm|].
    rewrite Hfst, map_fst_filter_combine. apply Permutation_refl.
  - intros p v H. apply Hcell. eapply Permutation_in; [apply Hperm | exact H].
  - apply sort_values_descending_sorted, Hsort.
  - exact Hmap.
Qed.

Lemma candidates_In (data : list Transaction) (c p : string) :
  In p (candidates data c) <->
  In p (map Product_ID data)
  /\ pivot_cell data Customer_ID Product_ID c p == 0.
Proof.
  rewrite filter_In, unique_sorted_In. split; intros [H1 H2]; split; auto.
  - apply Qeq_bool_eq, H2.
  - apply Qeq_eq_bool, H2.
Qed.

(** X16.  A customer of the store who is asked [n >= 0] recommendations
    gets [n] of them when that many candidates exist and all candidates
    otherwise; for a negative [n] the count is the number of candidates
    less [-n], and 0 when there are fewer.  No product is recommended
    twice. *)
Theorem recommendation_count (data : list Transaction) (k : Z)
    (eng : RecommendationEngine) (c : string) (n : Z) :
  argsort_sorts argsort ->
  __init__ arpack data k = Py.Ok eng ->
  In c (index (purchase_matrix eng)) ->
  exists recs,
    get_recommendations argsort eng c n
    = Py.Ok (mkRecommendations None recs c)
    /\ NoDup (map product_id recs)
    /\ ((0 <= n)%Z ->
        List.length recs
        = Nat.min (Z.to_nat n) (List.length (candidates data c)))
    /\ ((n < 0)%Z ->
        List.length recs
        = (List.length (candidates data c) - Z.to_nat (- n))%nat).
Proof.
  intros Hsort Hinit Hc.
  destruct (recommendations_prefix data k eng c n Hsort Hinit Hc)
    as (ranked & recs & Hrun & Hperm & _ & _ & Hmap).
  exists recs. split; [exact Hrun|].
  assert (Hlen : List.length ranked = List.length (candidates data c)).
  { rewrite <- (length_map fst ranked). apply Permutation_length, Hperm. }
  assert (Hrecs : List.length recs = List.length (Py.slice_to ranked n)).
  { rewrite <- Hmap. symmetry. apply length_map. }
  split; [|split].
  - assert (E : map product_id recs = map fst (Py.slice_to ranked n)).
    { rewrite <- Hmap, map_map. reflexivity. }
    rewrite E. destruct (slice_to_firstn ranked n) as [j ->].
    rewrite <- firstn_map. apply NoDup_firstn.
    eapply Permutation_NoDup; [apply Permutation_sym, Hperm|].
    apply NoDup_filter, unique_sorted_NoDup.
  - intros Hn. rewrite Hrecs. unfold Py.slice_to.
    rewrite (proj2 (Z.leb_le 0 n) Hn), length_firstn, Hlen. reflexivity.
  - intros Hn. rewrite Hrecs. unfold Py.slice_to.
    rewrite (proj2 (Z.leb_gt 0 n) Hn), length_firstn, Hlen. lia.
Qed.

(** X17.  No candidate that is left out of a result has a higher
    predicted score than a product in it. *)
Theorem left_out_scores_no_higher (data : list Transaction) (k : Z)
    (eng : RecommendationEngine) (c : string) (n : Z) :
  argsort_sorts argsort ->
  __init__ arpack data k = Py.Ok eng ->
  In c (index (purchase_matrix eng)) ->
  exists recs,
    get_recommendations argsort eng c n
    = Py.Ok (mkRecommendations None recs c)
    /\ forall r p v,
         In r recs ->
         In p (map Product_ID data) ->
         pivot_cell data Customer_ID Product_ID c p == 0 ->
         ~ In p (map product_id recs) ->
         loc_cell (predictions_df eng) c p = Py.Ok v ->
         v <= predicted_rating r.
Proof.
  intros Hsort Hinit Hc.
  destruct (recommendations_prefix data k eng c n Hsort Hinit Hc)
    as (ranked & recs & Hrun & Hperm & Hcell & Hsorted & Hmap).
  exists recs. split; [exact Hrun|].
  intros r p v Hr Hp Hz Hout Hv.
  destruct (slice_to_firstn ranked n) as [j Hj]. rewrite Hj in Hmap.
  assert (Hin : In p (map fst ranked)).
  { eapply Permutation_in; [apply Permutation_sym, Hperm|].
    apply candidates_In. split; assumption. }
  apply in_map_iff in Hin. destruct Hin as ([p' v'] & E & Hin).
  simpl in E. subst p'.
  pose proof (Hcell _ _ Hin) as Hv'. rewrite Hv in Hv'. injection Hv' as ->.
  rewrite <- (firstn_skipn j ranked) in Hin, Hsorted.
  apply in_app_or in Hin. destruct Hin as [Hin | Hin].
  - exfalso. apply Hout.
    replace (map product_id recs)
      with (map fst (map (fun r => (product_id r, predicted_rating r)) recs))
      by (rewrite map_map; reflexivity).
    rewrite Hmap. apply (in_map fst) in Hin. exact Hin.
  - apply (sorted_app_le (fun a b : string * Q => snd b <= snd a)
                         (firstn j ranked) (skipn j ranked)
                         (product_id r, predicted_rating r) (p, v')
                         Hsorted); [|exact Hin].
    rewrite <- Hmap.
    apply (in_map (fun r => (product_id r, predicted_rating r))), Hr.
Qed.

(** X18.  Asked for at least as many recommendations as there are
    candidates, the engine recommends every product whose cell of the
    purchase matrix is 0 for the customer, and only those. *)
Theorem every_candidate_recommended (data : list Transaction) (k : Z)
    (eng : RecommendationEngine) (c : string) (n : Z) :
  argsort_sorts argsort ->
  __init__ arpack data k = Py.Ok eng ->
  In c (index (purchase_matrix eng)) ->
  (Z.of_nat (List.length (candidates data c)) <= n)%Z ->
  exists recs,
    get_recommendations argsort eng c n
    = Py.Ok (mkRecommendations None recs c)
    /\ forall p, In p (map product_id recs) <->
                 In p (map Product_ID data)
                 /\ pivot_cell data Customer_ID Product_ID c p == 0.
Proof.
  intros Hsort Hinit Hc Hn.
  destruct (recommendations_prefix data k eng c n Hsort Hinit Hc)
    as (ranked & recs & Hrun & Hperm & _ & _ & Hmap).
  exists recs. split; [exact Hrun|]. intros p.
  assert (Hlen : List.length ranked = List.length (candidates data c)).
  { rewrite <- (length_map fst ranked). apply Permutation_length, Hperm. }
  unfold Py.slice_to in Hmap. rewrite (proj2 (Z.leb_le 0 n)) in Hmap by lia.
  rewrite firstn_all2 in Hmap by lia.
  replace (map product_id recs)
    with (map fst (map (fun r => (product_id r, predicted_rating r)) recs))
    by (rewrite map_map; reflexivity).
  rewrite Hmap, <- candidates_In. split; intros H.
  - eapply Permutation_in; [apply Hperm | exact H].
  - eapply Permutation_in; [apply Permutation_sym, Hperm | exact H].
Qed.



End RecommenderFacts.

Section RecommenderFactsExamples.

Import Pandas Recommendation.

(** The store of spec 8 with the default of 10 factors. *)
Lemma factor_count_out_of_range_witness :
  __init__ Examples.three_customers_factors Examples.three_customers
    default_n_factors
  = Py.Raise Py.ValueError.
Proof.
  apply (factor_count_out_of_range Examples.three_customers_factors
           Examples.three_customers default_n_factors).
  - discriminate.
  - right. vm_compute. discriminate.
Defined.

(** Customer "A" of [Examples.tied_store] has two candidates and asks
    for five recommendations. *)
Lemma recommendation_count_witness :
  exists eng,
    __init__ Examples.tied_store_factors Examples.tied_store 1 = Py.Ok eng
    /\ exists recs,
         get_recommendations Examples.argsort_stable eng "A" 5
         = Py.Ok (mkRecommendations None recs "A")
         /\ NoDup (map product_id recs)
         /\ List.length recs = 2%nat.
Proof.
  eexists. split; [vm_compute; reflexivity|].
  match goal with
  | |- exists recs, get_recommendations _ ?e _ _ = _ /\ _ =>
      destruct (recommendation_count Examples.tied_store_factors
                  Examples.argsort_stable Examples.tied_store 1 e "A" 5
                  argsort_stable_sorts)
        as (recs & Hrun & Hnd & Hlen & _)
  end.
  - vm_compute. reflexivity.
  - left. reflexivity.
  - exists recs. split; [exact Hrun|]. split; [exact Hnd|].
    apply Hlen. discriminate.
Defined.

(** Customer "A" of [Examples.tied_store] asks for one recommendation. *)
Lemma left_out_scores_no_higher_witness :
  exists eng,
    __init__ Examples.tied_store_factors Examples.tied_store 1 = Py.Ok eng
    /\ exists recs,
         get_recommendations Examples.argsort_stable eng "A" 1
         = Py.Ok (mkRecommendations None recs "A")
         /\ forall r v,
              In r recs ->
              ~ In "P3"%string (map product_id recs) ->
              loc_cell (predictions_df eng) "A" "P3" = Py.Ok v ->
              v <= predicted_rating r.
Proof.
  eexists. split; [vm_compute; reflexivity|].
  match goal with
  | |- exists recs, get_recommendations _ ?e _ _ = _ /\ _ =>
      destruct (left_out_scores_no_higher Examples.tied_store_factors
                  Examples.argsort_stable Examples.tied_store 1 e "A" 1
                  argsort_stable_sorts)
        as (recs & Hrun & Hle)
  end.
  - vm_compute. reflexivity.
  - left. reflexivity.
  - exists recs. split; [exact Hrun|]. intros r v Hr Hout Hv.
    apply (Hle r "P3"%string v Hr); [| |exact Hout|exact Hv].
    + right. right. left. reflexivity.
    + vm_compute. reflexivity.
Defined.

Lemma every_candidate_recommended_witness :
  exists eng,
    __init__ Examples.tied_store_factors Examples.tied_store 1 = Py.Ok eng
    /\ exists recs,
         get_recommendations Examples.argsort_stable eng "A" 2
         = Py.Ok (mkRecommendations None recs "A")
         /\ In "P2"%string (map product_id recs)
         /\ In "P3"%string (map product_id recs).
Proof.
  eexists. split; [vm_compute; reflexivity|].
  match goal with
  | |- exists recs, get_recommendations _ ?e _ _ = _ /\ _ =>
      destruct (every_candidate_recommended Examples.tied_store_factors
                  Examples.argsort_stable Examples.tied_store 1 e "A" 2
                  argsort_stable_sorts)
        as (recs & Hrun & Hall)
  end.
  - vm_compute. reflexivity.
  - left. reflexivity.
  - vm_compute. discriminate.
  - exists recs. split; [exact Hrun|]. split; apply Hall; split.
    + right. left. reflexivity.
    + vm_compute. reflexivity.
    + right. right. left. reflexivity.
    + vm_compute. reflexivity.
Defined.


End RecommenderFactsExamples.

(* ------------------------------------------------------------------ *)
(** * The commands of cli.py *)

Section CliFacts.

Import Pandas.

Variable sqrt : Q -> Q.
Variable fit_predict : list (list float64) -> Z -> Py.result (list Z).
Variable arpack :
  Recommendation.matrix -> Z
  -> Py.result (Recommendation.matrix * list Q * Recommendation.matrix).
Variable argsort : list Q -> list nat.
Variable format_2f : float64 -> string.
Variable format_1f : float64 -> string.
Variable dumps_recommendations : Recommendation.Recommendations -> string.
Variable dumps_segmentation : Classification.SegmentationResults -> string.
Variable dumps_customer : Classification.CustomerSegment -> string.

Local Abbreviation recommend :=
  (Cli.recommend_command arpack argsort format_2f dumps_recommendations).

Local Abbreviation classify :=
  (Cli.classify_command sqrt fit_predict format_2f format_1f
     dumps_segmentation dumps_customer).

(** X20.  [recommend_command] builds its engine with the default of 10
    factors, so a store with at most 10 customers or at most 10 products
    gets no recommendation for anyone: the command raises. *)
Theorem recommend_command_small_store (data : list Transaction)
    (c : string) (n : Z) (json : bool) :
  data <> [] ->
  (List.length (unique_sorted (map Customer_ID data)) <= 10
   \/ List.length (unique_sorted (map Product_ID data)) <= 10)%nat ->
  recommend data c n json = Py.Raise Py.ValueError.
Proof.
  intros Hdata Hsmall. unfold Cli.recommend_command.
  rewrite (init_rejects_factor_count arpack data
             Recommendation.default_n_factors Hdata); [reflexivity|].
  right. unfold Recommendation.default_n_factors. lia.
Qed.

(** X21.  For a customer who is not in the store, [recommend_command]
    prints the error message of the engine and nothing else, with or
    without [--json]. *)
Theorem recommend_command_unknown_customer (data : list Transaction)
    (eng : Recommendation.RecommendationEngine) (c : string) (n : Z)
    (json : bool) :
  Recommendation.__init__ arpack data Recommendation.default_n_factors
  = Py.Ok eng ->
  ~ In c (map Customer_ID data) ->
  recommend data c n json
  = Py.Ok [("Customer " ++ c ++ " not found in database")%string].
Proof.
  intros Hinit Hc. unfold Cli.recommend_command. rewrite Hinit.
  cbn [Py.bind].
  destruct (init_Ok arpack data _ eng Hinit) as (_ & _ & vals & Hpred & _).
  rewrite get_recommendations_not_found.
  - reflexivity.
  - rewrite Hpred. simpl. intros H. apply Hc.
    apply -> unique_sorted_In in H. exact H.
Qed.



(** X23.  Asked for the segment of a customer who is not in the store,
    [classify_command] prints one line and stops: no clustering is run,
    so the outcome is the same whatever the cluster count, the
    percentiles and [--json] are. *)
Theorem classify_command_unknown_customer (data : list Transaction)
    (current_date now clusters : Z) (c : string) (hp mp mult : Q)
    (json : bool) :
  data <> [] ->
  c <> ""%string ->
  ~ In c (map Customer_ID data) ->
  classify data current_date now clusters (Some c) hp mp mult json
  = Py.Ok [("Customer " ++ c ++ " not found")%string].
Proof.
  intros _ Hne Hc. unfold Cli.classify_command. cbv zeta.
  cbn [Cli.truthy]. rewrite (proj2 (String.eqb_neq c "") Hne). cbn [negb].
  rewrite get_customer_segment_not_found.
  - reflexivity.
  - rewrite features_index. intros H. apply Hc.
    apply -> unique_sorted_In in H. exact H.
Qed.




Lemma segment_lines_length (l : list Classification.SegmentSummary) :
  List.length (flat_map (Cli.segment_lines format_2f format_1f) l)
  = (6 * List.length l)%nat.
Proof.
  induction l as [|x l IH]; [reflexivity|].
  cbn [flat_map]. rewrite length_app, IH. simpl. lia.
Qed.

Lemma init_fresh (data : list Transaction) (current_date clusters : Z)
    (hp mp mult : Q) :
  Classification._thresholds
    (Classification.__init__ data current_date clusters hp mp mult) = None.
Proof.
  unfold Classification.__init__, Classification._prepare_features.
  reflexivity.
Qed.

(** X25.  The report of [classify_command] on the whole store, when
    the clustering completes: thirteen lines of banner, counts and
    thresholds, then six lines per segment, so at most 49 texts; the
    customers counted are the distinct customer ids of the data; with
    [--json] the result is printed in one piece instead. *)
Theorem classify_command_report (data : list Transaction)
    (current_date now clusters : Z) (customer : option string)
    (hp mp mult : Q) (res : Classification.SegmentationResults)
    (self' : Classification.CustomerSegmentation) :
  Cli.truthy customer = false ->
  Classification.perform_clustering sqrt fit_predict
    (Classification.__init__ data current_date clusters hp mp mult) now
  = Py.Ok (res, self') ->
  classify data current_date now clusters customer hp mp mult true
  = Py.Ok [dumps_segmentation res]
  /\ exists out,
       classify data current_date now clusters customer hp mp mult false
       = Py.Ok out
       /\ List.length out
          = (13 + 6 * List.length (Classification.segments res))%nat
       /\ (List.length out <= 49)%nat
       /\ nth_error out 4
          = Some ("Total Customers: "
                  ++ Cli.str_nat
                       (List.length (unique_sorted (map Customer_ID data))))%string
       /\ nth_error out 5
          = Some ("Number of Segments: "
                  ++ Cli.str_nat
                       (List.length (Classification.segments res)))%string.
Proof.
  intros Hc Hrun.
  assert (Hcmd : forall json,
            classify data current_date now clusters customer hp mp mult json
            = if json then Py.Ok [dumps_segmentation res]
              else Cli.print_formatted_classification_results
                     format_2f format_1f (inr res) false).
  { intros json. unfold Cli.classify_command. cbv zeta. rewrite Hc.
    destruct customer as [c|]; rewrite Hrun; reflexivity. }
  split; [apply (Hcmd true)|]. rewrite (Hcmd false). clear Hcmd.
  pose proof (init_fresh data current_date clusters hp mp mult) as Hfresh.
  assert (Hrs : List.length
                  (Classification.rows
                     (Classification.features
                        (Classification.__init__ data current_date clusters
                           hp mp mult)))
                = List.length (unique_sorted (map Customer_ID data))).
  { rewrite <- (length_map Classification.Customer).
    rewrite features_index. reflexivity. }
  set (self := Classification.__init__ data current_date clusters hp mp mult)
    in *.
  clearbody self.
  destruct (perform_clustering_fresh sqrt fit_predict _ _ _ _ Hfresh Hrun)
    as (t & cl & _ & _ & _ & Hf & Hr & _).
  unfold Classification.segmentation_results in Hr.
  apply bind_Ok in Hr. destruct Hr as (t' & _ & [= <-]).
  rewrite Hf. cbn [Classification.rows].
  set (rs := Classification.rows (Classification.features self)) in *.
  set (labels := map (fun r => Classification.label_of r t) rs).
  assert (H6 : (List.length (unique labels) <= 6)%nat).
  { change 6%nat with (List.length Setup.segment_names).
    apply NoDup_incl_length; [apply unique_NoDup|].
    intros l Hl. apply -> unique_In in Hl. apply in_map_iff in Hl.
    destruct Hl as (row & <- & _). apply label_of_name. }
  clearbody labels. clearbody rs.
  eexists. split; [reflexivity|].
  cbn [Classification.summary Classification.segments
       Classification.total_customers Classification.number_of_segments
       Classification.summary_thresholds].
  rewrite !length_app, segment_lines_length, !length_map.
  cbn [List.length]. rewrite Hrs.
  split; [lia|]. split; [lia|]. split; reflexivity.
Qed.

End CliFacts.

Section CliFactsExamples.

Import Pandas.

(** The store of spec 8 has three customers and two products. *)
Lemma recommend_command_small_store_witness :
  Cli.recommend_command Examples.three_customers_factors
    Examples.argsort_stable Cli.format_whole Cli.dumps_nothing
    Examples.three_customers "C1" 5 false
  = Py.Raise Py.ValueError.
Proof.
  apply (recommend_command_small_store Examples.three_customers_factors
           Examples.argsort_stable Cli.format_whole Cli.dumps_nothing
           Examples.three_customers "C1" 5 false).
  - discriminate.
  - left. vm_compute. lia.
Defined.

Lemma recommend_command_unknown_customer_witness :
  Cli.recommend_command Cli.flat_factors Examples.argsort_stable
    Cli.format_whole Cli.dumps_nothing Cli.eleven_customers "Z" 5 true
  = Py.Ok ["Customer Z not found in database"%string].
Proof.
  eassert (Hinit : Recommendation.__init__ Cli.flat_factors
                     Cli.eleven_customers Recommendation.default_n_factors
                   = Py.Ok _) by (vm_compute; reflexivity).
  apply (recommend_command_unknown_customer Cli.flat_factors
           Examples.argsort_stable Cli.format_whole Cli.dumps_nothing
           Cli.eleven_customers _ "Z" 5 true Hinit).
  intros H. vm_compute in H.
  repeat (destruct H as [H | H]; [discriminate H|]). exact H.
Defined.


(** The store of spec 8, a customer it does not have, and a high
    percentile of 75. *)
Lemma classify_command_unknown_customer_witness :
  Cli.classify_command Examples.sqrt_floor Examples.one_cluster
    Cli.format_whole Cli.format_whole Cli.dumps_nothing Cli.dumps_nothing
    Examples.three_customers 0 0 5 (Some "C9"%string) 75 (1 # 2) 1 false
  = Py.Ok ["Customer C9 not found"%string].
Proof.
  apply (classify_command_unknown_customer Examples.sqrt_floor
           Examples.one_cluster Cli.format_whole Cli.format_whole
           Cli.dumps_nothing Cli.dumps_nothing
           Examples.three_customers 0 0 5 "C9" 75 (1 # 2) 1 false).
  - discriminate.
  - discriminate.
  - simpl. intros [H | [H | [H | [H | []]]]]; discriminate H.
Defined.


(** The report on the store of spec 8 with one cluster. *)
Lemma classify_command_report_witness :
  exists out,
    Cli.classify_command Examples.sqrt_floor Examples.one_cluster
      Cli.format_whole Cli.format_whole Cli.dumps_nothing Cli.dumps_nothing
      Examples.three_customers 0 0 1 None (3 # 4) (1 # 2) 1 false
    = Py.Ok out
    /\ (List.length out <= 49)%nat
    /\ nth_error out 4 = Some "Total Customers: 3"%string.
Proof.
  destruct (Classification.perform_clustering Examples.sqrt_floor
              Examples.one_cluster
              (Classification.__init__ Examples.three_customers 0 1
                 (3 # 4) (1 # 2) 1) 0)
    as [[res self']|e] eqn:Hrun; [|vm_compute in Hrun; discriminate Hrun].
  destruct (classify_command_report Examples.sqrt_floor Examples.one_cluster
              Cli.format_whole Cli.format_whole Cli.dumps_nothing
              Cli.dumps_nothing Examples.three_customers 0 0 1 None
              (3 # 4) (1 # 2) 1 res self' eq_refl Hrun)
    as (_ & out & Hout & _ & H49 & Htotal & _).
  exists out. split; [exact Hout|]. split; [exact H49 | exact Htotal].
Defined.

End CliFactsExamples.
